(** * Morpheus: column preallocation and the AppShield source stage

    A shallow embedding of

    - [morpheus/pipeline/preallocator_mixin.py] ([PreallocatorMixin]), and
    - [morpheus/stages/input/appshield_source_stage.py]
      ([AppShieldSourceStage]),

    together with the properties of these two files that the specification
    of the repository states.

    Python exceptions are values of [exn]; a call that may raise returns a
    [result].  Objects that the Python code mutates in place (a dataframe,
    the segment builder, the logger) are passed and returned explicitly.
    A Python [str] is a [string] whose characters are the code points below
    256. *)

From Stdlib Require Import List String Ascii ZArith Bool Arith Lia Permutation.
From Stdlib Require Import DecimalString DecimalNat.
Import ListNotations.
Open Scope string_scope.

(** ** Shared vocabulary *)

(** A cell of a dataframe.  The code below never computes with a cell: it
    stores them, copies them and, for the [source] column, compares them.
    A zero written by [numpy.zeros] is [SInt 0] whatever the numeric dtype;
    the dtype is recorded on the column that holds it. *)
Inductive scalar : Type :=
| SNone
| SInt (z : Z)
| SStr (s : string).

Definition scalar_eqb (a b : scalar) : bool :=
  match a, b with
  | SNone, SNone => true
  | SInt x, SInt y => Z.eqb x y
  | SStr x, SStr y => String.eqb x y
  | _, _ => false
  end.

(** The exceptions that the modelled code raises or lets through. *)
Inductive exn : Type :=
| JSONDecodeError (msg : string)
| UnicodeDecodeError (msg : string)
| ValueError (msg : string)
| IndexError (msg : string)
| KeyError (key : string)
| OSError (msg : string)
| RuntimeError (msg : string)
| TypeError (msg : string)
| AttributeError (msg : string)
| InvalidIndexError (msg : string).

Inductive result (A : Type) : Type :=
| Ok (a : A)
| Raise (e : exn).
Arguments Ok {A} a.
Arguments Raise {A} e.

Definition result_bind {A B} (r : result A) (f : A -> result B) : result B :=
  match r with
  | Ok a => f a
  | Raise e => Raise e
  end.

(** [x in l] for a list of strings. *)
Definition str_in (x : string) (l : list string) : bool :=
  existsb (String.eqb x) l.


(** ** [PreallocatorMixin] *)

Module Preallocator.

(** Modelled from the spec: the [TypeId] enumeration of [morpheus.common]
    is not part of the sources at hand.  The specification describes a type
    tag as "one of: 64-bit integer, 32-bit float, string, or other declared
    scalar"; [INT64], [FLOAT32] and [STRING] are the members that the
    sources name. *)
Inductive TypeId : Type :=
| INT64
| FLOAT32
| STRING
| OtherScalar (name : string).

Definition TypeId_eqb (a b : TypeId) : bool :=
  match a, b with
  | INT64, INT64 => true
  | FLOAT32, FLOAT32 => true
  | STRING, STRING => true
  | OtherScalar x, OtherScalar y => String.eqb x y
  | _, _ => false
  end.

(** A column: a dtype and the cells, one per row. *)
Record Series : Type := mkSeries {
  dtype : string;
  values : list scalar
}.

(** A dataframe as [_preallocate_df] sees it: which library it belongs to
    ([isinstance(df, cudf.DataFrame)]), the length of its index ([len(df)])
    and its columns in order. *)
Record DataFrame : Type := mkDataFrame {
  is_cudf : bool;
  index_len : nat;
  data : list (string * Series)
}.

Definition columns (df : DataFrame) : list string := map fst (data df).

Definition len (df : DataFrame) : nat := index_len df.

(** [numpy.zeros(n, dt)] and [cupy.zeros(n, dt)]. *)
Definition np_zeros (n : nat) (dt : string) : Series :=
  {| dtype := dt; values := repeat (SInt 0) n |}.

Definition cp_zeros (n : nat) (dt : string) : Series :=
  {| dtype := dt; values := repeat (SInt 0) n |}.

(** The column that pandas builds when a Python [str] is assigned to a
    label: an [object] column with the scalar on every row. *)
Definition broadcast_str (n : nat) (s : string) : Series :=
  {| dtype := "object"; values := repeat (SStr s) n |}.

Fixpoint get_column (name : string) (cols : list (string * Series))
  : option Series :=
  match cols with
  | [] => None
  | (k, v) :: rest => if String.eqb k name then Some v else get_column name rest
  end.

(** [df[name] = s] on the column list: an existing label keeps its place
    and gets the new column, a new label is appended. *)
Fixpoint set_column (name : string) (s : Series) (cols : list (string * Series))
  : list (string * Series) :=
  match cols with
  | [] => [(name, s)]
  | (k, v) :: rest =>
      if String.eqb k name then (k, s) :: rest
      else (k, v) :: set_column name s rest
  end.

Definition setitem (df : DataFrame) (name : string) (s : Series) : DataFrame :=
  {| is_cudf := is_cudf df;
     index_len := index_len df;
     data := set_column name s (data df) |}.

(** [self._needed_columns]: an [OrderedDict] from column name to [TypeId],
    as its items in insertion order. *)
Definition OrderedDict : Type := list (string * TypeId).

Definition keys (d : OrderedDict) : list string := map fst d.

Fixpoint getitem (d : OrderedDict) (k : string) : result TypeId :=
  match d with
  | [] => Raise (KeyError k)
  | (k', t) :: rest => if String.eqb k' k then Ok t else getitem rest k
  end.

Section PreallocateDf.

(** [typeid_to_numpy_str] comes from [morpheus.common], which is not part
    of the sources at hand; the development holds for any such function. *)
Variable typeid_to_numpy_str : TypeId -> string.

(** The body of [for column_name in missing_columns]. *)
Definition preallocate_column (needed_columns : OrderedDict)
    (alloc_func : nat -> string -> Series) (num_rows : nat)
    (df : DataFrame) (column_name : string) : result DataFrame :=
  result_bind (getitem needed_columns column_name) (fun column_type =>
    if negb (TypeId_eqb column_type STRING) then
      let column_type_str := typeid_to_numpy_str column_type in
      Ok (setitem df column_name (alloc_func num_rows column_type_str))
    else
      Ok (setitem df column_name (broadcast_str (len df) ""))).

Fixpoint preallocate_columns (needed_columns : OrderedDict)
    (alloc_func : nat -> string -> Series) (num_rows : nat)
    (df : DataFrame) (missing_columns : list string) : result DataFrame :=
  match missing_columns with
  | [] => Ok df
  | column_name :: rest =>
      result_bind
        (preallocate_column needed_columns alloc_func num_rows df column_name)
        (fun df' =>
           preallocate_columns needed_columns alloc_func num_rows df' rest)
  end.

(** [PreallocatorMixin._preallocate_df].  The dataframe is updated in
    place and returned; the [logger.debug] line is left out. *)
Definition _preallocate_df (needed_columns : OrderedDict) (df : DataFrame)
  : result DataFrame :=
  let missing_columns :=
    filter (fun col => negb (str_in col (columns df))) (keys needed_columns) in
  if (0 <? List.length missing_columns)%nat then
    let alloc_func := if is_cudf df then cp_zeros else np_zeros in
    let num_rows := len df in
    preallocate_columns needed_columns alloc_func num_rows df missing_columns
  else Ok df.

(** The column that a missing column of type [t] receives in a frame of
    [n] rows. *)
Definition fill_column (n : nat) (t : TypeId) : Series :=
  if TypeId_eqb t STRING then broadcast_str n ""
  else np_zeros n (typeid_to_numpy_str t).

(** [MessageMeta] holds the dataframe; [mutable_dataframe()] hands it out
    for the duration of the [with] block and takes it back. *)
Record MessageMeta : Type := mkMessageMeta {
  meta_df : DataFrame
}.

(** [MultiMessage]: a window of rows over a [MessageMeta]. *)
Record MultiMessage : Type := mkMultiMessage {
  meta : MessageMeta;
  mess_offset : nat;
  mess_count : nat
}.

(** [PreallocatorMixin._preallocate_meta]. *)
Definition _preallocate_meta (needed_columns : OrderedDict) (msg : MessageMeta)
  : result MessageMeta :=
  result_bind (_preallocate_df needed_columns (meta_df msg)) (fun df =>
    Ok {| meta_df := df |}).

(** [PreallocatorMixin._preallocate_multi]. *)
Definition _preallocate_multi (needed_columns : OrderedDict) (msg : MultiMessage)
  : result MultiMessage :=
  result_bind (_preallocate_meta needed_columns (meta msg)) (fun m =>
    Ok {| meta := m; mess_offset := mess_offset msg;
          mess_count := mess_count msg |}).

End PreallocateDf.

(** *** Building the segment *)

(** A Python class, as far as [issubclass] looks at it: its qualified name
    and the qualified names of the classes of its [__mro__] (itself
    included). *)
Record py_class : Type := mkClass {
  class_name : string;
  class_mro : list string
}.

(** What a stage declares as its output type: a class, or an alias of the
    [typing] module such as [typing.List[str]], which is not a class and is
    known here by its [repr]. *)
Inductive py_type : Type :=
| Class (cls : py_class)
| TypingAlias (repr : string).

(** [issubclass(t, classinfo)] for a tuple of classes.  The builtin refuses
    a first argument that is not a class. *)
Definition issubclass (t : py_type) (classinfo : list string) : result bool :=
  match t with
  | Class cls => Ok (existsb (fun base => str_in base (class_mro cls)) classinfo)
  | TypingAlias _ => Raise (TypeError "issubclass() arg 1 must be a class")
  end.

Definition cls_MessageMeta : string := "morpheus.messages.MessageMeta".
Definition cls_MultiMessage : string := "morpheus.messages.MultiMessage".
Definition cls_cudf_DataFrame : string := "cudf.DataFrame".
Definition cls_pd_DataFrame : string := "pandas.DataFrame".

(** What a node of the segment runs.  [StageOp] stands for the work of a
    node that this file does not build. *)
Inductive node_op : Type :=
| StageOp (descr : string)
| MapPreallocateMeta (needed_columns : OrderedDict)
| MapPreallocateMulti (needed_columns : OrderedDict)
| MapPreallocateDf (needed_columns : OrderedDict)
| PreallocateMessageMetaStage (needed_columns : list (string * TypeId))
| PreallocateMultiMessageStage (needed_columns : list (string * TypeId)).

(** [mrc.SegmentObject]: a node, known by its name. *)
Definition SegmentObject : Type := string.

(** [mrc.Builder]: the nodes and edges made so far. *)
Record Builder : Type := mkBuilder {
  nodes : list (SegmentObject * node_op);
  edges : list (SegmentObject * SegmentObject)
}.

Definition make_node (name : string) (op : node_op) (b : Builder)
  : SegmentObject * Builder :=
  (name, {| nodes := (nodes b ++ [(name, op)])%list; edges := edges b |}).

Definition make_edge (src dst : SegmentObject) (b : Builder) : Builder :=
  {| nodes := nodes b; edges := (edges b ++ [(src, dst)])%list |}.

(** The attributes of the stage that [_post_build_single] reads. *)
Record Stage : Type := mkStage {
  unique_name : string;
  output_type : py_type;   (* [self.output_ports[0].output_type] *)
  _needed_columns : OrderedDict
}.

Section PostBuild.

(** [pretty_print_type_name] is in [morpheus.utils.type_utils], outside
    the sources at hand. *)
Variable pretty_print_type_name : py_type -> string.

(** The answer of [CppConfig.get_should_use_cpp()]. *)
Variable should_use_cpp : bool.

Definition unsupported_type_msg (pretty_type : string) : string :=
  "Additional columns were requested to be inserted into the Dataframe, but the output type "
  ++ pretty_type ++ " isn't a supported type".

(** [PreallocatorMixin._post_build_single]: the node to use as the
    stage's output, and the builder after the call.  [made] is the outcome
    of the chain of [issubclass] tests: the new node and the builder that
    holds it, the [RuntimeError] of the last arm, or the [TypeError] of
    [issubclass] itself. *)
Definition _post_build_single (self : Stage) (builder : Builder)
    (out_node : SegmentObject) : result SegmentObject * Builder :=
  let out_type := output_type self in
  let pretty_type := pretty_print_type_name out_type in
  if (0 <? List.length (_needed_columns self))%nat then
    let node_name := unique_name self ++ "-preallocate" in
    let made : result (SegmentObject * Builder) :=
      result_bind (issubclass out_type [cls_MessageMeta; cls_MultiMessage])
        (fun is_message =>
      if is_message then
        if should_use_cpp then
          let needed_columns := _needed_columns self in
          result_bind (issubclass out_type [cls_MessageMeta]) (fun is_meta =>
          if is_meta then
            Ok (make_node node_name (PreallocateMessageMetaStage needed_columns) builder)
          else
            Ok (make_node node_name (PreallocateMultiMessageStage needed_columns) builder))
        else
          result_bind (issubclass out_type [cls_MessageMeta]) (fun is_meta =>
          if is_meta then
            Ok (make_node node_name (MapPreallocateMeta (_needed_columns self)) builder)
          else
            Ok (make_node node_name (MapPreallocateMulti (_needed_columns self)) builder))
      else
        result_bind (issubclass out_type [cls_cudf_DataFrame; cls_pd_DataFrame])
          (fun is_df =>
        if is_df then
          Ok (make_node node_name (MapPreallocateDf (_needed_columns self)) builder)
        else
          let msg := unsupported_type_msg pretty_type in
          Raise (RuntimeError msg))) in
    match made with
    | Raise e => (Raise e, builder)
    | Ok (node, builder1) =>
        let builder2 := make_edge out_node node builder1 in
        (Ok node, builder2)
    end
  else (Ok out_node, builder).

End PostBuild.


End Preallocator.

(** ** [AppShieldSourceStage] *)

Module AppShield.

(** *** Python strings and lists *)

(** [s.split(sep)] for a separator of one character. *)
Fixpoint split (sep : ascii) (s : string) : list string :=
  match s with
  | EmptyString => [EmptyString]
  | String c s' =>
      if Ascii.eqb c sep then EmptyString :: split sep s'
      else match split sep s' with
           | h :: t => String c h :: t
           | [] => [String c EmptyString]
           end
  end.

(** [l[i]], with Python's negative indices. *)
Definition py_index {A} (l : list A) (i : Z) : result A :=
  let n := Z.of_nat (List.length l) in
  let j := (if i <? 0 then n + i else i)%Z in
  if ((j <? 0) || (n <=? j))%Z then Raise (IndexError "list index out of range")
  else match nth_error l (Z.to_nat j) with
       | Some a => Ok a
       | None => Raise (IndexError "list index out of range")
       end.

(** The small letter of a capital letter: of [A] to [Z], and of the
    accented capitals 192 to 222 (215, the multiplication sign, is not a
    letter). *)
Definition lower_char (c : ascii) : ascii :=
  let n := nat_of_ascii c in
  if (((65 <=? n) && (n <=? 90))
      || ((192 <=? n) && (n <=? 222) && negb (n =? 215)))%nat
  then ascii_of_nat (n + 32) else c.

(** [s.lower()]. *)
Fixpoint lower (s : string) : string :=
  match s with
  | EmptyString => EmptyString
  | String c s' => String (lower_char c) (lower s')
  end.

(** [s.startswith(p)]. *)
Definition startswith (s p : string) : bool := String.prefix p s.

Definition is_digit (c : ascii) : bool :=
  let n := nat_of_ascii c in ((48 <=? n) && (n <=? 57))%nat.

(** The white space that [int()] skips at both ends of a string: the ASCII
    white space (tab to carriage return, and the space) and the two
    characters above 127 that are white space in Unicode (next line, 133,
    and no-break space, 160), which [int()] first turns into spaces.  The
    separators 28 to 31 are not skipped. *)
Definition is_space (c : ascii) : bool :=
  let n := nat_of_ascii c in
  ((9 <=? n) && (n <=? 13))%nat || (n =? 32)%nat || (n =? 133)%nat || (n =? 160)%nat.

Fixpoint lstrip (s : string) : string :=
  match s with
  | String c s' => if is_space c then lstrip s' else s
  | EmptyString => EmptyString
  end.

Fixpoint rev_string (s acc : string) : string :=
  match s with
  | EmptyString => acc
  | String c s' => rev_string s' (String c acc)
  end.

Definition strip (s : string) : string :=
  rev_string (lstrip (rev_string (lstrip s) EmptyString)) EmptyString.

(** The digits of a decimal literal, read from the left; between two digits
    one underscore is allowed.  [prev_digit] tells whether the character
    before was a digit. *)
Fixpoint int_digits (s : string) (acc : Z) (prev_digit : bool) : option Z :=
  match s with
  | EmptyString => if prev_digit then Some acc else None
  | String c s' =>
      if is_digit c then
        int_digits s' (10 * acc + Z.of_nat (nat_of_ascii c - 48))%Z true
      else if Ascii.eqb c "_"%char then
        if prev_digit then
          match s' with
          | EmptyString => None
          | _ => int_digits s' acc false
          end
        else None
      else None
  end.

Definition hexdigit (n : nat) : ascii :=
  match String.get n "0123456789abcdef" with
  | Some c => c
  | None => "0"%char
  end.

(** The escape [\xhh] of a character. *)
Definition hex_escape (c : ascii) : string :=
  let n := nat_of_ascii c in
  String "092"%char
    (String "x"%char
       (String (hexdigit (n / 16)) (String (hexdigit (n mod 16)) EmptyString))).

(** [str.isprintable] on one character: below 256, all but the control
    characters (0 to 31, 127 to 159), the no-break space (160) and the soft
    hyphen (173). *)
Definition is_printable (c : ascii) : bool :=
  let n := nat_of_ascii c in
  ((32 <=? n) && (n <=? 126))%nat || ((161 <=? n) && negb (n =? 173))%nat.

(** One character of [repr(s)], between the quotes [quote]. *)
Definition repr_char (quote c : ascii) : string :=
  if Ascii.eqb c quote || Ascii.eqb c "092"%char then
    String "092"%char (String c EmptyString)
  else if Ascii.eqb c "009"%char then String "092"%char "t"
  else if Ascii.eqb c "010"%char then String "092"%char "n"
  else if Ascii.eqb c "013"%char then String "092"%char "r"
  else if is_printable c then String c EmptyString
  else hex_escape c.

Fixpoint repr_chars (quote : ascii) (s : string) : string :=
  match s with
  | EmptyString => EmptyString
  | String c s' => repr_char quote c ++ repr_chars quote s'
  end.

Fixpoint has_char (x : ascii) (s : string) : bool :=
  match s with
  | EmptyString => false
  | String c s' => Ascii.eqb c x || has_char x s'
  end.

(** [repr(s)] for a string: between single quotes, or between double quotes
    when the string holds a single quote and no double quote; the quote in
    use and the backslash are escaped, tab, newline and carriage return are
    written [\t], [\n], [\r], and the other characters that are not
    printable [\xhh]. *)
Definition py_repr (s : string) : string :=
  let quote :=
    if has_char "'"%char s && negb (has_char "034"%char s) then "034"%char
    else "'"%char in
  String quote (repr_chars quote s ++ String quote EmptyString).

(** [int(s)] for a string: surrounding white space, a sign, decimal digits.
    The message of the error holds the first 200 characters of [repr(s)]. *)
Definition py_int (s : string) : result Z :=
  let invalid :=
    ValueError ("invalid literal for int() with base 10: "
                ++ String.substring 0 200 (py_repr s)) in
  match strip s with
  | String "-"%char d =>
      match int_digits d 0 false with
      | Some z => Ok (- z)%Z
      | None => Raise invalid
      end
  | String "+"%char d =>
      match int_digits d 0 false with
      | Some z => Ok z
      | None => Raise invalid
      end
  | d =>
      match int_digits d 0 false with
      | Some z => Ok z
      | None => Raise invalid
      end
  end.

(** The text of [f'{l}'] for a list of strings: the [repr] of the list,
    which is made of the [repr] of its items. *)
Definition py_repr_list (l : list string) : string :=
  "[" ++ String.concat ", " (map py_repr l) ++ "]".

(** *** The regular expression of [load_meta_cols]

    A pattern is a sequence of items; a group is opened and closed by two
    marks.  [RPlus] is greedy and gives characters back one at a time, as the
    backtracking matcher of [re] does. *)
Inductive re_item : Type :=
| ROne (p : ascii -> bool)
| RPlus (p : ascii -> bool)
| RGroupOpen
| RGroupClose.

Definition push (c : ascii) (grp : option string) : option string :=
  option_map (fun g => g ++ String c EmptyString) grp.

(** [match_here items s grp cap]: match [items] at the start of [s]; [grp]
    is the text of the group being read, [cap] the text of the group once
    closed.  The answer is the captured group of the first match in
    backtracking order. *)
Fixpoint match_here (items : list re_item) (s : string)
    (grp cap : option string) : option (option string) :=
  match items with
  | [] => Some cap
  | ROne p :: rest =>
      match s with
      | String c s' => if p c then match_here rest s' (push c grp) cap else None
      | EmptyString => None
      end
  | RPlus p :: rest =>
      (fix plus (s : string) (grp : option string) : option (option string) :=
         match s with
         | String c s' =>
             if p c then
               match plus s' (push c grp) with
               | Some r => Some r
               | None => match_here rest s' (push c grp) cap
               end
             else None
         | EmptyString => None
         end) s grp
  | RGroupOpen :: rest => match_here rest s (Some EmptyString) cap
  | RGroupClose :: rest => match_here rest s None grp
  end.

(** [re.search(pattern, s)]: the leftmost position where the pattern
    matches; the result is [group(1)]. *)
Fixpoint re_search (items : list re_item) (s : string) : option (option string) :=
  match match_here items s None None with
  | Some cap => Some cap
  | None =>
      match s with
      | String _ s' => re_search items s'
      | EmptyString => None
      end
  end.

Definition in_range (lo hi : nat) (c : ascii) : bool :=
  let n := nat_of_ascii c in ((lo <=? n) && (n <=? hi))%nat.

Definition re_lit (x : ascii) : re_item := ROne (Ascii.eqb x).

(** [.]: any character but a newline. *)
Definition re_dot : re_item := ROne (fun c => negb (Ascii.eqb c "010"%char)).

(** ['[a-z]+_([0-9-_.]+).json'].  In the class [[0-9-_.]] the range is
    [0-9]; [-], [_] and [.] stand for themselves. *)
Definition ts_pattern : list re_item :=
  [ RPlus (in_range 97 122);
    re_lit "_"%char;
    RGroupOpen;
    RPlus (fun c => in_range 48 57 c || Ascii.eqb c "-"%char
                    || Ascii.eqb c "_"%char || Ascii.eqb c "."%char);
    RGroupClose;
    re_dot;
    re_lit "j"%char; re_lit "s"%char; re_lit "o"%char; re_lit "n"%char ].

(** *** Dataframes, row by row

    The source stage builds its frames from lists of rows, adds scalar
    columns, selects and drops columns and filters rows.  A frame is its
    column labels and its rows; a row has one cell per label. *)
Record DataFrame : Type := mkDataFrame {
  columns : list string;
  rows : list (list scalar)
}.

Fixpoint mask_filter {A} (mask : list bool) (l : list A) : list A :=
  match mask, l with
  | b :: mask', x :: l' => if b then x :: mask_filter mask' l' else mask_filter mask' l'
  | _, _ => []
  end.

Definition max_width (data : list (list scalar)) : nat :=
  fold_right (fun r k => Nat.max (List.length r) k) 0%nat data.

Definition pad (k : nat) (r : list scalar) : list scalar :=
  (r ++ repeat SNone (k - List.length r))%list.

(** [pd.DataFrame(columns=columns, data=data)] for a list of rows.  With no
    row the frame is empty; otherwise pandas pads the rows to the longest and
    raises [ValueError] ("n columns passed, passed data had k columns") when
    this width is not the number of labels. *)
Definition pd_DataFrame (columns : list string) (data : list (list scalar))
  : result DataFrame :=
  match data with
  | [] => Ok {| columns := columns; rows := [] |}
  | _ :: _ =>
      let k := max_width data in
      if (List.length columns =? k)%nat then
        Ok {| columns := columns; rows := map (pad k) data |}
      else Raise (ValueError "columns passed, passed data had a different number of columns")
  end.

(** [self.difference(other)] on an [Index]: the labels of [self] that are
    not in [other], each once (pandas also sorts them). *)
Fixpoint dedup (l : list string) : list string :=
  match l with
  | [] => []
  | x :: t => x :: filter (fun y => negb (String.eqb y x)) (dedup t)
  end.

Definition difference (self other : list string) : list string :=
  dedup (filter (fun c => negb (str_in c other)) self).

(** [df.drop(columns=labels, inplace=True)]. *)
Definition drop (labels : list string) (df : DataFrame) : result DataFrame :=
  match find (fun l => negb (str_in l (columns df))) labels with
  | Some l => Raise (KeyError l)
  | None =>
      let keep := map (fun c => negb (str_in c labels)) (columns df) in
      Ok {| columns := mask_filter keep (columns df);
            rows := map (mask_filter keep) (rows df) |}
  end.

(** The cells of row [r] under the label [col]. *)
Fixpoint cells_of (col : string) (cols : list string) (r : list scalar)
  : list scalar :=
  match cols, r with
  | c :: cs, x :: xs =>
      if String.eqb c col then x :: cells_of col cs xs else cells_of col cs xs
  | _, _ => []
  end.

(** The cell of row [r] under [col] (the first, [None] when there is none). *)
Definition cell (cols : list string) (r : list scalar) (col : string) : scalar :=
  hd SNone (cells_of col cols r).

Fixpoint set_cells (col : string) (v : scalar) (cols : list string)
    (r : list scalar) : list scalar :=
  match cols, r with
  | c :: cs, x :: xs =>
      (if String.eqb c col then v else x) :: set_cells col v cs xs
  | _, _ => r
  end.

(** [df[col] = v] for a scalar [v]: the column is overwritten where the
    label exists and appended where it does not. *)
Definition setitem (df : DataFrame) (col : string) (v : scalar) : DataFrame :=
  if str_in col (columns df) then
    {| columns := columns df;
       rows := map (set_cells col v (columns df)) (rows df) |}
  else
    {| columns := (columns df ++ [col])%list;
       rows := map (fun r => (r ++ [v])%list) (rows df) |}.

(** [df[labels]] for a list of labels. *)
Definition getitem_list (df : DataFrame) (labels : list string) : result DataFrame :=
  match find (fun l => negb (str_in l (columns df))) labels with
  | Some l => Raise (KeyError l)
  | None =>
      Ok {| columns := flat_map (fun l => filter (String.eqb l) (columns df)) labels;
            rows := map (fun r => flat_map (fun l => cells_of l (columns df) r) labels)
                        (rows df) |}
  end.

(** What [df[col]] is for one label: a [Series] when one column has the
    label, a [DataFrame] of the columns that have it when there are
    several. *)
Inductive selection : Type :=
| Series (values : list scalar)
| Frame (df : DataFrame).

(** [df[col]] for one label. *)
Definition getitem_col (df : DataFrame) (col : string) : result selection :=
  match filter (String.eqb col) (columns df) with
  | [] => Raise (KeyError col)
  | [_] => Ok (Series (map (fun r => cell (columns df) r col) (rows df)))
  | labels =>
      Ok (Frame {| columns := labels;
                   rows := map (cells_of col (columns df)) (rows df) |})
  end.

(** [series == v], cell by cell: a missing value is equal to nothing. *)
Definition pd_eq (a b : scalar) : bool :=
  match a, b with
  | SNone, _ => false
  | _, SNone => false
  | _, _ => scalar_eqb a b
  end.

(** [df[mask]] for the mask [df[col] == v]. *)
Definition filter_eq (df : DataFrame) (col : string) (v : scalar) : DataFrame :=
  {| columns := columns df;
     rows := filter (fun r => pd_eq (cell (columns df) r col) v) (rows df) |}.

(** [series.unique()]: the distinct values in order of first appearance. *)
Fixpoint unique (l : list scalar) : list scalar :=
  match l with
  | [] => []
  | x :: t => x :: filter (fun y => negb (scalar_eqb y x)) (unique t)
  end.

(** [x.unique()]: a method of a [Series]; a [DataFrame] has no such
    attribute. *)
Definition unique_method (x : selection) : result (list scalar) :=
  match x with
  | Series values => Ok (unique values)
  | Frame _ => Raise (AttributeError "'DataFrame' object has no attribute 'unique'")
  end.

Definition list_eqb (a b : list string) : bool :=
  if list_eq_dec string_dec a b then true else false.

(** [index.is_unique] for the labels of a frame. *)
Fixpoint is_unique (l : list string) : bool :=
  match l with
  | [] => true
  | x :: t => negb (str_in x t) && is_unique t
  end.

Fixpoint union_labels (seen : list string) (l : list string) : list string :=
  match l with
  | [] => []
  | x :: t => if str_in x seen then union_labels seen t
              else x :: union_labels (x :: seen) t
  end.

(** [pd.concat(x)]: the rows of the frames, one frame after the other.
    Frames with the same labels are stacked as they are; otherwise the
    result has the union of the labels, every frame is reindexed to them,
    which pandas refuses for a frame with a repeated label, and a row has
    [None] where its frame had no such column. *)
Definition pd_concat (x : list DataFrame) : result DataFrame :=
  match x with
  | [] => Raise (ValueError "No objects to concatenate")
  | first :: _ =>
      if forallb (fun df => list_eqb (columns df) (columns first)) x then
        Ok {| columns := columns first; rows := flat_map rows x |}
      else if forallb (fun df => is_unique (columns df)) x then
        let cols := union_labels [] (flat_map columns x) in
        Ok {| columns := cols;
              rows := flat_map
                        (fun df => map (fun r => map (cell (columns df) r) cols) (rows df))
                        x |}
      else
        Raise (InvalidIndexError
                 "Reindexing only valid with uniquely valued Index objects")
  end.

(** A Python [dict] keyed by cell values, in insertion order. *)
Definition dict (V : Type) : Type := list (scalar * V).

Fixpoint dict_set {V} (d : dict V) (k : scalar) (v : V) : dict V :=
  match d with
  | [] => [(k, v)]
  | (k', v') :: rest =>
      if scalar_eqb k' k then (k', v) :: rest else (k', v') :: dict_set rest k v
  end.

(** *** Logging and file access

    What a call leaves behind besides its result: the records sent to
    [logger] and the files it opened, in order. *)
Inductive level : Type := ERROR | INFO.

Inductive event : Type :=
| Log (lvl : level) (fmt : string) (args : list string)
| Open (filepath encoding : string).

Definition M (A : Type) : Type := (result A * list event)%type.

Definition ret {A} (a : A) : M A := (Ok a, []).

Definition raise {A} (e : exn) : M A := (Raise e, []).

Definition lift {A} (r : result A) : M A := (r, []).

Definition bind {A B} (m : M A) (f : A -> M B) : M B :=
  match m with
  | (Ok a, l) => let (r, l') := f a in (r, (l ++ l')%list)
  | (Raise e, l) => (Raise e, l)
  end.

Definition tell (ev : event) : M unit := (Ok tt, [ev]).

Notation "x <- m ;; k" := (bind m (fun x => k))
  (at level 61, m at next level, right associativity).
Notation "m ;;; k" := (bind m (fun _ => k))
  (at level 61, right associativity).


(** [except ValueError] also catches the two decode errors, which derive
    from it. *)
Definition is_ValueError (e : exn) : bool :=
  match e with
  | ValueError _ | JSONDecodeError _ | UnicodeDecodeError _ => true
  | _ => false
  end.

(** The content of a plugin file once parsed. *)
Record RawRecordSet : Type := mkRaw {
  titles : list string;
  data : list (list scalar)
}.

(** An open text file, as [read_file_to_df] uses it: what
    [json.load(file)] followed by [data["titles"]] and [data["data"]]
    gives, a record set or the exception raised on the way. *)
Definition TextIOWrapper : Type := result RawRecordSet.

(** [open(filepath, encoding=...)] on the files of the machine. *)
Definition filesystem : Type := string -> string -> result TextIOWrapper.

(** [AppShieldSourceStage.fill_interested_cols]. *)
Definition fill_interested_cols (plugin_df : DataFrame) (cols_include : list string)
  : result DataFrame :=
  let cols_exists := columns plugin_df in
  let plugin_df :=
    fold_left (fun df col =>
                 if negb (str_in col cols_exists) then setitem df col SNone else df)
              cols_include plugin_df in
  getitem_list plugin_df cols_include.

(** [AppShieldSourceStage.read_file_to_df]. *)
Definition read_file_to_df (file : TextIOWrapper) (cols_exclude : list string)
  : M DataFrame :=
  data <- lift file ;;
  let titles := titles data in
  let features_plugin := filter (fun col => negb (str_in col cols_exclude)) titles in
  match pd_DataFrame features_plugin (AppShield.data data) with
  | Ok plugin_df => ret plugin_df
  | Raise e =>
      if is_ValueError e then
        tell (Log INFO
                "Failed to load partial set of columns from input data. Loading entire DataFrame and filtering."
                []) ;;;
        plugin_df <- lift (pd_DataFrame titles (AppShield.data data)) ;;
        lift (drop (difference (columns plugin_df) features_plugin) plugin_df)
      else raise e
  end.

(** [with open(filepath, encoding=encoding) as file:
       plugin_df = read_file_to_df(file, cols_exclude)]. *)
Definition open_and_read (fs : filesystem) (filepath : string)
    (cols_exclude : list string) (encoding : string) : M DataFrame :=
  tell (Open filepath encoding) ;;;
  file <- lift (fs filepath encoding) ;;
  read_file_to_df file cols_exclude.

(** [AppShieldSourceStage.load_df]. *)
Definition load_df (fs : filesystem) (filepath : string)
    (cols_exclude : list string) (encoding : string) : M DataFrame :=
  match open_and_read fs filepath cols_exclude encoding with
  | (Raise (JSONDecodeError decode_error), l) =>
      ((Ok tt, l) : M unit) ;;;
      tell (Log ERROR "Unable to load %s to dataframe with %s encoding : %s"
                [filepath; encoding; decode_error]) ;;;
      let encoding := lower encoding in
      if startswith encoding "utf" then raise (JSONDecodeError decode_error)
      else
        tell (Log INFO "Retrying... Attempting to load %s with utf-8 encoding"
                  [filepath]) ;;;
        open_and_read fs filepath cols_exclude "utf-8"
  | other => other
  end.

(** [AppShieldSourceStage.load_meta_cols]. *)
Definition load_meta_cols (filepath_split : list string) (plugin : string)
    (plugin_df : DataFrame) : result DataFrame :=
  if (List.length filepath_split <? 3)%nat then
    Raise (ValueError ("Invalid filepath_split " ++ py_repr_list filepath_split
                       ++ ". Length should be greater than 2"))
  else
    result_bind (py_index filepath_split (-3)) (fun source =>
    result_bind (py_index filepath_split (-2)) (fun snap =>
    result_bind (py_index (split "-"%char snap) 1) (fun snap_id =>
    result_bind (py_int snap_id) (fun snapshot_id =>
    result_bind (py_index filepath_split (-1)) (fun last =>
    let ts_re := re_search ts_pattern last in
    match ts_re with
    | None =>
        Raise (ValueError ("Invalid format for filepath_split "
                           ++ py_repr_list filepath_split))
    | Some group1 =>
        let timestamp := match group1 with Some t => SStr t | None => SNone end in
        let plugin_df := setitem plugin_df "snapshot_id" (SInt snapshot_id) in
        let plugin_df := setitem plugin_df "timestamp" timestamp in
        let plugin_df := setitem plugin_df "source" (SStr source) in
        let plugin_df := setitem plugin_df "plugin" (SStr plugin) in
        Ok plugin_df
    end))))).

(** [a[0]] on a numpy array. *)
Definition np_first {A} (a : list A) : result A :=
  match a with
  | first :: _ => Ok first
  | [] => Raise (IndexError "index 0 is out of bounds for axis 0 with size 0")
  end.

(** The files opened, in order, among the events of a call. *)
Fixpoint opens (l : list event) : list (string * string) :=
  match l with
  | [] => []
  | Open filepath encoding :: t => (filepath, encoding) :: opens t
  | Log _ _ _ :: t => opens t
  end.

(** [AppShieldSourceStage.batch_source_split]. *)
Definition batch_source_split (x : list DataFrame) (source : string)
  : result (dict DataFrame) :=
  result_bind (pd_concat x) (fun combined_df =>
  result_bind (getitem_col combined_df source) (fun source_col =>
  result_bind (unique_method source_col) (fun unique_sources =>
  let source_dfs : dict DataFrame := [] in
  if (1 <? List.length unique_sources)%nat then
    Ok (fold_left (fun source_dfs source_name =>
                     dict_set source_dfs source_name
                              (filter_eq combined_df source source_name))
                  unique_sources source_dfs)
  else
    result_bind (np_first unique_sources) (fun first =>
    Ok (dict_set source_dfs first combined_df))))).

Section FilesToDfs.

Variable fs : filesystem.
Variables cols_include cols_exclude plugins_include : list string.
Variable encoding : string.

(** The body of the [try] in the loop of [files_to_dfs]: the frame to
    append to [plugin_dfs], if any. *)
Definition file_to_df (filepath : string) : M (option DataFrame) :=
  let filepath_split := split "/"%char filepath in
  last <- lift (py_index filepath_split (-1)) ;;
  plugin <- lift (py_index (split "_"%char last) 0) ;;
  if str_in plugin plugins_include then
    plugin_df <- load_df fs filepath cols_exclude encoding ;;
    plugin_df <- lift (fill_interested_cols plugin_df cols_include) ;;
    plugin_df <- lift (load_meta_cols filepath_split plugin plugin_df) ;;
    ret (Some plugin_df)
  else ret None.

(** The loop of [files_to_dfs], from the files still to read and the
    frames collected so far. *)
Fixpoint files_loop (x : list string) (plugin_dfs : list DataFrame)
  : M (list DataFrame) :=
  match x with
  | [] => ret plugin_dfs
  | filepath :: rest =>
      match file_to_df filepath with
      | (Ok (Some plugin_df), l) =>
          ((Ok tt, l) : M unit) ;;; files_loop rest (plugin_dfs ++ [plugin_df])%list
      | (Ok None, l) =>
          ((Ok tt, l) : M unit) ;;; files_loop rest plugin_dfs
      | (Raise (JSONDecodeError decode_error), l) =>
          ((Ok tt, l) : M unit) ;;;
          tell (Log ERROR "Unable to decode json file %s: %s"
                    [filepath; decode_error]) ;;;
          files_loop rest plugin_dfs
      | (Raise e, l) => (Raise e, l)
      end
  end.

(** [AppShieldSourceStage.files_to_dfs]. *)
Definition files_to_dfs (x : list string) : M (dict DataFrame) :=
  plugin_dfs <- files_loop x [] ;;
  let df_per_source := batch_source_split plugin_dfs "source" in
  lift df_per_source.

End FilesToDfs.

(** The plugin name that [files_to_dfs] reads off a path:
    [filepath.split('/')[-1].split('_')[0]]. *)
Definition plugin_of (filepath : string) : string :=
  hd EmptyString (split "_"%char (last (split "/"%char filepath) EmptyString)).

(** Every row has one cell per label. *)
Definition well_formed (df : DataFrame) : Prop :=
  Forall (fun r => List.length r = List.length (columns df)) (rows df).

(** A normalized table of a batch: the labels are [cols], no label is
    repeated, [source] is one of them, and every row has a string in it. *)
Definition normalized (cols : list string) (t : DataFrame) : Prop :=
  columns t = cols /\ NoDup cols /\ In "source" cols /\
  Forall (fun r => exists s, cell cols r "source" = SStr s) (rows t).

(** The labels of a frame after [df[col] = v]. *)
Definition with_label (cols : list string) (col : string) : list string :=
  if str_in col cols then cols else (cols ++ [col])%list.

(** The labels of the table of a file: the included columns, then the four
    metadata columns. *)
Definition table_labels (cols_include : list string) : list string :=
  with_label
    (with_label
       (with_label (with_label cols_include "snapshot_id") "timestamp")
       "source")
    "plugin".

(** Whether every character of [s] passes [p]. *)
Fixpoint all_chars (p : ascii -> bool) (s : string) : bool :=
  match s with
  | EmptyString => true
  | String c s' => p c && all_chars p s'
  end.

(** The characters that the class [[a-z]] and the class [[0-9-_.]] of
    [ts_pattern] accept. *)
Definition plugin_char (c : ascii) : bool := in_range 97 122 c.

Definition ts_char (c : ascii) : bool :=
  in_range 48 57 c || Ascii.eqb c "-"%char
  || Ascii.eqb c "_"%char || Ascii.eqb c "."%char.

Definition not_char (x : ascii) (c : ascii) : bool := negb (Ascii.eqb c x).

(** The characters that [repr] copies between single quotes: printable, and
    neither a single quote nor a backslash. *)
Definition plain_char (c : ascii) : bool :=
  is_printable c && negb (Ascii.eqb c "'"%char) && negb (Ascii.eqb c "092"%char).

(** How the frame after the loop of [fill_interested_cols] relates to the
    frame before it. *)
Definition filled_from (df0 df : DataFrame) : Prop :=
  NoDup (columns df) /\
  (forall c, In c (columns df0) -> In c (columns df)) /\
  exists g,
    rows df = map g (rows df0) /\
    forall r,
      List.length r = List.length (columns df0) ->
      List.length (g r) = List.length (columns df) /\
      (forall c, In c (columns df0) ->
                 cell (columns df) (g r) c = cell (columns df0) r c) /\
      (forall c, In c (columns df) -> ~ In c (columns df0) ->
                 cell (columns df) (g r) c = SNone).

(** The class [p] stops at the start of [t]: [t] is empty or begins with a
    character that [p] refuses. *)
Definition stops (p : ascii -> bool) (t : string) : Prop :=
  match t with
  | EmptyString => True
  | String c _ => p c = false
  end.

(** [str(n)] for a natural number. *)
Definition py_str_nat (n : nat) : string :=
  NilEmpty.string_of_uint (Nat.to_uint n).

(** [AppShieldMessageMeta(df, source)]. *)
Record AppShieldMessageMeta : Type := mkMeta {
  meta_df : DataFrame;
  meta_source : scalar
}.

(** [AppShieldSourceStage._build_metadata]. *)
Definition _build_metadata (x : dict DataFrame) : list AppShieldMessageMeta :=
  map (fun '(source, df) => {| meta_df := df; meta_source := source |}) x.

(** What the node made by [AppShieldSourceStage._post_build_single] does
    with a batch of paths: [files_to_dfs], then [_build_metadata];
    [ops.flatten()] then passes the messages of the list on one by one, in
    the order of the list. *)
Definition post_node_messages (fs : filesystem)
    (cols_include cols_exclude plugins_include : list string) (encoding : string)
    (x : list string) : M (list AppShieldMessageMeta) :=
  df_per_source <- files_to_dfs fs cols_include cols_exclude plugins_include encoding x ;;
  ret (_build_metadata df_per_source).

(** [AppShieldSourceStage._post_build_single]: the node for the batches is
    made and fed by [out_node], then the method of [PreallocatorMixin] is
    called on it. *)
Definition _post_build_single (pretty_print_type_name : Preallocator.py_type -> string)
    (should_use_cpp : bool) (self : Preallocator.Stage)
    (builder : Preallocator.Builder) (out_node : Preallocator.SegmentObject)
  : result Preallocator.SegmentObject * Preallocator.Builder :=
  let (post_node, builder1) :=
    Preallocator.make_node
      (Preallocator.unique_name self ++ "-post")
      (Preallocator.StageOp "map(files_to_dfs), map(_build_metadata), flatten")
      builder in
  let builder2 := Preallocator.make_edge out_node post_node builder1 in
  Preallocator._post_build_single pretty_print_type_name should_use_cpp self
    builder2 post_node.

End AppShield.

(** ** Concrete inputs *)

Module Examples.

Import Preallocator.

(** A [typeid_to_numpy_str] with the numpy names of the two numeric types
    that the sources use. *)
Definition numpy_str (t : TypeId) : string :=
  match t with
  | INT64 => "int64"
  | FLOAT32 => "float32"
  | STRING => "str"
  | OtherScalar name => name
  end.

(** One row, one column [user] of strings. *)
Definition users_df : DataFrame :=
  {| is_cudf := false;
     index_len := 1;
     data := [("user", {| dtype := "object"; values := [SStr "alice"] |})] |}.

(** The columns asked for by the classification stage of the GNN example. *)
Definition gnn_columns : OrderedDict :=
  [("node_id", INT64); ("prediction", FLOAT32)].

Definition cls_object : string := "object".

Definition MessageMeta_class : py_class :=
  {| class_name := cls_MessageMeta; class_mro := [cls_MessageMeta; cls_object] |}.



Definition pretty_name (t : py_type) : string :=
  match t with
  | Class c => class_name c
  | TypingAlias repr => repr
  end.

Definition empty_builder : Builder := {| nodes := []; edges := [] |}.

Import AppShield.

Definition proc_path : string := "/data/hostA/snap-42/proc_2023-01-02.json".
Definition corrupt_path : string := "/data/hostA/snap-42/proc_2023-01-03.json".
Definition proc_path_B : string := "/data/hostB/snap-7/proc_2023-01-04.json".
Definition other_path : string := "/data/hostA/snap-42/netscan_2023-01-02.json".

Definition proc_records : RawRecordSet :=
  {| titles := ["PID"; "Process"; "SHA256"];
     data := [ [SInt 4; SStr "System"; SStr "ab12"];
               [SInt 88; SStr "Registry"; SStr "cd34"] ] |}.

Definition proc_records_B : RawRecordSet :=
  {| titles := ["PID"; "Process"];
     data := [ [SInt 612; SStr "svchost.exe"] ] |}.

Definition no_records : RawRecordSet :=
  {| titles := ["PID"; "Process"]; data := [] |}.

Definition json_error : exn :=
  JSONDecodeError "Expecting value: line 1 column 1 (char 0)".

(** Two plugin files that parse, one that is not JSON in any encoding. *)
Definition demo_fs : filesystem := fun filepath encoding =>
  if String.eqb filepath proc_path then Ok (Ok proc_records)
  else if String.eqb filepath proc_path_B then Ok (Ok proc_records_B)
  else if String.eqb filepath corrupt_path then Ok (Raise json_error)
  else if String.eqb filepath other_path then Ok (Ok proc_records_B)
  else Raise (OSError "No such file or directory").

(** The same files, but the corrupt one holds bytes that are not UTF-8:
    read as latin1 it is text that is not JSON, read as utf-8 it cannot be
    decoded. *)
Definition binary_fs : filesystem := fun filepath encoding =>
  if String.eqb filepath corrupt_path then
    if String.eqb encoding "utf-8" then
      Ok (Raise (UnicodeDecodeError
                   "'utf-8' codec can't decode byte 0xff in position 0: invalid start byte"))
    else Ok (Raise json_error)
  else demo_fs filepath encoding.

(** The two valid files without a record. *)
Definition empty_fs : filesystem := fun filepath encoding =>
  if String.eqb filepath corrupt_path then Ok (Raise json_error)
  else Ok (Ok no_records).

Definition meta_labels : list string :=
  ["PID"; "Process"; "snapshot_id"; "timestamp"; "source"; "plugin"].

(** The table of [proc_path] and the table of [proc_path_B]. *)
Definition table_A : AppShield.DataFrame :=
  {| columns := meta_labels;
     rows := [ [SInt 4; SStr "System"; SInt 42; SStr "2023-01-02"; SStr "hostA"; SStr "proc"];
               [SInt 88; SStr "Registry"; SInt 42; SStr "2023-01-02"; SStr "hostA"; SStr "proc"] ] |}.

Definition table_B : AppShield.DataFrame :=
  {| columns := meta_labels;
     rows := [ [SInt 612; SStr "svchost.exe"; SInt 7; SStr "2023-01-04"; SStr "hostB"; SStr "proc"] ] |}.

Definition table_empty : AppShield.DataFrame :=
  {| columns := meta_labels; rows := [] |}.

Definition pd_DataFrame_class : py_class :=
  {| class_name := cls_pd_DataFrame; class_mro := [cls_pd_DataFrame; cls_object] |}.

(** A file whose one row has a cell more than there are titles. *)
Definition ragged_records : RawRecordSet :=
  {| titles := ["PID"; "Process"];
     data := [ [SInt 4; SStr "System"; SStr "ab12"] ] |}.

Definition ragged_fs : filesystem := fun filepath encoding => Ok (Ok ragged_records).


(** The process table before the metadata columns. *)
Definition proc_table : AppShield.DataFrame :=
  {| columns := ["PID"; "Process"];
     rows := [ [SInt 4; SStr "System"]; [SInt 88; SStr "Registry"] ] |}.

End Examples.

(** * Properties *)

(** ** Membership and equality tests *)

Lemma scalar_eqb_eq (a b : scalar) : scalar_eqb a b = true <-> a = b.
Proof.
  destruct a, b; simpl; split; intro H; try discriminate; try reflexivity.
  - apply Z.eqb_eq in H. now subst.
  - inversion H. apply Z.eqb_refl.
  - apply String.eqb_eq in H. now subst.
  - inversion H. apply String.eqb_refl.
Qed.

Lemma scalar_eqb_refl (a : scalar) : scalar_eqb a a = true.
Proof. now apply scalar_eqb_eq. Qed.

Lemma scalar_eqb_neq (a b : scalar) : scalar_eqb a b = false <-> a <> b.
Proof.
  rewrite <- scalar_eqb_eq. destruct (scalar_eqb a b); split; intro H;
    try discriminate; try reflexivity; try (intro; discriminate).
  exfalso. now apply H.
Qed.

Lemma str_in_In (x : string) (l : list string) : str_in x l = true <-> In x l.
Proof.
  unfold str_in. rewrite existsb_exists. split.
  - intros [y [Hy He]]. apply String.eqb_eq in He. now subst.
  - intro H. exists x. split; [assumption | apply String.eqb_refl].
Qed.

Lemma str_in_not_In (x : string) (l : list string) :
  str_in x l = false <-> ~ In x l.
Proof.
  rewrite <- str_in_In. destruct (str_in x l); split; intro H;
    try discriminate; try reflexivity; try (intro; discriminate).
  exfalso. now apply H.
Qed.

Lemma filter_none {A} (f : A -> bool) (l : list A) :
  (forall x, In x l -> f x = false) -> filter f l = [].
Proof.
  induction l as [| x l IH]; simpl; intro H; [reflexivity |].
  rewrite (H x) by now left. apply IH. intros; apply H; now right.
Qed.

Lemma filter_eqb_NoDup (l : string) (cols : list string) :
  NoDup cols -> In l cols -> filter (String.eqb l) cols = [l].
Proof.
  induction cols as [| c cs IH]; intros Hnd Hin; [destruct Hin |].
  inversion Hnd as [| ? ? Hc Hnd']; subst. simpl.
  destruct (String.eqb l c) eqn:E.
  - apply String.eqb_eq in E. subst c. f_equal.
    apply filter_none. intros x Hx. apply String.eqb_neq. intro; subst; tauto.
  - apply String.eqb_neq in E. apply IH; [assumption |].
    destruct Hin as [H | H]; [congruence | assumption].
Qed.

(** ** Column preallocation *)

Section PreallocatorFacts.

Import Preallocator.

Variable typeid_to_numpy_str : TypeId -> string.

Lemma get_column_set_same (name : string) (s : Series) cols :
  get_column name (set_column name s cols) = Some s.
Proof.
  induction cols as [| [k v] rest IH]; simpl.
  - now rewrite String.eqb_refl.
  - destruct (String.eqb k name) eqn:E; simpl; rewrite E; auto.
Qed.

Lemma get_column_set_other (name other : string) (s : Series) cols :
  other <> name ->
  get_column other (set_column name s cols) = get_column other cols.
Proof.
  intro Hne. induction cols as [| [k v] rest IH]; simpl.
  - destruct (String.eqb name other) eqn:E; auto.
    apply String.eqb_eq in E. congruence.
  - destruct (String.eqb k name) eqn:E; simpl.
    + apply String.eqb_eq in E. subst k.
      destruct (String.eqb name other) eqn:E'; auto.
      apply String.eqb_eq in E'. congruence.
    + destruct (String.eqb k other); auto.
Qed.

Lemma get_column_In (name : string) cols :
  In name (map fst cols) <-> get_column name cols <> None.
Proof.
  induction cols as [| [k v] rest IH]; simpl.
  - split; [tauto | congruence].
  - destruct (String.eqb k name) eqn:E.
    + apply String.eqb_eq in E. split; [congruence | auto].
    + apply String.eqb_neq in E. rewrite <- IH. split; [intros [H | H] | ]; tauto.
Qed.

Lemma getitem_keys (d : OrderedDict) (k : string) :
  In k (keys d) -> exists t, getitem d k = Ok t.
Proof.
  induction d as [| [k' t'] rest IH]; simpl; [tauto |].
  intros [H | H].
  - subst. rewrite String.eqb_refl. eauto.
  - destruct (String.eqb k' k); eauto.
Qed.

Lemma getitem_Ok_keys (d : OrderedDict) (k : string) (t : TypeId) :
  getitem d k = Ok t -> In k (keys d).
Proof.
  induction d as [| [k' t'] rest IH]; simpl; [discriminate |].
  destruct (String.eqb k' k) eqn:E.
  - apply String.eqb_eq in E. auto.
  - auto.
Qed.

Lemma alloc_func_zeros (df : DataFrame) :
  (if is_cudf df then cp_zeros else np_zeros) = np_zeros.
Proof. now destruct (is_cudf df). Qed.

(** What one turn of the loop does to the frame. *)
Lemma preallocate_column_spec needed n (df : DataFrame) (c : string) :
  In c (keys needed) ->
  len df = n ->
  exists t,
    getitem needed c = Ok t /\
    preallocate_column typeid_to_numpy_str needed np_zeros n df c
    = Ok (setitem df c (fill_column typeid_to_numpy_str n t)).
Proof.
  intros Hin Hlen. destruct (getitem_keys _ _ Hin) as [t Ht].
  exists t. split; [assumption |].
  unfold preallocate_column, fill_column. rewrite Ht. simpl.
  rewrite Hlen. now destruct (TypeId_eqb t STRING).
Qed.

(** The loop over the missing columns: it ends without an exception; a
    column that is not in the list is left as it was, a column that is in
    the list holds the fill of its type. *)
Lemma preallocate_columns_spec needed n (missing : list string) :
  forall df : DataFrame,
    (forall c, In c missing -> In c (keys needed)) ->
    len df = n ->
    exists R,
      preallocate_columns typeid_to_numpy_str needed np_zeros n df missing = Ok R /\
      is_cudf R = is_cudf df /\
      len R = n /\
      (forall c, ~ In c missing -> get_column c (data R) = get_column c (data df)) /\
      (forall c, In c missing ->
         exists t, getitem needed c = Ok t /\
                   get_column c (data R) = Some (fill_column typeid_to_numpy_str n t)).
Proof.
  induction missing as [| c rest IH]; intros df Hkeys Hlen.
  - exists df. simpl. repeat split; auto. intros c [].
  - destruct (preallocate_column_spec needed n df c) as [t [Ht Hstep]];
      [apply Hkeys; now left | assumption |].
    destruct (IH (setitem df c (fill_column typeid_to_numpy_str n t)))
      as [R [HR [Hcudf [HlenR [Hout Hin]]]]];
      [intros; apply Hkeys; now right | exact Hlen |].
    exists R. simpl. rewrite Hstep. simpl. rewrite HR.
    repeat split; auto.
    + intros c' Hnot. rewrite Hout by tauto.
      simpl. apply get_column_set_other. intro; subst; tauto.
    + intros c' [Heq | Hc'].
      * subst c'. destruct (in_dec string_dec c rest) as [Hr | Hr].
        -- now apply Hin.
        -- exists t. split; [assumption |].
           rewrite Hout by assumption. simpl. apply get_column_set_same.
      * now apply Hin.
Qed.

(** [_preallocate_df] never raises; the frame it returns has the rows and
    the library of the frame it was given, every column of the old frame
    unchanged, and for every missing column of the spec the fill of its
    type. *)
Lemma preallocate_df_spec needed (F : DataFrame) :
  exists R,
    _preallocate_df typeid_to_numpy_str needed F = Ok R /\
    is_cudf R = is_cudf F /\
    len R = len F /\
    (forall c, In c (columns F) -> get_column c (data R) = get_column c (data F)) /\
    (forall c t, getitem needed c = Ok t -> ~ In c (columns F) ->
       get_column c (data R) = Some (fill_column typeid_to_numpy_str (len F) t)).
Proof.
  unfold _preallocate_df.
  set (missing := filter (fun col => negb (str_in col (columns F))) (keys needed)).
  assert (Hmiss : forall c, In c missing <-> In c (keys needed) /\ ~ In c (columns F)).
  { intro c. unfold missing. rewrite filter_In, negb_true_iff, str_in_not_In. tauto. }
  destruct (0 <? List.length missing)%nat eqn:E.
  - rewrite alloc_func_zeros.
    destruct (preallocate_columns_spec needed (len F) missing F)
      as [R [HR [Hcudf [Hlen [Hout Hin]]]]];
      [intros c Hc; now apply Hmiss | reflexivity |].
    exists R. repeat split; auto.
    + intros c Hc. apply Hout. rewrite Hmiss. tauto.
    + intros c t Ht Hnot.
      destruct (Hin c) as [t' [Ht' Hget]].
      { apply Hmiss. split; [eapply getitem_Ok_keys; eauto | assumption]. }
      congruence.
  - exists F. repeat split; auto.
    intros c t Ht Hnot. exfalso.
    assert (Hc : In c missing).
    { apply Hmiss. split; [eapply getitem_Ok_keys; eauto | assumption]. }
    destruct missing; [destruct Hc | discriminate].
Qed.

Lemma preallocate_df_has_keys needed (F R : DataFrame) :
  _preallocate_df typeid_to_numpy_str needed F = Ok R ->
  forall c, In c (keys needed) -> In c (columns R).
Proof.
  intros HR c Hc.
  destruct (preallocate_df_spec needed F) as [R' [HR' [_ [_ [Hold Hnew]]]]].
  rewrite HR in HR'. injection HR' as <-.
  unfold columns. apply get_column_In.
  destruct (in_dec string_dec c (columns F)) as [Hin | Hnot].
  - rewrite Hold by assumption. now apply get_column_In.
  - destruct (getitem_keys _ _ Hc) as [t Ht].
    rewrite (Hnew c t Ht Hnot). discriminate.
Qed.

(** C1 (as amended): for every dataframe F and column spec S,
    [_preallocate_df] returns a frame (it does not raise) with the same
    number of rows in which every column named in S exists; every column
    missing from F has its declared dtype and is filled with zeros (numeric
    types) or is an object column of empty strings (the string type); every
    column already present in F keeps its dtype and its values, whatever
    type S declares for it. *)
Theorem preallocate_df_completes_columns :
  forall (S : OrderedDict) (F : DataFrame),
  exists R,
    _preallocate_df typeid_to_numpy_str S F = Ok R /\
    len R = len F /\
    (forall c, In c (keys S) -> In c (columns R)) /\
    (forall c t, getitem S c = Ok t -> ~ In c (columns F) ->
       exists col, get_column c (data R) = Some col /\
         (t <> STRING ->
            dtype col = typeid_to_numpy_str t /\
            values col = repeat (SInt 0) (len F)) /\
         (t = STRING ->
            dtype col = "object" /\
            values col = repeat (SStr "") (len F))) /\
    (forall c col, get_column c (data F) = Some col ->
       get_column c (data R) = Some col).
Proof.
  intros S F.
  destruct (preallocate_df_spec S F) as [R [HR [Hcudf [Hlen [Hold Hnew]]]]].
  exists R. split; [assumption |]. split; [assumption |].
  split; [now apply preallocate_df_has_keys with (F := F) |].
  split.
  - intros c t Ht Hnot. rewrite (Hnew c t Ht Hnot).
    eexists. split; [reflexivity |].
    unfold fill_column. split.
    + intro Hne. destruct t; simpl; try (split; reflexivity). congruence.
    + intro He. subst t. simpl. split; reflexivity.
  - intros c col Hget. rewrite Hold; [assumption |].
    unfold columns. apply get_column_In. congruence.
Qed.

(** C2: reconciliation is idempotent: [_preallocate_df] returns a frame,
    and running it again on that frame with the same spec returns the same
    frame. *)
Theorem preallocate_df_idempotent :
  forall (S : OrderedDict) (F : DataFrame),
  exists R,
    _preallocate_df typeid_to_numpy_str S F = Ok R /\
    _preallocate_df typeid_to_numpy_str S R = Ok R /\
    result_bind (_preallocate_df typeid_to_numpy_str S F)
                (_preallocate_df typeid_to_numpy_str S)
    = _preallocate_df typeid_to_numpy_str S F.
Proof.
  intros S F.
  destruct (preallocate_df_spec S F) as [R [HR _]].
  assert (Hagain : _preallocate_df typeid_to_numpy_str S R = Ok R).
  { unfold _preallocate_df.
    replace (filter (fun col => negb (str_in col (columns R))) (keys S))
      with (@nil string); [reflexivity |].
    symmetry. apply filter_none. intros c Hc.
    apply negb_false_iff, str_in_In.
    now apply preallocate_df_has_keys with (needed := S) (F := F). }
  exists R. split; [exact HR |]. split; [exact Hagain |].
  rewrite HR. simpl. exact Hagain.
Qed.

End PreallocatorFacts.

Section PostBuildFacts.

Import Preallocator.

Variable pretty_print_type_name : py_type -> string.
Variable should_use_cpp : bool.

Lemma length_pos_nonempty {A} (l : list A) :
  (0 <? List.length l)%nat = true <-> l <> [].
Proof.
  destruct l; simpl; split; intro H; try discriminate; try reflexivity.
  now contradict H.
Qed.



(** C9: with an empty spec [_post_build_single] makes no node and no edge
    and returns the stage's own output node, whatever the declared output
    type; and [_preallocate_df] with an empty spec returns the frame it was
    given. *)
Theorem post_build_single_empty_spec :
  forall (self : Stage) (builder : Builder) (out_node : SegmentObject),
    _needed_columns self = [] ->
    _post_build_single pretty_print_type_name should_use_cpp self builder out_node
    = (Ok out_node, builder)
    /\
    (forall typeid_to_numpy_str (df : DataFrame),
       _preallocate_df typeid_to_numpy_str (_needed_columns self) df = Ok df).
Proof.
  intros self builder out_node Hempty. split.
  - unfold _post_build_single. now rewrite Hempty.
  - intros. now rewrite Hempty.
Qed.

End PostBuildFacts.

(** C1 (as stated) fails: a column that is already in the frame keeps its
    own dtype.  The frame has a column [user] of strings, the spec declares
    [user] as a 64-bit integer; the result still has the object column. *)
Lemma preallocate_df_keeps_present_dtype :
  ~ (exists R,
       Preallocator._preallocate_df Examples.numpy_str
         [("user", Preallocator.INT64)] Examples.users_df = Ok R /\
       forall c t,
         Preallocator.getitem [("user", Preallocator.INT64)] c = Ok t ->
         exists col,
           Preallocator.get_column c (Preallocator.data R) = Some col /\
           Preallocator.dtype col = Examples.numpy_str t).
Proof.
  intros [R [HR Hall]].
  vm_compute in HR. injection HR as <-.
  destruct (Hall "user" Preallocator.INT64 eq_refl) as [col [Hget Hdt]].
  vm_compute in Hget. injection Hget as <-.
  vm_compute in Hdt. discriminate.
Qed.

(** The classification stage of the GNN example asks for [node_id] and
    [prediction]; a frame that has neither receives both and keeps its
    [user] column. *)
Lemma preallocate_df_completes_columns_witness :
  exists R,
    Preallocator._preallocate_df Examples.numpy_str Examples.gnn_columns
      Examples.users_df = Ok R /\
    Preallocator.columns R = ["user"; "node_id"; "prediction"] /\
    Preallocator.get_column "prediction" (Preallocator.data R)
    = Some {| Preallocator.dtype := "float32"; Preallocator.values := [SInt 0] |}.
Proof.
  destruct (preallocate_df_completes_columns Examples.numpy_str
              Examples.gnn_columns Examples.users_df) as [R [HR _]].
  exists R. split; [exact HR |].
  vm_compute in HR. injection HR as <-. split; reflexivity.
Defined.



(** A stage that emits [MessageMeta] and needs no column: the node [src] is
    returned and the builder stays empty. *)
Lemma post_build_single_empty_spec_witness :
  Preallocator._needed_columns
    (Preallocator.mkStage "src" (Preallocator.Class Examples.MessageMeta_class) []) = []
  /\
  Preallocator._post_build_single Examples.pretty_name true
    (Preallocator.mkStage "src" (Preallocator.Class Examples.MessageMeta_class) [])
    Examples.empty_builder "src"
  = (Ok "src", Examples.empty_builder).
Proof.
  split; [reflexivity |].
  exact (proj1 (post_build_single_empty_spec Examples.pretty_name true
                  (Preallocator.mkStage "src"
                     (Preallocator.Class Examples.MessageMeta_class) [])
                  Examples.empty_builder "src" eq_refl)).
Defined.

(** ** The AppShield source stage *)

Section ReadFileFacts.

Import AppShield.

Lemma find_none_iff {A} (f : A -> bool) (l : list A) :
  (forall x, In x l -> f x = false) -> find f l = None.
Proof.
  induction l as [| x l IH]; simpl; intro H; [reflexivity |].
  rewrite (H x) by now left. apply IH. intros; apply H; now right.
Qed.

Lemma mask_filter_map {A} (f : A -> bool) (l : list A) :
  mask_filter (map f l) l = filter f l.
Proof.
  induction l as [| x l IH]; simpl; [reflexivity |].
  rewrite IH. reflexivity.
Qed.

Lemma dedup_In (x : string) (l : list string) : In x (dedup l) -> In x l.
Proof.
  induction l as [| y l IH]; simpl; [tauto |].
  intros [H | H]; [now left |].
  apply filter_In in H. right. tauto.
Qed.

Lemma In_dedup (x : string) (l : list string) : In x l -> In x (dedup l).
Proof.
  induction l as [| y l IH]; simpl; [tauto |].
  intros [H | H]; [now left |].
  destruct (string_dec x y) as [-> | Hne]; [now left |].
  right. apply filter_In. split; [auto |].
  apply negb_true_iff, String.eqb_neq. assumption.
Qed.

Lemma difference_In (x : string) (self other : list string) :
  In x (difference self other) <-> In x self /\ ~ In x other.
Proof.
  unfold difference. split.
  - intro H. apply dedup_In, filter_In in H.
    rewrite negb_true_iff, str_in_not_In in H. exact H.
  - intros [H1 H2]. apply In_dedup, filter_In.
    rewrite negb_true_iff, str_in_not_In. tauto.
Qed.

Lemma pd_DataFrame_columns (cols : list string) data (df : DataFrame) :
  pd_DataFrame cols data = Ok df -> columns df = cols.
Proof.
  unfold pd_DataFrame. destruct data as [| r data'].
  - intro H. injection H as <-. reflexivity.
  - destruct (List.length cols =? max_width (r :: data'))%nat;
      intro H; [injection H as <-; reflexivity | discriminate].
Qed.

Lemma pd_DataFrame_raises_ValueError (cols : list string) data (e : exn) :
  pd_DataFrame cols data = Raise e -> is_ValueError e = true.
Proof.
  unfold pd_DataFrame. destruct data as [| r data']; [discriminate |].
  destruct (List.length cols =? max_width (r :: data'))%nat;
    intro H; [discriminate | injection H as <-; reflexivity].
Qed.

(** Dropping what [difference] lists leaves the labels that pass the
    filter, in the order of the frame. *)
Lemma drop_difference (keep : string -> bool) (df : DataFrame) :
  exists df',
    drop (difference (columns df) (filter keep (columns df))) df = Ok df' /\
    columns df' = filter keep (columns df).
Proof.
  unfold drop.
  rewrite find_none_iff.
  - eexists. split; [reflexivity |]. simpl.
    rewrite mask_filter_map. apply filter_ext_in. intros c Hc.
    destruct (keep c) eqn:Ek.
    + apply negb_true_iff, str_in_not_In. rewrite difference_In, filter_In. tauto.
    + apply negb_false_iff, str_in_In. rewrite difference_In, filter_In.
      split; [assumption |]. intros [_ H]. congruence.
  - intros c Hc. apply difference_In in Hc.
    apply negb_false_iff, str_in_In. tauto.
Qed.

(** C8 (as amended): for every parsed record set, the first attempt of
    [read_file_to_df] builds the table from the titles that are not in the
    exclude list (the include list plays no part in this function); when
    that build succeeds it is the result and nothing is logged; only when it
    raises does the function log the fallback, build from the full titles
    and drop every column that is not among those titles; and whichever path
    succeeds, the labels of the result are the titles that are not
    excluded. *)
Theorem read_file_to_df_two_paths :
  forall (records : RawRecordSet) (cols_exclude : list string),
    let features_plugin :=
      filter (fun col => negb (str_in col cols_exclude)) (titles records) in
    (forall df,
       pd_DataFrame features_plugin (data records) = Ok df ->
       read_file_to_df (Ok records) cols_exclude = (Ok df, [])) /\
    (forall e,
       pd_DataFrame features_plugin (data records) = Raise e ->
       read_file_to_df (Ok records) cols_exclude
       = (result_bind (pd_DataFrame (titles records) (data records))
            (fun df => drop (difference (columns df) features_plugin) df),
          [Log INFO
             "Failed to load partial set of columns from input data. Loading entire DataFrame and filtering."
             []])) /\
    (forall df l,
       read_file_to_df (Ok records) cols_exclude = (Ok df, l) ->
       columns df = features_plugin).
Proof.
  intros records cols_exclude features_plugin.
  assert (Hfallback : forall e,
    pd_DataFrame features_plugin (data records) = Raise e ->
    read_file_to_df (Ok records) cols_exclude
    = (result_bind (pd_DataFrame (titles records) (data records))
         (fun df => drop (difference (columns df) features_plugin) df),
       [Log INFO
          "Failed to load partial set of columns from input data. Loading entire DataFrame and filtering."
          []])).
  { intros e He. unfold read_file_to_df. simpl.
    fold features_plugin. rewrite He.
    rewrite (pd_DataFrame_raises_ValueError _ _ _ He). simpl.
    destruct (pd_DataFrame (titles records) (data records)) as [df |]; simpl;
      [| reflexivity].
    destruct (drop (difference (columns df) features_plugin) df); reflexivity. }
  split; [| split].
  - intros df Hdf. unfold read_file_to_df. simpl.
    fold features_plugin. rewrite Hdf. reflexivity.
  - exact Hfallback.
  - intros df l Hread.
    destruct (pd_DataFrame features_plugin (data records)) as [df0 | e] eqn:E.
    + unfold read_file_to_df in Hread. simpl in Hread.
      fold features_plugin in Hread. rewrite E in Hread.
      injection Hread as <- <-. eapply pd_DataFrame_columns; eauto.
    + rewrite (Hfallback e eq_refl) in Hread.
      destruct (pd_DataFrame (titles records) (data records)) as [df1 |] eqn:E1;
        simpl in Hread; [| discriminate].
      apply pd_DataFrame_columns in E1.
      destruct (drop_difference (fun col => negb (str_in col cols_exclude)) df1)
        as [df' [Hdrop Hcols]].
      rewrite E1 in Hdrop, Hcols. fold features_plugin in Hdrop, Hcols.
      rewrite E1 in Hread. rewrite Hdrop in Hread.
      injection Hread as <- <-. exact Hcols.
Qed.

End ReadFileFacts.

(** C8 (as stated) fails: the include list is not used when the table is
    built.  The file has the titles [PID] and [Process], nothing is
    excluded from them, and only [PID] is included; the first attempt
    succeeds (nothing is logged) and the table has both columns. *)
Lemma read_file_to_df_ignores_include_list :
  ~ (exists df,
       AppShield.read_file_to_df (Ok Examples.proc_records_B) ["SHA256"] = (Ok df, []) /\
       AppShield.columns df
       = filter (fun col => str_in col ["PID"])
                (AppShield.titles Examples.proc_records_B)).
Proof.
  intros [df [Hread Hcols]].
  vm_compute in Hread. injection Hread as <-.
  vm_compute in Hcols. discriminate.
Qed.

(** A file with the titles [PID], [Process] and [SHA256]: without [SHA256]
    two labels are left for rows of three cells, the first build raises and
    the fallback gives the two columns. *)
Lemma read_file_to_df_two_paths_witness :
  AppShield.pd_DataFrame
    (filter (fun col => negb (str_in col ["SHA256"]))
            (AppShield.titles Examples.proc_records))
    (AppShield.data Examples.proc_records)
  = Raise (ValueError "columns passed, passed data had a different number of columns")
  /\
  AppShield.read_file_to_df (Ok Examples.proc_records) ["SHA256"]
  = (Ok {| AppShield.columns := ["PID"; "Process"];
           AppShield.rows := [ [SInt 4; SStr "System"]; [SInt 88; SStr "Registry"] ] |},
     [AppShield.Log AppShield.INFO
        "Failed to load partial set of columns from input data. Loading entire DataFrame and filtering."
        []]).
Proof.
  split; [reflexivity |].
  exact (proj1 (proj2 (read_file_to_df_two_paths Examples.proc_records ["SHA256"]))
               _ eq_refl).
Defined.

Section LoadFacts.

Import AppShield.

Variable fs : filesystem.

Lemma opens_app (l1 l2 : list event) :
  opens (l1 ++ l2) = (opens l1 ++ opens l2)%list.
Proof.
  induction l1 as [| ev l1 IH]; simpl; [reflexivity |].
  destruct ev; simpl; now rewrite IH.
Qed.

(** Reading an open file opens no other file. *)
Lemma read_file_to_df_opens (file : TextIOWrapper) (cols_exclude : list string) :
  opens (snd (read_file_to_df file cols_exclude)) = [].
Proof.
  unfold read_file_to_df. destruct file as [records | e]; simpl; [| reflexivity].
  destruct (pd_DataFrame _ (data records)) as [df | e]; simpl; [reflexivity |].
  destruct (is_ValueError e); simpl; [| reflexivity].
  destruct (pd_DataFrame (titles records) (data records)) as [df |]; simpl;
    reflexivity.
Qed.

(** One attempt opens the file once, with the encoding it is given. *)
Lemma open_and_read_opens (filepath : string) cols_exclude (encoding : string) :
  opens (snd (open_and_read fs filepath cols_exclude encoding))
  = [(filepath, encoding)].
Proof.
  unfold open_and_read. simpl.
  destruct (fs filepath encoding) as [file | e]; simpl; [| reflexivity].
  pose proof (read_file_to_df_opens file cols_exclude) as H.
  destruct (read_file_to_df file cols_exclude) as [r l]. simpl in *.
  now rewrite H.
Qed.

(** C5 (as amended): when the attempt with the configured encoding raises a
    JSON decode error, [load_df] logs it and then looks at the lower-cased
    name of the encoding: if it starts with [utf] (utf-8, UTF-8, utf-16, ...)
    the error is raised again and the file is not opened a second time;
    otherwise the file is opened exactly once more, with utf-8, and the
    outcome of that second attempt, whatever it is, is the outcome of
    [load_df]. *)
Theorem load_df_retry_policy :
  forall (filepath : string) (cols_exclude : list string) (encoding msg : string)
         (l : list event),
    open_and_read fs filepath cols_exclude encoding
    = (Raise (JSONDecodeError msg), l) ->
    let logged :=
      Log ERROR "Unable to load %s to dataframe with %s encoding : %s"
          [filepath; encoding; msg] in
    (startswith (lower encoding) "utf" = true ->
     load_df fs filepath cols_exclude encoding
     = (Raise (JSONDecodeError msg), (l ++ [logged])%list) /\
     opens (snd (load_df fs filepath cols_exclude encoding))
     = [(filepath, encoding)])
    /\
    (startswith (lower encoding) "utf" = false ->
     load_df fs filepath cols_exclude encoding
     = (fst (open_and_read fs filepath cols_exclude "utf-8"),
        (l ++ [logged;
               Log INFO "Retrying... Attempting to load %s with utf-8 encoding"
                   [filepath]]
           ++ snd (open_and_read fs filepath cols_exclude "utf-8"))%list) /\
     opens (snd (load_df fs filepath cols_exclude encoding))
     = [(filepath, encoding); (filepath, "utf-8")]).
Proof.
  intros filepath cols_exclude encoding msg l Hfirst logged.
  pose proof (open_and_read_opens filepath cols_exclude encoding) as Ho1.
  rewrite Hfirst in Ho1. simpl in Ho1.
  split; intro Hutf.
  - assert (Hload : load_df fs filepath cols_exclude encoding
                    = (Raise (JSONDecodeError msg), (l ++ [logged])%list)).
    { unfold load_df. rewrite Hfirst. simpl. rewrite Hutf. reflexivity. }
    split; [exact Hload |].
    rewrite Hload. simpl. rewrite opens_app, Ho1. reflexivity.
  - pose proof (open_and_read_opens filepath cols_exclude "utf-8") as Ho2.
    assert (Hload : load_df fs filepath cols_exclude encoding
      = (fst (open_and_read fs filepath cols_exclude "utf-8"),
         (l ++ [logged;
                Log INFO "Retrying... Attempting to load %s with utf-8 encoding"
                    [filepath]]
            ++ snd (open_and_read fs filepath cols_exclude "utf-8"))%list)).
    { unfold load_df. rewrite Hfirst. simpl. rewrite Hutf.
      destruct (open_and_read fs filepath cols_exclude "utf-8") as [r l2].
      simpl. reflexivity. }
    split; [exact Hload |].
    rewrite Hload. simpl. rewrite !opens_app, Ho1. simpl. rewrite Ho2.
    reflexivity.
Qed.

(** An attempt that does not raise a JSON decode error is final. *)
Lemma load_df_no_decode_error (filepath : string) cols_exclude (encoding : string) :
  (forall msg, fst (open_and_read fs filepath cols_exclude encoding)
               <> Raise (JSONDecodeError msg)) ->
  load_df fs filepath cols_exclude encoding
  = open_and_read fs filepath cols_exclude encoding.
Proof.
  intro H. unfold load_df.
  destruct (open_and_read fs filepath cols_exclude encoding) as [[df | e] l];
    [reflexivity |].
  destruct e; try reflexivity. exfalso. now apply (H msg).
Qed.

End LoadFacts.

(** C5 (as stated) fails: an encoding that is not utf-8 is not always
    retried.  With the encoding utf-16 (which is not utf-8) and a file whose
    content is not JSON, [load_df] opens the file once and re-raises. *)
Lemma load_df_utf16_not_retried :
  ~ (("utf-16" <> "utf-8") ->
     AppShield.opens
       (snd (AppShield.load_df Examples.demo_fs Examples.corrupt_path ["SHA256"] "utf-16"))
     = [(Examples.corrupt_path, "utf-16"); (Examples.corrupt_path, "utf-8")]).
Proof.
  intro H. assert (Hne : "utf-16" <> "utf-8") by discriminate.
  specialize (H Hne). vm_compute in H. discriminate.
Qed.

(** A file that is not JSON, read with latin1: it is opened a second time,
    with utf-8. *)
Lemma load_df_retry_policy_witness :
  AppShield.open_and_read Examples.demo_fs Examples.corrupt_path ["SHA256"] "latin1"
  = (Raise Examples.json_error, [AppShield.Open Examples.corrupt_path "latin1"])
  /\ AppShield.startswith (AppShield.lower "latin1") "utf" = false
  /\ AppShield.opens
       (snd (AppShield.load_df Examples.demo_fs Examples.corrupt_path ["SHA256"] "latin1"))
     = [(Examples.corrupt_path, "latin1"); (Examples.corrupt_path, "utf-8")].
Proof.
  split; [reflexivity |]. split; [reflexivity |].
  exact (proj2 (proj2 (load_df_retry_policy Examples.demo_fs Examples.corrupt_path
                         ["SHA256"] "latin1" _ _ eq_refl) eq_refl)).
Defined.

Section PartitionFacts.

Import AppShield.

Lemma unique_In (x : scalar) (l : list scalar) : In x (unique l) <-> In x l.
Proof.
  induction l as [| y l IH]; simpl; [tauto |].
  rewrite filter_In, IH, negb_true_iff, scalar_eqb_neq.
  destruct (scalar_eqb x y) eqn:E.
  - apply scalar_eqb_eq in E. subst. tauto.
  - apply scalar_eqb_neq in E. tauto.
Qed.

Lemma unique_NoDup (l : list scalar) : NoDup (unique l).
Proof.
  induction l as [| y l IH]; simpl; constructor.
  - rewrite filter_In, negb_true_iff, scalar_eqb_neq. tauto.
  - now apply NoDup_filter.
Qed.

Lemma dict_set_fresh {V} (d : dict V) (k : scalar) (v : V) :
  ~ In k (map fst d) -> dict_set d k v = (d ++ [(k, v)])%list.
Proof.
  induction d as [| [k' v'] d IH]; simpl; intro H; [reflexivity |].
  destruct (scalar_eqb k' k) eqn:E.
  - apply scalar_eqb_eq in E. tauto.
  - rewrite IH by tauto. reflexivity.
Qed.

(** Filling a dict from distinct keys lists them in order. *)
Lemma fold_dict_set_distinct {V} (f : scalar -> V) (ks : list scalar) :
  forall d : dict V,
    NoDup ks ->
    (forall k, In k ks -> ~ In k (map fst d)) ->
    fold_left (fun acc k => dict_set acc k (f k)) ks d
    = (d ++ map (fun k => (k, f k)) ks)%list.
Proof.
  induction ks as [| k ks IH]; intros d Hnd Hfresh; simpl.
  - now rewrite app_nil_r.
  - inversion Hnd as [| ? ? Hk Hnd']; subst.
    rewrite dict_set_fresh by (apply Hfresh; now left).
    rewrite IH; [now rewrite <- app_assoc | assumption |].
    intros k' Hk'. rewrite map_app, in_app_iff. simpl.
    intros [H | [H | []]].
    + apply (Hfresh k'); [now right | assumption].
    + subst. tauto.
Qed.

Lemma filter_disjoint_perm {A} (p q : A -> bool) (l : list A) :
  (forall x, p x = true -> q x = false) ->
  Permutation (filter p l ++ filter q l) (filter (fun x => p x || q x) l).
Proof.
  intro Hdis. induction l as [| x l IH]; simpl; [constructor |].
  destruct (p x) eqn:Ep; simpl.
  - rewrite (Hdis x Ep). now constructor.
  - destruct (q x); [| assumption].
    apply Permutation_sym, Permutation_cons_app, Permutation_sym, IH.
Qed.

(** Splitting a list by the distinct values of a key loses and repeats
    nothing. *)
Lemma split_by_key_perm {A} (key : A -> scalar) (l : list A) (ks : list scalar) :
  NoDup ks ->
  Permutation
    (flat_map (fun k => filter (fun r => scalar_eqb (key r) k) l) ks)
    (filter (fun r => existsb (scalar_eqb (key r)) ks) l).
Proof.
  induction ks as [| k ks IH]; intro Hnd; simpl.
  - rewrite filter_none; [constructor | reflexivity].
  - inversion Hnd as [| ? ? Hk Hnd']; subst.
    eapply Permutation_trans; [apply Permutation_app_head, IH, Hnd' |].
    apply filter_disjoint_perm. intros r Hr.
    apply scalar_eqb_eq in Hr. subst k.
    destruct (existsb (scalar_eqb (key r)) ks) eqn:E; [| reflexivity].
    apply existsb_exists in E. destruct E as [k' [Hin He]].
    apply scalar_eqb_eq in He. subst. tauto.
Qed.

Lemma filter_all {A} (f : A -> bool) (l : list A) :
  (forall x, In x l -> f x = true) -> filter f l = l.
Proof.
  induction l as [| x l IH]; simpl; intro H; [reflexivity |].
  rewrite (H x) by now left. f_equal. apply IH. intros; apply H; now right.
Qed.

Lemma concat_normalized (cols : list string) (first : DataFrame) (rest : list DataFrame) :
  Forall (normalized cols) (first :: rest) ->
  pd_concat (first :: rest)
  = Ok {| columns := cols; rows := flat_map rows (first :: rest) |}.
Proof.
  intro Hn. unfold pd_concat.
  assert (Hf : columns first = cols) by (inversion Hn as [| ? ? [H _] _]; exact H).
  replace (forallb (fun df => list_eqb (columns df) (columns first)) (first :: rest))
    with true; [now rewrite Hf |].
  symmetry. apply forallb_forall. intros df Hdf.
  rewrite Forall_forall in Hn. destruct (Hn df Hdf) as [Hc _].
  unfold list_eqb. rewrite Hc, Hf.
  destruct (list_eq_dec string_dec cols cols); [reflexivity | congruence].
Qed.

Lemma normalized_rows (cols : list string) (T : list DataFrame) :
  Forall (normalized cols) T ->
  forall r, In r (flat_map rows T) -> exists s, cell cols r "source" = SStr s.
Proof.
  intros Hn r Hr. apply in_flat_map in Hr. destruct Hr as [t [Ht Hr]].
  rewrite Forall_forall in Hn. destruct (Hn t Ht) as [_ [_ [_ Hrows]]].
  rewrite Forall_forall in Hrows. now apply Hrows.
Qed.

(** What [batch_source_split] returns on normalized tables that hold at
    least one row: one entry per distinct source, in order of first
    appearance, with the rows of that source in their input order. *)
Lemma batch_source_split_spec (cols : list string) (T : list DataFrame) :
  Forall (normalized cols) T ->
  flat_map rows T <> [] ->
  batch_source_split T "source"
  = Ok (map (fun k =>
               (k, {| columns := cols;
                      rows := filter (fun r => scalar_eqb (cell cols r "source") k)
                                     (flat_map rows T) |}))
            (unique (map (fun r => cell cols r "source") (flat_map rows T)))).
Proof.
  intros Hn Hrows.
  destruct T as [| first rest]; [now contradict Hrows |].
  assert (Hsrc : NoDup cols /\ In "source" cols)
    by (inversion Hn as [| ? ? [_ [Hnd [H _]]] _]; now split).
  unfold batch_source_split. rewrite (concat_normalized cols first rest Hn).
  set (all := flat_map rows (first :: rest)) in *.
  simpl result_bind. unfold getitem_col. simpl columns. simpl AppShield.rows.
  rewrite (filter_eqb_NoDup "source" cols (proj1 Hsrc) (proj2 Hsrc)).
  simpl result_bind.
  set (keys := unique (map (fun r => cell cols r "source") all)).
  assert (Hpd : forall k,
    filter (fun r => pd_eq (cell cols r "source") k) all
    = filter (fun r => scalar_eqb (cell cols r "source") k) all).
  { intro k. apply filter_ext_in. intros r Hr.
    destruct (normalized_rows cols _ Hn r Hr) as [s Hs]. rewrite Hs.
    destruct k; reflexivity. }
  destruct (1 <? List.length keys)%nat eqn:E.
  - f_equal. rewrite fold_dict_set_distinct;
      [| apply unique_NoDup | intros k _ []].
    simpl. apply map_ext. intro k. unfold filter_eq. simpl.
    now rewrite Hpd.
  - destruct keys as [| k [| k' keys']] eqn:Ek; [| | discriminate].
    + exfalso. destruct all as [| r all'] eqn:Ea; [now apply Hrows |].
      assert (H : In (cell cols r "source") keys)
        by (unfold keys; apply unique_In; now left).
      rewrite Ek in H. destruct H.
    + simpl. do 4 f_equal. symmetry. apply filter_all. intros r Hr.
      assert (H : In (cell cols r "source") keys).
      { unfold keys. apply unique_In, in_map_iff. now exists r. }
      rewrite Ek in H. destruct H as [H | []]. subst k. apply scalar_eqb_refl.
Qed.

(** The tables of that mapping hold, together, the rows of the input. *)
Lemma source_tables_perm (cols : list string) (all : list (list scalar)) :
  Permutation
    (flat_map (fun kv : scalar * DataFrame => rows (snd kv))
       (map (fun k =>
               (k, {| columns := cols;
                      rows := filter (fun r => scalar_eqb (cell cols r "source") k) all |}))
            (unique (map (fun r => cell cols r "source") all))))
    all.
Proof.
  rewrite flat_map_concat_map, map_map. simpl.
  rewrite <- flat_map_concat_map.
  eapply Permutation_trans;
    [apply (split_by_key_perm (fun r => cell cols r "source")), unique_NoDup |].
  rewrite filter_all; [apply Permutation_refl |].
  intros r Hr. apply existsb_exists. exists (cell cols r "source"). split.
  - apply unique_In, in_map_iff. now exists r.
  - apply scalar_eqb_refl.
Qed.

Lemma unique_nonempty (l : list scalar) : l <> [] -> unique l <> [].
Proof. destruct l; [congruence | discriminate]. Qed.

End PartitionFacts.

(** C3 (as amended): for every list of normalized tables that holds at least
    one row, [batch_source_split] returns a mapping from source value to
    table with at least one entry and distinct keys; the rows of all the
    tables of the mapping are, as a multiset, the rows of the input; the
    table under a key holds exactly the input rows of that source, in input
    order; and a row found in two tables of the mapping is found under one
    key, so that the tables do not overlap. *)
Theorem batch_source_split_partitions :
  forall (cols : list string) (T : list AppShield.DataFrame),
    Forall (AppShield.normalized cols) T ->
    flat_map AppShield.rows T <> [] ->
    exists m,
      AppShield.batch_source_split T "source" = Ok m /\
      m <> [] /\
      NoDup (map fst m) /\
      Permutation (flat_map (fun kv => AppShield.rows (snd kv)) m)
                  (flat_map AppShield.rows T) /\
      (forall k df, In (k, df) m ->
         AppShield.columns df = cols /\
         AppShield.rows df
         = filter (fun r => scalar_eqb (AppShield.cell cols r "source") k)
                  (flat_map AppShield.rows T)) /\
      (forall k1 df1 k2 df2 r,
         In (k1, df1) m -> In (k2, df2) m ->
         In r (AppShield.rows df1) -> In r (AppShield.rows df2) -> k1 = k2).
Proof.
  intros cols T Hn Hrows.
  rewrite (batch_source_split_spec cols T Hn Hrows).
  set (all := flat_map AppShield.rows T) in *.
  set (key := fun r => AppShield.cell cols r "source").
  set (ks := AppShield.unique (map key all)).
  eexists. split; [reflexivity |].
  assert (Hentry : forall k df,
    In (k, df) (map (fun k => (k, {| AppShield.columns := cols;
                                     AppShield.rows :=
                                       filter (fun r => scalar_eqb (key r) k) all |})) ks) ->
    AppShield.columns df = cols /\
    AppShield.rows df = filter (fun r => scalar_eqb (key r) k) all).
  { intros k df Hin. apply in_map_iff in Hin. destruct Hin as [k' [Heq _]].
    injection Heq as <- <-. split; reflexivity. }
  split; [| split; [| split; [| split]]].
  - intro Hnil. apply map_eq_nil in Hnil.
    apply (unique_nonempty (map key all)); [| exact Hnil].
    intro Hmap. apply map_eq_nil in Hmap. now apply Hrows.
  - rewrite map_map. simpl. rewrite map_id. apply unique_NoDup.
  - apply source_tables_perm.
  - exact Hentry.
  - intros k1 df1 k2 df2 r H1 H2 Hr1 Hr2.
    destruct (Hentry _ _ H1) as [_ E1]. destruct (Hentry _ _ H2) as [_ E2].
    rewrite E1 in Hr1. rewrite E2 in Hr2.
    apply filter_In in Hr1. apply filter_In in Hr2.
    destruct Hr1 as [_ Hr1]. destruct Hr2 as [_ Hr2].
    apply scalar_eqb_eq in Hr1. apply scalar_eqb_eq in Hr2. congruence.
Qed.

(** C3 (as stated) fails: a non-empty list of normalized tables need not
    give a partition.  The one table of the list has the labels of a
    normalized table and no row (a plugin file whose [data] is empty);
    [batch_source_split] finds no source value and raises [IndexError]. *)
Lemma batch_source_split_no_rows_raises :
  ~ ([Examples.table_empty] <> [] ->
     Forall (AppShield.normalized Examples.meta_labels) [Examples.table_empty] ->
     exists m,
       AppShield.batch_source_split [Examples.table_empty] "source" = Ok m /\
       m <> []).
Proof.
  intro H.
  destruct H as [m [Hm _]].
  - discriminate.
  - constructor; [| constructor].
    split; [reflexivity |]. split; [| split; [| constructor]].
    + repeat constructor; simpl; intuition discriminate.
    + simpl. tauto.
  - vm_compute in Hm. discriminate.
Qed.

(** Two tables, one per host: the partition exists and is not empty. *)
Lemma batch_source_split_partitions_witness :
  Forall (AppShield.normalized Examples.meta_labels)
         [Examples.table_A; Examples.table_B]
  /\ flat_map AppShield.rows [Examples.table_A; Examples.table_B] <> []
  /\ exists m,
       AppShield.batch_source_split [Examples.table_A; Examples.table_B] "source"
       = Ok m /\ m <> [].
Proof.
  assert (Hsrc : In "source" Examples.meta_labels) by (simpl; tauto).
  assert (Hnd : NoDup Examples.meta_labels)
    by (repeat constructor; simpl; intuition discriminate).
  assert (Hn : Forall (AppShield.normalized Examples.meta_labels)
                      [Examples.table_A; Examples.table_B]).
  { constructor; [| constructor; [| constructor]].
    - split; [reflexivity |]. split; [exact Hnd |]. split; [exact Hsrc |].
      repeat constructor; exists "hostA"; reflexivity.
    - split; [reflexivity |]. split; [exact Hnd |]. split; [exact Hsrc |].
      repeat constructor; exists "hostB"; reflexivity. }
  assert (Hr : flat_map AppShield.rows [Examples.table_A; Examples.table_B] <> [])
    by discriminate.
  split; [exact Hn |]. split; [exact Hr |].
  destruct (batch_source_split_partitions Examples.meta_labels
              [Examples.table_A; Examples.table_B] Hn Hr) as [m [Hm [Hne _]]].
  exists m. split; assumption.
Defined.

Section MetaColsFacts.

Import AppShield.

Lemma cells_of_not_In (c : string) (cols : list string) :
  ~ In c cols -> forall r, cells_of c cols r = [].
Proof.
  induction cols as [| c0 cs IH]; intros Hnot r; [reflexivity |].
  destruct r as [| x xs]; [reflexivity |]. simpl.
  destruct (String.eqb c0 c) eqn:E.
  - apply String.eqb_eq in E. subst. exfalso. apply Hnot. now left.
  - apply IH. intro H. apply Hnot. now right.
Qed.

Lemma cells_of_app (c col : string) (v : scalar) (cols : list string) :
  forall r,
    List.length r = List.length cols ->
    cells_of c (cols ++ [col]) (r ++ [v])
    = (cells_of c cols r ++ (if String.eqb col c then [v] else []))%list.
Proof.
  induction cols as [| c0 cs IH]; intros r Hlen.
  - destruct r; [| discriminate]. simpl. now destruct (String.eqb col c).
  - destruct r as [| x xs]; [discriminate |]. simpl in *.
    injection Hlen as Hlen. rewrite (IH xs Hlen).
    now destruct (String.eqb c0 c).
Qed.

Lemma set_cells_length (col : string) (v : scalar) (cols : list string) :
  forall r, List.length (set_cells col v cols r) = List.length r.
Proof.
  induction cols as [| c0 cs IH]; intro r; [reflexivity |].
  destruct r as [| x xs]; [reflexivity |]. simpl. now rewrite IH.
Qed.

Lemma set_cells_same (col : string) (v : scalar) (cols : list string) :
  forall r,
    List.length r = List.length cols ->
    In col cols ->
    cell cols (set_cells col v cols r) col = v.
Proof.
  unfold cell.
  induction cols as [| c0 cs IH]; intros r Hlen Hin; [destruct Hin |].
  destruct r as [| x xs]; [discriminate |]. simpl in *.
  injection Hlen as Hlen.
  destruct (String.eqb c0 col) eqn:E; [reflexivity |].
  apply IH; [assumption |].
  destruct Hin as [H | H]; [| assumption].
  apply String.eqb_neq in E. congruence.
Qed.

Lemma set_cells_other (c col : string) (v : scalar) (cols : list string) :
  c <> col ->
  forall r, cells_of c cols (set_cells col v cols r) = cells_of c cols r.
Proof.
  intro Hne. induction cols as [| c0 cs IH]; intro r; [reflexivity |].
  destruct r as [| x xs]; [reflexivity |]. simpl.
  rewrite IH. destruct (String.eqb c0 c) eqn:E; [| reflexivity].
  apply String.eqb_eq in E. subst c0.
  destruct (String.eqb c col) eqn:E'; [| reflexivity].
  apply String.eqb_eq in E'. congruence.
Qed.

(** [df[col] = v] on a frame whose rows have one cell per label: the rows
    keep that shape and their number, every row has [v] under [col], and a
    value that all rows had under another label is still there. *)
Lemma setitem_spec (df : DataFrame) (col : string) (v : scalar) :
  well_formed df ->
  well_formed (setitem df col v) /\
  List.length (rows (setitem df col v)) = List.length (rows df) /\
  Forall (fun r => cell (columns (setitem df col v)) r col = v)
         (rows (setitem df col v)) /\
  (forall c w,
     c <> col ->
     Forall (fun r => cell (columns df) r c = w) (rows df) ->
     Forall (fun r => cell (columns (setitem df col v)) r c = w)
            (rows (setitem df col v))).
Proof.
  intro Hwf. unfold well_formed in *. unfold setitem.
  destruct (str_in col (columns df)) eqn:E; simpl.
  - apply str_in_In in E.
    split; [| split; [| split]].
    + apply Forall_map. eapply Forall_impl; [| exact Hwf].
      intros r Hr. simpl. now rewrite set_cells_length.
    + apply length_map.
    + apply Forall_map. eapply Forall_impl; [| exact Hwf].
      intros r Hr. simpl. now apply set_cells_same.
    + intros c w Hne Hall. apply Forall_map.
      eapply Forall_impl; [| exact Hall].
      intros r Hr. simpl. unfold cell in *. now rewrite set_cells_other.
  - apply str_in_not_In in E.
    split; [| split; [| split]].
    + apply Forall_map. eapply Forall_impl; [| exact Hwf].
      intros r Hr. simpl. rewrite !length_app, Hr. reflexivity.
    + apply length_map.
    + apply Forall_map. eapply Forall_impl; [| exact Hwf].
      intros r Hr. simpl. unfold cell.
      rewrite cells_of_app by assumption.
      rewrite (cells_of_not_In col _ E), String.eqb_refl. reflexivity.
    + intros c w Hne Hall. apply Forall_map.
      rewrite Forall_forall in *. intros r Hr. simpl. unfold cell.
      rewrite cells_of_app by now apply Hwf.
      replace (String.eqb col c) with false
        by (symmetry; apply String.eqb_neq; congruence).
      rewrite app_nil_r. now apply Hall.
Qed.

Lemma setitem_fresh (df : DataFrame) (col : string) (v : scalar) :
  ~ In col (columns df) ->
  setitem df col v
  = {| columns := (columns df ++ [col])%list;
       rows := map (fun r => (r ++ [v])%list) (rows df) |}.
Proof. intro H. unfold setitem. now rewrite (proj2 (str_in_not_In _ _) H). Qed.

End MetaColsFacts.

(** C4: on the path [/data/hostA/snap-42/proc_2023-01-02.json], split at
    [/], [load_meta_cols] derives the source [hostA] (third segment from the
    end), the snapshot id 42 (the integer after the [-] of the second segment
    from the end) and the timestamp [2023-01-02] (the group of the pattern
    matched against the last segment), and sets them and the plugin name as
    four columns: every row of the result has these four values, the number
    of rows is unchanged, and when the frame had none of the four labels
    they are appended, in this order, to every row as it was.  The plugin
    name that [files_to_dfs] reads off this path is [proc]. *)
Theorem load_meta_cols_example :
  forall (plugin : string) (plugin_df : AppShield.DataFrame),
    AppShield.well_formed plugin_df ->
    let filepath_split :=
      AppShield.split "/"%char "/data/hostA/snap-42/proc_2023-01-02.json" in
    exists df,
      AppShield.load_meta_cols filepath_split plugin plugin_df = Ok df /\
      df = AppShield.setitem
             (AppShield.setitem
                (AppShield.setitem
                   (AppShield.setitem plugin_df "snapshot_id" (SInt 42))
                   "timestamp" (SStr "2023-01-02"))
                "source" (SStr "hostA"))
             "plugin" (SStr plugin) /\
      List.length (AppShield.rows df) = List.length (AppShield.rows plugin_df) /\
      Forall (fun r =>
                AppShield.cell (AppShield.columns df) r "snapshot_id" = SInt 42 /\
                AppShield.cell (AppShield.columns df) r "timestamp" = SStr "2023-01-02" /\
                AppShield.cell (AppShield.columns df) r "source" = SStr "hostA" /\
                AppShield.cell (AppShield.columns df) r "plugin" = SStr plugin)
             (AppShield.rows df) /\
      ((forall c, In c ["snapshot_id"; "timestamp"; "source"; "plugin"] ->
                  ~ In c (AppShield.columns plugin_df)) ->
       AppShield.columns df
       = (AppShield.columns plugin_df
            ++ ["snapshot_id"; "timestamp"; "source"; "plugin"])%list /\
       AppShield.rows df
       = map (fun r => (r ++ [SInt 42; SStr "2023-01-02"; SStr "hostA"; SStr plugin])%list)
             (AppShield.rows plugin_df)) /\
      AppShield.plugin_of "/data/hostA/snap-42/proc_2023-01-02.json" = "proc".
Proof.
  intros plugin plugin_df Hwf filepath_split.
  set (d1 := AppShield.setitem plugin_df "snapshot_id" (SInt 42)).
  set (d2 := AppShield.setitem d1 "timestamp" (SStr "2023-01-02")).
  set (d3 := AppShield.setitem d2 "source" (SStr "hostA")).
  set (d4 := AppShield.setitem d3 "plugin" (SStr plugin)).
  exists d4. split; [reflexivity |]. split; [reflexivity |].
  destruct (setitem_spec plugin_df "snapshot_id" (SInt 42) Hwf)
    as [Hwf1 [Hlen1 [Hid1 _]]]. fold d1 in Hwf1, Hlen1, Hid1.
  destruct (setitem_spec d1 "timestamp" (SStr "2023-01-02") Hwf1)
    as [Hwf2 [Hlen2 [Hts2 Hkeep2]]]. fold d2 in Hwf2, Hlen2, Hts2, Hkeep2.
  destruct (setitem_spec d2 "source" (SStr "hostA") Hwf2)
    as [Hwf3 [Hlen3 [Hsrc3 Hkeep3]]]. fold d3 in Hwf3, Hlen3, Hsrc3, Hkeep3.
  destruct (setitem_spec d3 "plugin" (SStr plugin) Hwf3)
    as [Hwf4 [Hlen4 [Hpl4 Hkeep4]]]. fold d4 in Hwf4, Hlen4, Hpl4, Hkeep4.
  split; [congruence |]. split; [| split; [| reflexivity]].
  - assert (Hid4 : Forall (fun r => AppShield.cell (AppShield.columns d4) r "snapshot_id"
                                    = SInt 42) (AppShield.rows d4)).
    { apply Hkeep4; [discriminate |]. apply Hkeep3; [discriminate |].
      apply Hkeep2; [discriminate |]. exact Hid1. }
    assert (Hts4 : Forall (fun r => AppShield.cell (AppShield.columns d4) r "timestamp"
                                    = SStr "2023-01-02") (AppShield.rows d4)).
    { apply Hkeep4; [discriminate |]. apply Hkeep3; [discriminate |]. exact Hts2. }
    assert (Hsrc4 : Forall (fun r => AppShield.cell (AppShield.columns d4) r "source"
                                     = SStr "hostA") (AppShield.rows d4)).
    { apply Hkeep4; [discriminate |]. exact Hsrc3. }
    rewrite Forall_forall in *. intros r Hr. auto.
  - intro Hfresh.
    assert (H1 : ~ In "snapshot_id" (AppShield.columns plugin_df))
      by (apply Hfresh; simpl; tauto).
    assert (H2 : ~ In "timestamp" (AppShield.columns plugin_df))
      by (apply Hfresh; simpl; tauto).
    assert (H3 : ~ In "source" (AppShield.columns plugin_df))
      by (apply Hfresh; simpl; tauto).
    assert (H4 : ~ In "plugin" (AppShield.columns plugin_df))
      by (apply Hfresh; simpl; tauto).
    assert (E1 : d1 = {| AppShield.columns := (AppShield.columns plugin_df ++ ["snapshot_id"])%list;
                         AppShield.rows := map (fun r => (r ++ [SInt 42])%list)
                                               (AppShield.rows plugin_df) |})
      by (apply setitem_fresh; exact H1).
    assert (E2 : d2 = {| AppShield.columns :=
                           (AppShield.columns plugin_df ++ ["snapshot_id"; "timestamp"])%list;
                         AppShield.rows := map (fun r => (r ++ [SInt 42; SStr "2023-01-02"])%list)
                                               (AppShield.rows plugin_df) |}).
    { unfold d2. rewrite setitem_fresh; rewrite E1; simpl.
      - rewrite <- app_assoc, map_map. simpl. f_equal.
        apply map_ext. intro r. now rewrite <- app_assoc.
      - rewrite in_app_iff. simpl. intros [H | [H | []]]; [tauto | discriminate]. }
    assert (E3 : d3 = {| AppShield.columns :=
                           (AppShield.columns plugin_df
                              ++ ["snapshot_id"; "timestamp"; "source"])%list;
                         AppShield.rows :=
                           map (fun r => (r ++ [SInt 42; SStr "2023-01-02"; SStr "hostA"])%list)
                               (AppShield.rows plugin_df) |}).
    { unfold d3. rewrite setitem_fresh; rewrite E2; simpl.
      - rewrite <- app_assoc, map_map. simpl. f_equal.
        apply map_ext. intro r. now rewrite <- app_assoc.
      - rewrite in_app_iff. simpl.
        intros [H | [H | [H | []]]]; [tauto | discriminate | discriminate]. }
    unfold d4. rewrite setitem_fresh; rewrite E3; simpl.
    + rewrite <- app_assoc, map_map. simpl. split; [reflexivity |].
      apply map_ext. intro r. now rewrite <- app_assoc.
    + rewrite in_app_iff. simpl.
      intros [H | [H | [H | [H | []]]]];
        [tauto | discriminate | discriminate | discriminate].
Qed.

(** The two rows of the process file receive the four values of the path. *)
Lemma load_meta_cols_example_witness :
  AppShield.well_formed
    {| AppShield.columns := ["PID"; "Process"];
       AppShield.rows := [ [SInt 4; SStr "System"]; [SInt 88; SStr "Registry"] ] |}
  /\
  exists df,
    AppShield.load_meta_cols
      (AppShield.split "/"%char "/data/hostA/snap-42/proc_2023-01-02.json") "proc"
      {| AppShield.columns := ["PID"; "Process"];
         AppShield.rows := [ [SInt 4; SStr "System"]; [SInt 88; SStr "Registry"] ] |}
    = Ok df /\ df = Examples.table_A.
Proof.
  assert (Hwf : AppShield.well_formed
    {| AppShield.columns := ["PID"; "Process"];
       AppShield.rows := [ [SInt 4; SStr "System"]; [SInt 88; SStr "Registry"] ] |}).
  { repeat constructor. }
  split; [exact Hwf |].
  destruct (load_meta_cols_example "proc" _ Hwf) as [df [Hload [Heq _]]].
  exists df. split; [exact Hload |]. rewrite Heq. reflexivity.
Defined.

Section FilesFacts.

Import AppShield.

Variable fs : filesystem.
Variables cols_include cols_exclude plugins_include : list string.
Variable encoding : string.

Lemma split_nonempty (sep : ascii) (s : string) : split sep s <> [].
Proof.
  destruct s as [| c s']; simpl; [discriminate |].
  destruct (Ascii.eqb c sep); [discriminate |].
  destruct (split sep s'); discriminate.
Qed.

Lemma nth_error_last {A} (l : list A) (d : A) :
  l <> [] -> nth_error l (List.length l - 1) = Some (last l d).
Proof.
  induction l as [| x l IH]; [congruence |]. intros _.
  destruct l as [| y l']; [reflexivity |].
  specialize (IH ltac:(discriminate)).
  replace (List.length (x :: y :: l') - 1)%nat
    with (S (List.length (y :: l') - 1)) by (simpl; lia).
  exact IH.
Qed.

Lemma py_index_last {A} (l : list A) (d : A) :
  l <> [] -> py_index l (-1) = Ok (last l d).
Proof.
  intro Hne. unfold py_index.
  assert (Hlen : (1 <= List.length l)%nat) by (destruct l; simpl; [congruence | lia]).
  replace (-1 <? 0)%Z with true by reflexivity.
  replace ((Z.of_nat (List.length l) + -1 <? 0)%Z) with false
    by (symmetry; apply Z.ltb_ge; lia).
  replace ((Z.of_nat (List.length l) <=? Z.of_nat (List.length l) + -1)%Z) with false
    by (symmetry; apply Z.leb_gt; lia).
  simpl orb. cbv iota.
  replace (Z.to_nat (Z.of_nat (List.length l) + -1)) with (List.length l - 1)%nat by lia.
  now rewrite (nth_error_last l d Hne).
Qed.

Lemma py_index_first {A} (l : list A) (d : A) :
  l <> [] -> py_index l 0 = Ok (hd d l).
Proof.
  destruct l as [| x l]; [congruence |]. intros _.
  unfold py_index. simpl Z.ltb.
  replace ((Z.of_nat (List.length (x :: l)) <=? 0)%Z) with false
    by (symmetry; apply Z.leb_gt; simpl List.length; lia).
  reflexivity.
Qed.

Lemma bind_lift_Ok {A B} (a : A) (f : A -> M B) : bind (lift (Ok a)) f = f a.
Proof. unfold bind, lift. now destruct (f a). Qed.

(** The [try] body, with the two indexings of the path done. *)
Lemma file_to_df_unfold (filepath : string) :
  file_to_df fs cols_include cols_exclude plugins_include encoding filepath
  = if str_in (plugin_of filepath) plugins_include then
      (plugin_df <- load_df fs filepath cols_exclude encoding ;;
       plugin_df <- lift (fill_interested_cols plugin_df cols_include) ;;
       plugin_df <- lift (load_meta_cols (split "/"%char filepath)
                                         (plugin_of filepath) plugin_df) ;;
       ret (Some plugin_df))
    else ret None.
Proof.
  unfold file_to_df, plugin_of.
  rewrite (py_index_last _ EmptyString (split_nonempty _ filepath)).
  rewrite bind_lift_Ok.
  rewrite (py_index_first _ EmptyString (split_nonempty _ _)).
  now rewrite bind_lift_Ok.
Qed.

(** A file of a plugin that is not asked for is passed over: it is not
    opened and nothing is logged. *)
Lemma file_to_df_unrecognized (filepath : string) :
  str_in (plugin_of filepath) plugins_include = false ->
  file_to_df fs cols_include cols_exclude plugins_include encoding filepath
  = (Ok None, []).
Proof. intro H. rewrite file_to_df_unfold, H. reflexivity. Qed.

(** An exception of [load_df] leaves the [try] body as it is. *)
Lemma file_to_df_load_raises (filepath : string) (e : exn) (l : list event) :
  str_in (plugin_of filepath) plugins_include = true ->
  load_df fs filepath cols_exclude encoding = (Raise e, l) ->
  file_to_df fs cols_include cols_exclude plugins_include encoding filepath
  = (Raise e, l).
Proof. intros H Hl. rewrite file_to_df_unfold, H, Hl. reflexivity. Qed.

(** One turn of the loop of [files_to_dfs], by the outcome of the body. *)
Lemma files_loop_append (filepath : string) rest plugin_dfs plugin_df l :
  file_to_df fs cols_include cols_exclude plugins_include encoding filepath
  = (Ok (Some plugin_df), l) ->
  files_loop fs cols_include cols_exclude plugins_include encoding
             (filepath :: rest) plugin_dfs
  = (fst (files_loop fs cols_include cols_exclude plugins_include encoding
                     rest (plugin_dfs ++ [plugin_df])%list),
     (l ++ snd (files_loop fs cols_include cols_exclude plugins_include encoding
                           rest (plugin_dfs ++ [plugin_df])%list))%list).
Proof.
  intro H. simpl. rewrite H. unfold bind.
  now destruct (files_loop _ _ _ _ _ rest _).
Qed.

Lemma files_loop_pass (filepath : string) rest plugin_dfs l :
  file_to_df fs cols_include cols_exclude plugins_include encoding filepath
  = (Ok None, l) ->
  files_loop fs cols_include cols_exclude plugins_include encoding
             (filepath :: rest) plugin_dfs
  = (fst (files_loop fs cols_include cols_exclude plugins_include encoding
                     rest plugin_dfs),
     (l ++ snd (files_loop fs cols_include cols_exclude plugins_include encoding
                           rest plugin_dfs))%list).
Proof.
  intro H. simpl. rewrite H. unfold bind.
  now destruct (files_loop _ _ _ _ _ rest _).
Qed.

Lemma files_loop_decode_error (filepath : string) rest plugin_dfs msg l :
  file_to_df fs cols_include cols_exclude plugins_include encoding filepath
  = (Raise (JSONDecodeError msg), l) ->
  files_loop fs cols_include cols_exclude plugins_include encoding
             (filepath :: rest) plugin_dfs
  = (fst (files_loop fs cols_include cols_exclude plugins_include encoding
                     rest plugin_dfs),
     (l ++ Log ERROR "Unable to decode json file %s: %s" [filepath; msg]
        :: snd (files_loop fs cols_include cols_exclude plugins_include encoding
                           rest plugin_dfs))%list).
Proof.
  intro H. simpl. rewrite H. unfold bind, tell.
  now destruct (files_loop _ _ _ _ _ rest _).
Qed.



End FilesFacts.


Section NormalizedFacts.

Import AppShield.

Lemma max_width_ge (data : list (list scalar)) (r : list scalar) :
  In r data -> (List.length r <= max_width data)%nat.
Proof.
  induction data as [| r0 data IH]; simpl; [tauto |].
  intros [H | H]; [subst; lia |]. specialize (IH H). lia.
Qed.

Lemma pd_DataFrame_well_formed (cols : list string) data (df : DataFrame) :
  pd_DataFrame cols data = Ok df -> well_formed df.
Proof.
  unfold pd_DataFrame, well_formed. destruct data as [| r0 data'].
  - intro H. injection H as <-. constructor.
  - remember (r0 :: data') as d eqn:Hd.
    destruct (List.length cols =? max_width d)%nat eqn:E; [| discriminate].
    apply Nat.eqb_eq in E. intro H. injection H as <-. cbn [columns rows].
    apply Forall_map, Forall_forall. intros r Hr.
    pose proof (max_width_ge _ _ Hr) as Hle.
    unfold pad. rewrite length_app, repeat_length. lia.
Qed.

Lemma mask_filter_length {A B} (mask : list bool) :
  forall (a : list A) (b : list B),
    List.length a = List.length b ->
    List.length (mask_filter mask a) = List.length (mask_filter mask b).
Proof.
  induction mask as [| m mask IH]; intros a b Hlen; [reflexivity |].
  destruct a, b; try discriminate; [reflexivity |].
  simpl in *. injection Hlen as Hlen.
  destruct m; simpl; auto.
Qed.

Lemma drop_well_formed (labels : list string) (df df' : DataFrame) :
  drop labels df = Ok df' ->
  well_formed df ->
  well_formed df' /\ (NoDup (columns df) -> NoDup (columns df')).
Proof.
  unfold drop. destruct (find _ labels); [discriminate |].
  intro H. injection H as <-. simpl. intro Hwf. split.
  - unfold well_formed in *. simpl. apply Forall_map.
    eapply Forall_impl; [| exact Hwf].
    intros r Hr. simpl. now apply mask_filter_length.
  - intro Hnd. rewrite mask_filter_map. now apply NoDup_filter.
Qed.

(** The table read from a file with distinct titles has one cell per label
    in every row, and distinct labels. *)
Lemma read_file_to_df_well_formed (records : RawRecordSet) cols_exclude df l :
  NoDup (titles records) ->
  read_file_to_df (Ok records) cols_exclude = (Ok df, l) ->
  well_formed df /\ NoDup (columns df).
Proof.
  intros Hnd. unfold read_file_to_df. simpl.
  destruct (pd_DataFrame (filter _ (titles records)) (data records))
    as [df0 | e] eqn:E0.
  - intro H. injection H as <- <-. split.
    + eapply pd_DataFrame_well_formed; eauto.
    + rewrite (pd_DataFrame_columns _ _ _ E0). now apply NoDup_filter.
  - destruct (is_ValueError e); [| discriminate]. simpl.
    destruct (pd_DataFrame (titles records) (data records)) as [df1 |] eqn:E1;
      simpl; [| discriminate].
    match goal with
    | |- context [drop ?labels df1] => destruct (drop labels df1) as [df2 |] eqn:E2
    end; simpl; [| discriminate].
    intro H. injection H as <- <-.
    destruct (drop_well_formed _ _ _ E2 (pd_DataFrame_well_formed _ _ _ E1))
      as [Hwf Hno].
    split; [exact Hwf |]. apply Hno.
    now rewrite (pd_DataFrame_columns _ _ _ E1).
Qed.

Lemma open_and_read_Ok (fs : filesystem) filepath cols_exclude encoding df l :
  open_and_read fs filepath cols_exclude encoding = (Ok df, l) ->
  exists records l',
    fs filepath encoding = Ok (Ok records) /\
    read_file_to_df (Ok records) cols_exclude = (Ok df, l').
Proof.
  unfold open_and_read. simpl.
  destruct (fs filepath encoding) as [[records | e] | e]; simpl;
    try discriminate.
  destruct (read_file_to_df (Ok records) cols_exclude) as [r l'] eqn:E.
  simpl. intro H. injection H as -> _. now exists records, l'.
Qed.

Lemma load_df_Ok (fs : filesystem) filepath cols_exclude encoding df l :
  load_df fs filepath cols_exclude encoding = (Ok df, l) ->
  exists encoding' l',
    open_and_read fs filepath cols_exclude encoding' = (Ok df, l').
Proof.
  unfold load_df.
  destruct (open_and_read fs filepath cols_exclude encoding) as [[df0 | e] l0] eqn:E.
  - intro H. injection H as <- <-. now exists encoding, l0.
  - destruct e; try discriminate. simpl.
    destruct (startswith (lower encoding) "utf"); simpl; [discriminate |].
    destruct (open_and_read fs filepath cols_exclude "utf-8") as [r l2] eqn:E2.
    simpl. intro H. injection H as -> _. now exists "utf-8", l2.
Qed.

Lemma with_label_In (cols : list string) (col x : string) :
  In x (with_label cols col) <-> In x cols \/ x = col.
Proof.
  unfold with_label. destruct (str_in col cols) eqn:E.
  - apply str_in_In in E. split; [tauto |]. intros [H | H]; [assumption | now subst].
  - rewrite in_app_iff. simpl. split; intros [H | H]; auto.
    + destruct H as [H | []]; auto.
Qed.

Lemma with_label_NoDup (cols : list string) (col : string) :
  NoDup cols -> NoDup (with_label cols col).
Proof.
  intro Hnd. unfold with_label. destruct (str_in col cols) eqn:E; [assumption |].
  apply str_in_not_In in E. apply NoDup_app; [assumption | | ].
  - constructor; [tauto | constructor].
  - intros x Hx [H | []]. subst. tauto.
Qed.

Lemma setitem_columns (df : DataFrame) (col : string) (v : scalar) :
  columns (setitem df col v) = with_label (columns df) col.
Proof. unfold setitem, with_label. now destruct (str_in col (columns df)). Qed.

(** The loop of [fill_interested_cols]: the frame keeps its shape and its
    distinct labels, keeps the labels it had, and gains every label of the
    list that was not in [cols_exists]. *)
Lemma fill_loop_spec (cols_exists cols_include : list string) :
  forall df : DataFrame,
    well_formed df -> NoDup (columns df) ->
    let df' :=
      fold_left (fun df col =>
                   if negb (str_in col cols_exists) then setitem df col SNone else df)
                cols_include df in
    well_formed df' /\ NoDup (columns df') /\
    (forall c, In c (columns df) -> In c (columns df')) /\
    (forall c, In c cols_include -> ~ In c cols_exists -> In c (columns df')).
Proof.
  induction cols_include as [| col rest IH]; intros df Hwf Hnd; simpl.
  - repeat split; auto. intros c [].
  - destruct (str_in col cols_exists) eqn:E; simpl.
    + destruct (IH df Hwf Hnd) as [Hwf' [Hnd' [Hkeep Hnew]]].
      repeat split; auto.
      intros c [H | H] Hnot; [| now apply Hnew].
      subst. apply str_in_In in E. tauto.
    + destruct (setitem_spec df col SNone Hwf) as [Hwf1 _].
      assert (Hnd1 : NoDup (columns (setitem df col SNone)))
        by (rewrite setitem_columns; now apply with_label_NoDup).
      destruct (IH _ Hwf1 Hnd1) as [Hwf' [Hnd' [Hkeep Hnew]]].
      repeat split; auto.
      * intros c Hc. apply Hkeep. rewrite setitem_columns, with_label_In. now left.
      * intros c [H | H] Hnot; [| now apply Hnew].
        subst. apply Hkeep. rewrite setitem_columns, with_label_In. now right.
Qed.

Lemma select_labels_NoDup (cols labels : list string) :
  NoDup cols ->
  (forall l, In l labels -> In l cols) ->
  flat_map (fun l => filter (String.eqb l) cols) labels = labels.
Proof.
  intros Hnd. induction labels as [| l rest IH]; intro Hall; [reflexivity |].
  simpl. rewrite filter_eqb_NoDup; [| assumption | apply Hall; now left].
  simpl. f_equal. apply IH. intros; apply Hall; now right.
Qed.

Lemma cells_of_length (l : string) (cols : list string) :
  forall r,
    List.length r = List.length cols ->
    List.length (cells_of l cols r) = List.length (filter (String.eqb l) cols).
Proof.
  induction cols as [| c cs IH]; intros r Hlen.
  - destruct r; [reflexivity | discriminate].
  - destruct r as [| x xs]; [discriminate |]. simpl in *.
    injection Hlen as Hlen. rewrite (String.eqb_sym l c).
    destruct (String.eqb c l); simpl; now rewrite IH.
Qed.

Lemma flat_map_singletons {A} (f : string -> list A) (labels : list string) :
  (forall l, In l labels -> List.length (f l) = 1%nat) ->
  List.length (flat_map f labels) = List.length labels.
Proof.
  induction labels as [| l labels IH]; intro H; [reflexivity |].
  simpl. rewrite length_app, (H l) by now left.
  rewrite IH; [reflexivity |]. intros; apply H; now right.
Qed.

(** [fill_interested_cols] on a well-formed frame with distinct labels: the
    result has the included columns as labels, in their order. *)
Lemma fill_interested_cols_spec (plugin_df df' : DataFrame) cols_include :
  well_formed plugin_df -> NoDup (columns plugin_df) ->
  fill_interested_cols plugin_df cols_include = Ok df' ->
  columns df' = cols_include /\ well_formed df'.
Proof.
  intros Hwf Hnd. unfold fill_interested_cols.
  destruct (fill_loop_spec (columns plugin_df) cols_include plugin_df Hwf Hnd)
    as [Hwf1 [Hnd1 [Hkeep Hnew]]].
  set (df1 := fold_left _ cols_include plugin_df) in *.
  assert (Hall : forall c, In c cols_include -> In c (columns df1)).
  { intros c Hc. destruct (in_dec string_dec c (columns plugin_df)); auto. }
  unfold getitem_list. rewrite find_none_iff;
    [| intros c Hc; apply negb_false_iff, str_in_In; auto].
  intro H. injection H as <-. simpl. split.
  - now apply select_labels_NoDup.
  - unfold well_formed in *. simpl. apply Forall_map.
    eapply Forall_impl; [| exact Hwf1]. intros r Hr. simpl.
    rewrite !flat_map_singletons; [reflexivity | |].
    + intros l Hl. rewrite filter_eqb_NoDup; auto.
    + intros l Hl. rewrite cells_of_length by assumption.
      rewrite filter_eqb_NoDup; auto.
Qed.

Lemma load_meta_cols_Ok (filepath_split : list string) plugin plugin_df df :
  load_meta_cols filepath_split plugin plugin_df = Ok df ->
  exists snapshot_id timestamp source,
    df = setitem
           (setitem
              (setitem (setitem plugin_df "snapshot_id" (SInt snapshot_id))
                       "timestamp" timestamp)
              "source" (SStr source))
           "plugin" (SStr plugin).
Proof.
  unfold load_meta_cols.
  destruct (List.length filepath_split <? 3)%nat; [discriminate |].
  destruct (py_index filepath_split (-3)) as [source |]; [| discriminate].
  destruct (py_index filepath_split (-2)) as [snap |]; [| discriminate].
  simpl result_bind.
  destruct (py_index (split "-"%char snap) 1) as [snap_id |]; [| discriminate].
  simpl result_bind.
  destruct (py_int snap_id) as [snapshot_id |]; [| discriminate].
  simpl result_bind.
  destruct (py_index filepath_split (-1)) as [last |]; [| discriminate].
  simpl result_bind.
  destruct (re_search ts_pattern last) as [group1 |]; [| discriminate].
  intro H. injection H as <-. eauto.
Qed.

(** The table that [load_meta_cols] returns for a frame with distinct
    labels is normalized. *)
Lemma load_meta_cols_normalized (filepath_split : list string) plugin plugin_df df :
  well_formed plugin_df ->
  NoDup (columns plugin_df) ->
  load_meta_cols filepath_split plugin plugin_df = Ok df ->
  normalized (table_labels (columns plugin_df)) df.
Proof.
  intros Hwf Hnd Hload.
  destruct (load_meta_cols_Ok _ _ _ _ Hload) as [id [ts [src ->]]].
  destruct (setitem_spec plugin_df "snapshot_id" (SInt id) Hwf) as [Hwf1 _].
  destruct (setitem_spec _ "timestamp" ts Hwf1) as [Hwf2 _].
  destruct (setitem_spec _ "source" (SStr src) Hwf2) as [Hwf3 [_ [Hsrc _]]].
  destruct (setitem_spec _ "plugin" (SStr plugin) Hwf3) as [_ [_ [_ Hkeep]]].
  assert (Hcols : forall d a b c e,
            columns (setitem (setitem (setitem (setitem d "snapshot_id" a)
                                                "timestamp" b) "source" c) "plugin" e)
            = table_labels (columns d))
    by (intros; now rewrite !setitem_columns).
  unfold normalized. split; [apply Hcols |]. split; [| split].
  - unfold table_labels. now repeat apply with_label_NoDup.
  - unfold table_labels. rewrite with_label_In. left.
    rewrite with_label_In. now right.
  - specialize (Hkeep "source" (SStr src)).
    rewrite Hcols in Hkeep.
    eapply Forall_impl; [| apply Hkeep; [discriminate | exact Hsrc]].
    intros r Hr. now exists src.
Qed.

Variable fs : filesystem.
Variables cols_include cols_exclude plugins_include : list string.
Variable encoding : string.

(** On files whose titles are distinct, and for included columns that are
    distinct, every table that the [try] body of [files_to_dfs] produces is
    normalized, with the same labels for every file: the included columns
    and the four metadata columns. *)
Lemma file_to_df_normalized (filepath : string) (t : DataFrame) (l : list event) :
  (forall p e records, fs p e = Ok (Ok records) -> NoDup (titles records)) ->
  NoDup cols_include ->
  file_to_df fs cols_include cols_exclude plugins_include encoding filepath
  = (Ok (Some t), l) ->
  normalized (table_labels cols_include) t.
Proof.
  intros Hfs Hinc. rewrite file_to_df_unfold.
  destruct (str_in (plugin_of filepath) plugins_include); [| discriminate].
  destruct (load_df fs filepath cols_exclude encoding) as [[df0 | e] l0] eqn:El;
    [| discriminate].
  destruct (load_df_Ok _ _ _ _ _ _ El) as [enc' [l' Hopen]].
  destruct (open_and_read_Ok _ _ _ _ _ _ Hopen) as [records [l'' [Hfile Hread]]].
  destruct (read_file_to_df_well_formed _ _ _ _ (Hfs _ _ _ Hfile) Hread)
    as [Hwf0 Hnd0].
  unfold bind at 1.
  destruct (fill_interested_cols df0 cols_include) as [df1 | e] eqn:Ef;
    [| discriminate].
  destruct (fill_interested_cols_spec _ _ _ Hwf0 Hnd0 Ef) as [Hcols Hwf1].
  rewrite bind_lift_Ok.
  destruct (load_meta_cols (split "/"%char filepath) (plugin_of filepath) df1)
    as [df2 | e] eqn:Em; [| discriminate].
  rewrite bind_lift_Ok. unfold ret.
  intro H. injection H as <- _.
  rewrite <- Hcols. eapply load_meta_cols_normalized; eauto.
  now rewrite Hcols.
Qed.

End NormalizedFacts.

(** C6 (as amended): in a batch of three paths over files with distinct
    titles, for included columns that are distinct, where the first and the
    third path give a table and these two tables hold at least one row, and
    where the second path, of a plugin that is asked for, makes [load_df]
    end in a JSON decode error (on the retry with utf-8 too, when there is
    one), [files_to_dfs] does not raise:
    it returns the partition of the two tables, which holds exactly their
    rows, and the events of the call hold, between those of the first and of
    the third file, those of the second file followed by the error logged
    for it. *)
Theorem files_to_dfs_isolates_corrupt_file :
  forall (fs : AppShield.filesystem)
         (cols_include cols_exclude plugins_include : list string)
         (encoding p1 p2 p3 msg : string)
         (t1 t3 : AppShield.DataFrame) (l1 l2 l3 : list AppShield.event),
    (forall p e records,
       fs p e = Ok (Ok records) -> NoDup (AppShield.titles records)) ->
    NoDup cols_include ->
    AppShield.file_to_df fs cols_include cols_exclude plugins_include encoding p1
    = (Ok (Some t1), l1) ->
    AppShield.file_to_df fs cols_include cols_exclude plugins_include encoding p3
    = (Ok (Some t3), l3) ->
    str_in (AppShield.plugin_of p2) plugins_include = true ->
    AppShield.load_df fs p2 cols_exclude encoding
    = (Raise (JSONDecodeError msg), l2) ->
    (AppShield.rows t1 ++ AppShield.rows t3)%list <> [] ->
    exists m,
      AppShield.files_to_dfs fs cols_include cols_exclude plugins_include encoding
                             [p1; p2; p3]
      = (Ok m,
         (l1 ++ l2
             ++ [AppShield.Log AppShield.ERROR "Unable to decode json file %s: %s"
                               [p2; msg]]
             ++ l3)%list) /\
      AppShield.batch_source_split [t1; t3] "source" = Ok m /\
      m <> [] /\
      Permutation (flat_map (fun kv => AppShield.rows (snd kv)) m)
                  (AppShield.rows t1 ++ AppShield.rows t3).
Proof.
  intros fs cols_include cols_exclude plugins_include encoding p1 p2 p3 msg
         t1 t3 l1 l2 l3 Hfs Hinc H1 H3 Hplugin H2 Hrows.
  set (cols := AppShield.table_labels cols_include).
  assert (Hn : Forall (AppShield.normalized cols) [t1; t3]).
  { constructor; [| constructor; [| constructor]];
      eapply file_to_df_normalized; eauto. }
  assert (Hrows' : flat_map AppShield.rows [t1; t3] <> [])
    by (simpl; now rewrite app_nil_r).
  pose proof (batch_source_split_spec cols [t1; t3] Hn Hrows') as Hm.
  pose proof (source_tables_perm cols (flat_map AppShield.rows [t1; t3])) as Hperm.
  eexists. split; [| split; [exact Hm | split]].
  - unfold AppShield.files_to_dfs.
    rewrite (files_loop_append _ _ _ _ _ _ _ _ _ _ H1).
    rewrite (files_loop_decode_error _ _ _ _ _ _ _ _ _ _
               (file_to_df_load_raises _ _ _ _ _ _ _ _ Hplugin H2)).
    rewrite (files_loop_append _ _ _ _ _ _ _ _ _ _ H3).
    simpl fst. simpl snd. unfold AppShield.bind, AppShield.ret, AppShield.lift.
    simpl app at 2. rewrite Hm. rewrite !app_nil_r. reflexivity.
  - intro Hnil. apply map_eq_nil in Hnil.
    apply (unique_nonempty _) in Hnil; [exact Hnil |].
    intro Hmap. apply map_eq_nil in Hmap. now apply Hrows'.
  - replace (AppShield.rows t1 ++ AppShield.rows t3)%list
      with (flat_map AppShield.rows [t1; t3])
      by (simpl; now rewrite app_nil_r).
    exact Hperm.
Qed.

(** C6 (as stated) fails: a corrupt file can abort the batch.  The first
    and the third file are valid files of the plugin asked for; the second
    is not JSON when read as latin1, the configured encoding, and holds
    bytes that are not UTF-8.  [load_df] retries with utf-8, the retry
    raises [UnicodeDecodeError], which [files_to_dfs] does not catch. *)
Lemma files_to_dfs_undecodable_retry_aborts :
  ~ (fst (AppShield.file_to_df Examples.binary_fs ["PID"; "Process"] ["SHA256"]
            ["proc"] "latin1" Examples.proc_path) = Ok (Some Examples.table_A) ->
     fst (AppShield.file_to_df Examples.binary_fs ["PID"; "Process"] ["SHA256"]
            ["proc"] "latin1" Examples.proc_path_B) = Ok (Some Examples.table_B) ->
     Examples.binary_fs Examples.corrupt_path "latin1" = Ok (Raise Examples.json_error) ->
     exists m,
       fst (AppShield.files_to_dfs Examples.binary_fs ["PID"; "Process"] ["SHA256"]
              ["proc"] "latin1"
              [Examples.proc_path; Examples.corrupt_path; Examples.proc_path_B])
       = Ok m).
Proof.
  intro H. destruct (H eq_refl eq_refl eq_refl) as [m Hm].
  vm_compute in Hm. discriminate.
Qed.

(** Two process files around a file that is not JSON: the rows of the result
    are those of the two tables. *)
Lemma files_to_dfs_isolates_corrupt_file_witness :
  (forall p e records,
     Examples.demo_fs p e = Ok (Ok records) -> NoDup (AppShield.titles records))
  /\
  NoDup ["PID"; "Process"]
  /\
  exists m,
    fst (AppShield.files_to_dfs Examples.demo_fs ["PID"; "Process"] ["SHA256"]
           ["proc"] "latin1"
           [Examples.proc_path; Examples.corrupt_path; Examples.proc_path_B])
    = Ok m /\
    Permutation (flat_map (fun kv => AppShield.rows (snd kv)) m)
                (AppShield.rows Examples.table_A ++ AppShield.rows Examples.table_B).
Proof.
  assert (Hfs : forall p e records,
            Examples.demo_fs p e = Ok (Ok records) ->
            NoDup (AppShield.titles records)).
  { intros p e records. unfold Examples.demo_fs.
    destruct (String.eqb p Examples.proc_path);
      [| destruct (String.eqb p Examples.proc_path_B);
         [| destruct (String.eqb p Examples.corrupt_path);
            [| destruct (String.eqb p Examples.other_path)]]];
      intro H; try discriminate; injection H as <-;
      repeat constructor; simpl; intuition discriminate. }
  assert (Hinc : NoDup ["PID"; "Process"])
    by (repeat constructor; simpl; intuition discriminate).
  assert (Hr : (AppShield.rows Examples.table_A ++ AppShield.rows Examples.table_B)%list
               <> []) by discriminate.
  split; [exact Hfs |]. split; [exact Hinc |].
  destruct (files_to_dfs_isolates_corrupt_file Examples.demo_fs
              ["PID"; "Process"] ["SHA256"] ["proc"] "latin1"
              Examples.proc_path Examples.corrupt_path Examples.proc_path_B
              _ _ _ _ _ _ Hfs Hinc eq_refl eq_refl eq_refl eq_refl Hr)
    as [m [Hm [_ [_ Hperm]]]].
  exists m. split; [now rewrite Hm | exact Hperm].
Defined.

(** When both valid files of such a batch hold no record, no source value
    is found and the [IndexError] of [batch_source_split] ends the call. *)
Remark files_to_dfs_no_records_raises :
  fst (AppShield.files_to_dfs Examples.empty_fs ["PID"; "Process"] ["SHA256"]
         ["proc"] "latin1"
         [Examples.proc_path; Examples.corrupt_path; Examples.proc_path_B])
  = Raise (IndexError "index 0 is out of bounds for axis 0 with size 0").
Proof. reflexivity. Qed.

(** * Further properties *)

(** ** Column preallocation: order and composition *)

Lemma NoDup_app_disjoint {A} (l1 l2 : list A) (a : A) :
  NoDup (l1 ++ l2) -> In a l1 -> In a l2 -> False.
Proof.
  induction l1 as [| x l1 IH]; simpl; intros Hnd H1 H2; [destruct H1 |].
  inversion Hnd as [| ? ? Hx Hnd']; subst.
  destruct H1 as [-> | H1]; [| now apply IH].
  apply Hx, in_or_app. now right.
Qed.

Section PreallocatorOrder.

Import Preallocator.

Variable typeid_to_numpy_str : TypeId -> string.

Lemma set_column_fresh (name : string) (s : Series) cols :
  ~ In name (map fst cols) -> set_column name s cols = (cols ++ [(name, s)])%list.
Proof.
  induction cols as [| [k v] rest IH]; simpl; intro H; [reflexivity |].
  destruct (String.eqb k name) eqn:E.
  - apply String.eqb_eq in E. tauto.
  - rewrite IH by tauto. reflexivity.
Qed.

Lemma getitem_NoDup (d : OrderedDict) (c : string) (t : TypeId) :
  NoDup (keys d) -> In (c, t) d -> getitem d c = Ok t.
Proof.
  induction d as [| [k t'] rest IH]; simpl; intros Hnd Hin; [destruct Hin |].
  inversion Hnd as [| ? ? Hk Hnd']; subst.
  destruct Hin as [Heq | Hin].
  - injection Heq as -> ->. now rewrite String.eqb_refl.
  - destruct (String.eqb k c) eqn:E; [| auto].
    apply String.eqb_eq in E. subst k. exfalso. apply Hk.
    apply in_map_iff. now exists (c, t).
Qed.

Lemma filter_keys (q : string -> bool) (d : OrderedDict) :
  map fst (filter (fun kt => q (fst kt)) d) = filter q (keys d).
Proof.
  induction d as [| [k t] rest IH]; simpl; [reflexivity |].
  destruct (q k); simpl; now rewrite IH.
Qed.

(** The loop over distinct new labels appends one filled column per label,
    in the order of the list. *)
Lemma preallocate_columns_append needed n (items : list (string * TypeId)) :
  forall df : DataFrame,
    len df = n ->
    NoDup (map fst items) ->
    (forall c t, In (c, t) items -> getitem needed c = Ok t) ->
    (forall c, In c (map fst items) -> ~ In c (columns df)) ->
    preallocate_columns typeid_to_numpy_str needed np_zeros n df (map fst items)
    = Ok {| is_cudf := is_cudf df;
            index_len := index_len df;
            data := (data df
                       ++ map (fun kt => (fst kt, fill_column typeid_to_numpy_str n (snd kt)))
                              items)%list |}.
Proof.
  induction items as [| [c t] rest IH]; intros df Hlen Hnd Hget Hfresh.
  - simpl. rewrite app_nil_r. now destruct df.
  - simpl map. simpl preallocate_columns.
    inversion Hnd as [| ? ? Hc Hnd']; subst.
    assert (Hstep : preallocate_column typeid_to_numpy_str needed np_zeros (len df) df c
                    = Ok (setitem df c (fill_column typeid_to_numpy_str (len df) t))).
    { unfold preallocate_column, fill_column.
      rewrite (Hget c t) by now left. simpl.
      now destruct (TypeId_eqb t STRING). }
    rewrite Hstep. simpl result_bind.
    rewrite IH; try assumption; try reflexivity.
    + simpl. unfold setitem. simpl.
      rewrite set_column_fresh by (apply Hfresh; now left).
      now rewrite <- app_assoc.
    + intros c' t' Hin. apply Hget. now right.
    + intros c' Hc'. unfold columns, setitem. simpl.
      rewrite set_column_fresh by (apply Hfresh; now left).
      rewrite map_app, in_app_iff. simpl.
      intros [H | [H | []]].
      * apply (Hfresh c'); [now right | exact H].
      * subst. tauto.
Qed.

(** The frame that [_preallocate_df] returns for a spec with distinct keys:
    the columns of the frame as they were, then one filled column for every
    item of the spec whose key the frame did not have, in the order of the
    spec. *)
Lemma preallocate_df_normal_form needed (F : DataFrame) :
  NoDup (keys needed) ->
  _preallocate_df typeid_to_numpy_str needed F
  = Ok {| is_cudf := is_cudf F;
          index_len := index_len F;
          data := (data F
                     ++ map (fun kt => (fst kt,
                                        fill_column typeid_to_numpy_str (len F) (snd kt)))
                            (filter (fun kt => negb (str_in (fst kt) (columns F)))
                                    needed))%list |}.
Proof.
  intro Hnd. unfold _preallocate_df.
  rewrite <- (filter_keys (fun c => negb (str_in c (columns F))) needed).
  set (items := filter (fun kt => negb (str_in (fst kt) (columns F))) needed).
  destruct (0 <? List.length (map fst items))%nat eqn:E.
  - rewrite alloc_func_zeros.
    apply preallocate_columns_append; [reflexivity | | |].
    + unfold items. rewrite (filter_keys (fun c => negb (str_in c (columns F)))).
      now apply NoDup_filter.
    + intros c t Hin. apply getitem_NoDup; [assumption |].
      unfold items in Hin. apply filter_In in Hin. tauto.
    + intros c Hc. unfold items in Hc.
      rewrite (filter_keys (fun c => negb (str_in c (columns F)))) in Hc.
      apply filter_In in Hc. destruct Hc as [_ Hc].
      now apply negb_true_iff, str_in_not_In in Hc.
  - destruct items; [| discriminate]. simpl. rewrite app_nil_r. now destruct F.
Qed.

(** X1: for a spec with distinct keys, [_preallocate_df] keeps the columns
    of the frame in their order and appends the missing columns of the spec
    after them, in the order of the spec. *)
Theorem preallocate_df_column_order :
  forall (S : OrderedDict) (F : DataFrame),
    NoDup (keys S) ->
    exists R,
      _preallocate_df typeid_to_numpy_str S F = Ok R /\
      columns R
      = (columns F ++ filter (fun c => negb (str_in c (columns F))) (keys S))%list /\
      firstn (List.length (data F)) (data R) = data F.
Proof.
  intros S F Hnd. rewrite (preallocate_df_normal_form S F Hnd).
  eexists. split; [reflexivity |]. split.
  - unfold columns. simpl. rewrite map_app, map_map. simpl.
    f_equal. apply (filter_keys (fun c => negb (str_in c (columns F)))).
  - simpl. rewrite firstn_app, Nat.sub_diag, firstn_all. simpl.
    apply app_nil_r.
Qed.

(** X2: completing a frame for a spec [S1] and then for a spec [S2] gives
    the frame that one call gives for the two specs put together, when no
    key is in both. *)
Theorem preallocate_df_compose :
  forall (S1 S2 : OrderedDict) (F : DataFrame),
    NoDup (keys (S1 ++ S2)%list) ->
    result_bind (_preallocate_df typeid_to_numpy_str S1 F)
                (_preallocate_df typeid_to_numpy_str S2)
    = _preallocate_df typeid_to_numpy_str (S1 ++ S2)%list F.
Proof.
  intros S1 S2 F Hnd.
  assert (Hk : keys (S1 ++ S2)%list = (keys S1 ++ keys S2)%list) by apply map_app.
  rewrite Hk in Hnd.
  pose proof (NoDup_app_remove_r _ _ Hnd) as Hnd1.
  pose proof (NoDup_app_remove_l _ _ Hnd) as Hnd2.
  rewrite (preallocate_df_normal_form S1 F Hnd1). simpl result_bind.
  rewrite (preallocate_df_normal_form S2 _ Hnd2).
  rewrite (preallocate_df_normal_form (S1 ++ S2)%list F) by now rewrite Hk.
  f_equal. simpl. f_equal.
  rewrite filter_app, map_app, <- app_assoc. f_equal. f_equal.
  unfold len. simpl. f_equal.
  apply filter_ext_in. intros [c t] Hin. simpl. f_equal.
  unfold columns. simpl. rewrite map_app, map_map. simpl.
  unfold str_in. rewrite existsb_app.
  fold (str_in c (map fst (data F))).
  replace (existsb (String.eqb c) _) with false; [now rewrite orb_false_r |].
  symmetry. apply str_in_not_In. intro Hc.
  apply in_map_iff in Hc. destruct Hc as [[c' t'] [Heq Hc]]. simpl in Heq. subst c'.
  apply filter_In in Hc. destruct Hc as [Hc _].
  apply (NoDup_app_disjoint _ _ c Hnd).
  - apply in_map_iff. now exists (c, t').
  - apply in_map_iff. now exists (c, t).
Qed.

(** X5: [_preallocate_multi] never raises; the message it returns has the
    offset and the count of the message it was given, and the frame behind
    it is the frame that [_preallocate_df] returns, with every column of the
    spec. *)
Theorem preallocate_multi_keeps_window :
  forall (S : OrderedDict) (msg : MultiMessage),
  exists R,
    _preallocate_df typeid_to_numpy_str S (meta_df (meta msg)) = Ok R /\
    _preallocate_multi typeid_to_numpy_str S msg
    = Ok {| meta := {| meta_df := R |};
            mess_offset := mess_offset msg;
            mess_count := mess_count msg |} /\
    _preallocate_meta typeid_to_numpy_str S (meta msg) = Ok {| meta_df := R |} /\
    (forall c, In c (keys S) -> In c (columns R)).
Proof.
  intros S msg.
  destruct (preallocate_df_spec typeid_to_numpy_str S (meta_df (meta msg)))
    as [R [HR _]].
  exists R. split; [exact HR |].
  unfold _preallocate_multi, _preallocate_meta. rewrite HR. simpl.
  repeat split.
  exact (preallocate_df_has_keys typeid_to_numpy_str S (meta_df (meta msg)) R HR).
Qed.

End PreallocatorOrder.

(** ** Building the segment: dispatch *)

Section PostBuildDispatch.

Import Preallocator.

Variable pretty_print_type_name : py_type -> string.

Lemma issubclass_first (t : py_type) (base : string) (others : list string) :
  issubclass t [base] = Ok true -> issubclass t (base :: others) = Ok true.
Proof.
  destruct t as [cls | repr]; [| discriminate].
  unfold issubclass. simpl. rewrite orb_false_r. intro H. injection H as ->.
  reflexivity.
Qed.

(** X3: the C++ switch matters for message outputs only: for a stage whose
    output type derives neither from [MessageMeta] nor from [MultiMessage]
    (a dataframe, a type that is rejected, or a declared type that is not a
    class), [_post_build_single] does the same with the switch on and
    off. *)
Theorem post_build_single_cpp_only_for_messages :
  forall (cpp1 cpp2 : bool) (self : Stage) (builder : Builder)
         (out_node : SegmentObject),
    issubclass (output_type self) [cls_MessageMeta; cls_MultiMessage] <> Ok true ->
    _post_build_single pretty_print_type_name cpp1 self builder out_node
    = _post_build_single pretty_print_type_name cpp2 self builder out_node.
Proof.
  intros cpp1 cpp2 self builder out_node H.
  unfold _post_build_single.
  destruct (issubclass (output_type self) [cls_MessageMeta; cls_MultiMessage])
    as [[|] | e]; [now contradict H | reflexivity | reflexivity].
Qed.

(** X4: with a non-empty spec, an output type that derives from
    [MessageMeta] gets the node for [MessageMeta], whatever else it derives
    from: the C++ stage [PreallocateMessageMetaStage] when the switch is on,
    the mapped [_preallocate_meta] when it is off.  The builder gains this
    one node, named after the stage, and the edge from [out_node] to it. *)
Theorem post_build_single_message_meta_first :
  forall (should_use_cpp : bool) (self : Stage) (builder : Builder)
         (out_node : SegmentObject),
    _needed_columns self <> [] ->
    issubclass (output_type self) [cls_MessageMeta] = Ok true ->
    let node := unique_name self ++ "-preallocate" in
    _post_build_single pretty_print_type_name should_use_cpp self builder out_node
    = (Ok node,
       {| nodes := (nodes builder
                      ++ [(node,
                           if should_use_cpp
                           then PreallocateMessageMetaStage (_needed_columns self)
                           else MapPreallocateMeta (_needed_columns self))])%list;
          edges := (edges builder ++ [(out_node, node)])%list |}).
Proof.
  intros should_use_cpp self builder out_node Hne Hmeta node.
  apply length_pos_nonempty in Hne.
  unfold _post_build_single. rewrite Hne.
  rewrite (issubclass_first _ _ [cls_MultiMessage] Hmeta), Hmeta.
  now destruct should_use_cpp.
Qed.

(** X20: the source stage always makes its own node for the batches and
    feeds it from [out_node].  Without needed columns this node is its
    output; with needed columns, its output type deriving from
    [MessageMeta], the preallocation node comes after it and is fed by it,
    not by [out_node]. *)
Theorem source_post_build_single_chain :
  forall (should_use_cpp : bool) (self : Stage) (builder : Builder)
         (out_node : SegmentObject),
    let post := unique_name self ++ "-post" in
    let post_op := StageOp "map(files_to_dfs), map(_build_metadata), flatten" in
    (_needed_columns self = [] ->
     AppShield._post_build_single pretty_print_type_name should_use_cpp self
       builder out_node
     = (Ok post,
        {| nodes := (nodes builder ++ [(post, post_op)])%list;
           edges := (edges builder ++ [(out_node, post)])%list |}))
    /\
    (_needed_columns self <> [] ->
     issubclass (output_type self) [cls_MessageMeta] = Ok true ->
     let node := unique_name self ++ "-preallocate" in
     AppShield._post_build_single pretty_print_type_name should_use_cpp self
       builder out_node
     = (Ok node,
        {| nodes := (nodes builder
                       ++ [(post, post_op);
                           (node,
                            if should_use_cpp
                            then PreallocateMessageMetaStage (_needed_columns self)
                            else MapPreallocateMeta (_needed_columns self))])%list;
           edges := (edges builder ++ [(out_node, post); (post, node)])%list |})).
Proof.
  intros should_use_cpp self builder out_node post post_op. split.
  - intro Hempty. unfold AppShield._post_build_single, make_node.
    cbv beta iota zeta. unfold _post_build_single.
    rewrite Hempty. reflexivity.
  - intros Hne Hmeta node.
    apply length_pos_nonempty in Hne.
    unfold AppShield._post_build_single, make_node.
    cbv beta iota zeta. unfold _post_build_single. rewrite Hne.
    rewrite (issubclass_first _ _ [cls_MultiMessage] Hmeta), Hmeta.
    destruct should_use_cpp; unfold make_node, make_edge; simpl;
      now rewrite <- !app_assoc.
Qed.

End PostBuildDispatch.

(** ** Paths: splitting, indexing, numbers and the timestamp pattern *)

Section PathFacts.

Import AppShield.

Lemma str_app_assoc (a b c : string) : ((a ++ b) ++ c = a ++ (b ++ c))%string.
Proof. induction a as [| x a IH]; simpl; [reflexivity | now rewrite IH]. Qed.

Lemma str_app_nil_r (a : string) : (a ++ "")%string = a.
Proof. induction a as [| x a IH]; simpl; [reflexivity | now rewrite IH]. Qed.

Lemma all_chars_impl (p q : ascii -> bool) (s : string) :
  (forall c, p c = true -> q c = true) ->
  all_chars p s = true -> all_chars q s = true.
Proof.
  intro Hpq. induction s as [| c s IH]; simpl; [reflexivity |].
  intro H. apply andb_true_iff in H. destruct H as [Hc Hs].
  now rewrite (Hpq c Hc), IH.
Qed.

Lemma all_chars_app (p : ascii -> bool) (a b : string) :
  all_chars p (a ++ b) = all_chars p a && all_chars p b.
Proof.
  induction a as [| c a IH]; simpl; [reflexivity |].
  now rewrite IH, andb_assoc.
Qed.

(** A string without the separator is one segment. *)
Lemma split_no_sep (sep : ascii) (a : string) :
  all_chars (not_char sep) a = true -> split sep a = [a].
Proof.
  induction a as [| c a IH]; simpl; [reflexivity |].
  intro H. apply andb_true_iff in H. destruct H as [Hc Ha].
  unfold not_char in Hc. apply negb_true_iff in Hc. rewrite Hc.
  now rewrite (IH Ha).
Qed.

(** Splitting at a separator splits what is before it and what is after
    it. *)
Lemma split_app (sep : ascii) (a b : string) :
  split sep (a ++ String sep b) = (split sep a ++ split sep b)%list.
Proof.
  induction a as [| c a IH]; simpl.
  - now rewrite Ascii.eqb_refl.
  - destruct (Ascii.eqb c sep); [now rewrite IH |].
    rewrite IH. destruct (split sep a) as [| h t] eqn:E; [| reflexivity].
    now apply split_nonempty in E.
Qed.

Lemma last_app_nonempty {A} (l1 l2 : list A) (d : A) :
  l2 <> [] -> last (l1 ++ l2) d = last l2 d.
Proof.
  intro Hne. induction l1 as [| x l1 IH]; [reflexivity |].
  simpl app. destruct (l1 ++ l2)%list eqn:E; [| exact IH].
  apply app_eq_nil in E. tauto.
Qed.

(** The plugin name read off a path is what is before the first [_] of its
    base name. *)
Lemma plugin_of_path (dir name rest : string) :
  all_chars (not_char "/"%char) (name ++ String "_"%char rest) = true ->
  all_chars (not_char "_"%char) name = true ->
  plugin_of (dir ++ String "/"%char (name ++ String "_"%char rest)) = name.
Proof.
  intros Hbase Hname. unfold plugin_of.
  rewrite split_app, last_app_nonempty by apply split_nonempty.
  rewrite (split_no_sep _ _ Hbase). simpl last.
  rewrite split_app, (split_no_sep _ _ Hname). reflexivity.
Qed.

(** Indexing from the end of a list. *)
Lemma py_index_from_end {A} (l r : list A) (x : A) :
  py_index (l ++ x :: r) (- Z.of_nat (S (List.length r))) = Ok x.
Proof.
  unfold py_index. rewrite length_app. simpl List.length.
  replace (- Z.of_nat (S (List.length r)) <? 0)%Z with true
    by (symmetry; apply Z.ltb_lt; lia).
  replace (Z.of_nat (List.length l + S (List.length r))
           + - Z.of_nat (S (List.length r)))%Z
    with (Z.of_nat (List.length l)) by lia.
  replace (Z.of_nat (List.length l) <? 0)%Z with false
    by (symmetry; apply Z.ltb_ge; lia).
  replace (Z.of_nat (List.length l + S (List.length r)) <=? Z.of_nat (List.length l))%Z
    with false by (symmetry; apply Z.leb_gt; lia).
  simpl orb. cbv iota. rewrite Nat2Z.id.
  rewrite nth_error_app2 by lia. now rewrite Nat.sub_diag.
Qed.

Lemma py_index_last3 {A} (l : list A) (a b c : A) :
  py_index (l ++ [a; b; c]) (-3) = Ok a /\
  py_index (l ++ [a; b; c]) (-2) = Ok b /\
  py_index (l ++ [a; b; c]) (-1) = Ok c.
Proof.
  split; [| split].
  - exact (py_index_from_end l [b; c] a).
  - replace (l ++ [a; b; c])%list with ((l ++ [a]) ++ b :: [c])%list
      by now rewrite <- app_assoc.
    exact (py_index_from_end (l ++ [a]) [c] b).
  - replace (l ++ [a; b; c])%list with ((l ++ [a; b]) ++ c :: [])%list
      by now rewrite <- app_assoc.
    exact (py_index_from_end (l ++ [a; b]) [] c).
Qed.

Lemma rev_string_rev (s acc acc' : string) :
  rev_string (rev_string s acc) acc' = rev_string acc (s ++ acc').
Proof.
  revert acc. induction s as [| c s IH]; intro acc; simpl; [reflexivity |].
  now rewrite IH.
Qed.

Lemma all_chars_rev (p : ascii -> bool) (s acc : string) :
  all_chars p (rev_string s acc) = all_chars p s && all_chars p acc.
Proof.
  revert acc. induction s as [| c s IH]; intro acc; simpl; [reflexivity |].
  rewrite IH. simpl. rewrite !andb_assoc. f_equal. apply andb_comm.
Qed.

Lemma lstrip_no_space (s : string) :
  all_chars (fun c => negb (is_space c)) s = true -> lstrip s = s.
Proof.
  destruct s as [| c s]; simpl; [reflexivity |].
  intro H. apply andb_true_iff in H. destruct H as [Hc _].
  apply negb_true_iff in Hc. now rewrite Hc.
Qed.

(** [strip] leaves a string without white space as it is. *)
Lemma strip_no_space (s : string) :
  all_chars (fun c => negb (is_space c)) s = true -> strip s = s.
Proof.
  intro H. unfold strip. rewrite (lstrip_no_space s H).
  rewrite lstrip_no_space.
  - rewrite rev_string_rev. simpl. apply str_app_nil_r.
  - rewrite all_chars_rev, H. reflexivity.
Qed.

Lemma digit_not_space (c : ascii) : is_digit c = true -> negb (is_space c) = true.
Proof.
  unfold is_digit, is_space. intro H.
  apply andb_true_iff in H. destruct H as [H1 H2].
  apply Nat.leb_le in H1. apply Nat.leb_le in H2.
  apply negb_true_iff.
  replace (nat_of_ascii c <=? 13)%nat with false by (symmetry; apply Nat.leb_gt; lia).
  replace (nat_of_ascii c =? 32)%nat with false by (symmetry; apply Nat.eqb_neq; lia).
  replace (nat_of_ascii c =? 133)%nat with false by (symmetry; apply Nat.eqb_neq; lia).
  replace (nat_of_ascii c =? 160)%nat with false by (symmetry; apply Nat.eqb_neq; lia).
  now rewrite andb_false_r.
Qed.

Lemma uint_digits (u : Decimal.uint) :
  all_chars is_digit (NilEmpty.string_of_uint u) = true.
Proof. induction u; simpl; auto. Qed.

(** Reading the digits of a decimal numeral gives its value. *)
Lemma int_digits_uint (u : Decimal.uint) :
  forall (a : nat) (b : bool),
    (u = Decimal.Nil -> b = true) ->
    int_digits (NilEmpty.string_of_uint u) (Z.of_nat a) b
    = Some (Z.of_nat (Nat.of_uint_acc u a)).
Proof.
  induction u; intros a b Hb;
    try (simpl NilEmpty.string_of_uint; simpl Nat.of_uint_acc;
         rewrite Nat.tail_mul_spec;
         unfold int_digits; fold int_digits;
         match goal with
         | |- context [is_digit ?c] =>
             replace (is_digit c) with true by reflexivity
         end;
         cbv iota;
         match goal with
         | |- context [(nat_of_ascii ?c - 48)%nat] =>
             let d := eval vm_compute in (nat_of_ascii c - 48)%nat in
             change (nat_of_ascii c - 48)%nat with d
         end;
         match goal with
         | |- int_digits _ ?z true = Some (Z.of_nat (Nat.of_uint_acc _ ?k)) =>
             replace z with (Z.of_nat k) by lia
         end;
         apply IHu; reflexivity).
  simpl. now rewrite (Hb eq_refl).
Qed.

Lemma to_uint_nonnil (n : nat) : Nat.to_uint n <> Decimal.Nil.
Proof.
  intro H. pose proof (DecimalNat.Unsigned.of_to n) as Hn.
  rewrite H in Hn. simpl in Hn. subst n. discriminate.
Qed.

(** [int(str(n))] is [n]. *)
Lemma py_int_str (n : nat) : py_int (py_str_nat n) = Ok (Z.of_nat n).
Proof.
  unfold py_str_nat, py_int.
  pose proof (uint_digits (Nat.to_uint n)) as Hd.
  rewrite strip_no_space
    by (eapply all_chars_impl; [apply digit_not_space | exact Hd]).
  pose proof (int_digits_uint (Nat.to_uint n) 0 false) as Hv.
  change (Nat.of_uint_acc (Nat.to_uint n) 0) with (Nat.of_uint (Nat.to_uint n)) in Hv.
  rewrite (DecimalNat.Unsigned.of_to n) in Hv.
  specialize (Hv (fun H => False_ind _ (to_uint_nonnil n H))).
  simpl Z.of_nat in Hv at 1.
  destruct (NilEmpty.string_of_uint (Nat.to_uint n)) as [| c d] eqn:E.
  - simpl in Hv. discriminate.
  - simpl in Hd. apply andb_true_iff in Hd. destruct Hd as [Hc _].
    destruct c as [[] [] [] [] [] [] [] []]; try discriminate Hc;
      now rewrite Hv.
Qed.

Lemma str_digits_no_dash (n : nat) :
  all_chars (not_char "-"%char) (py_str_nat n) = true.
Proof.
  unfold py_str_nat. eapply all_chars_impl; [| apply uint_digits].
  intros c Hc. destruct c as [[] [] [] [] [] [] [] []]; try discriminate Hc;
    reflexivity.
Qed.

End PathFacts.

Section PatternFacts.

Import AppShield.

(** One step of a greedy [+]: take the character, try to take more, and
    only then go on with the rest of the pattern. *)
Lemma match_here_plus_cons (p : ascii -> bool) rest (c : ascii) (s : string) grp cap :
  match_here (RPlus p :: rest) (String c s) grp cap
  = if p c then
      match match_here (RPlus p :: rest) s (push c grp) cap with
      | Some r => Some r
      | None => match_here rest s (push c grp) cap
      end
    else None.
Proof. reflexivity. Qed.

Lemma match_here_plus_stops (p : ascii -> bool) rest (t : string) grp cap :
  stops p t -> match_here (RPlus p :: rest) t grp cap = None.
Proof.
  destruct t as [| c t]; [reflexivity |]. simpl. intro H. now rewrite H.
Qed.

Lemma push_app (c : ascii) (u : string) (grp : option string) :
  option_map (fun g => (g ++ u)%string) (push c grp)
  = option_map (fun g => (g ++ String c u)%string) grp.
Proof.
  destruct grp as [g |]; simpl; [| reflexivity].
  now rewrite str_app_assoc.
Qed.

(** A [+] over a run [u] of its class that ends where the class stops takes
    the whole run, when the rest of the pattern matches from there. *)
Lemma plus_takes_run (p : ascii -> bool) rest (u t : string) cap r :
  forall grp,
    u <> EmptyString ->
    all_chars p u = true ->
    stops p t ->
    match_here rest t (option_map (fun g => (g ++ u)%string) grp) cap = Some r ->
    match_here (RPlus p :: rest) (u ++ t) grp cap = Some r.
Proof.
  induction u as [| a u IH]; intros grp Hne Hall Hstop Hrest; [congruence |].
  simpl in Hall. apply andb_true_iff in Hall. destruct Hall as [Ha Hu].
  simpl append. rewrite match_here_plus_cons, Ha.
  destruct u as [| b u'].
  - simpl append. rewrite (match_here_plus_stops p rest t _ cap Hstop).
    unfold push. exact Hrest.
  - rewrite (IH (push a grp)); [reflexivity | discriminate | exact Hu | exact Hstop |].
    now rewrite push_app.
Qed.

(** A [+] gives back the last character of its run when the rest of the
    pattern does not match after the run and matches one character
    earlier. *)
Lemma plus_gives_back_one (p : ascii -> bool) rest (u t : string) (c : ascii) cap r :
  forall grp,
    u <> EmptyString ->
    all_chars p u = true ->
    p c = true ->
    stops p t ->
    match_here rest t
      (option_map (fun g => (g ++ (u ++ String c EmptyString))%string) grp) cap = None ->
    match_here rest (String c t) (option_map (fun g => (g ++ u)%string) grp) cap = Some r ->
    match_here (RPlus p :: rest) (u ++ String c t) grp cap = Some r.
Proof.
  induction u as [| a u IH]; intros grp Hne Hall Hc Hstop Hlong Hshort; [congruence |].
  simpl in Hall. apply andb_true_iff in Hall. destruct Hall as [Ha Hu].
  simpl append. rewrite match_here_plus_cons, Ha.
  destruct u as [| b u'].
  - simpl append. rewrite match_here_plus_cons, Hc.
    rewrite (match_here_plus_stops p rest t _ cap Hstop).
    simpl append in Hlong.
    replace (push c (push a grp))
      with (option_map (fun g => (g ++ String a (String c EmptyString))%string) grp)
      by (destruct grp; simpl; [now rewrite str_app_assoc | reflexivity]).
    rewrite Hlong. unfold push. exact Hshort.
  - rewrite (IH (push a grp)); [reflexivity | discriminate | exact Hu | exact Hc
                               | exact Hstop | | ].
    + now rewrite push_app.
    + now rewrite push_app.
Qed.

Lemma re_search_here (items : list re_item) (s : string) cap :
  match_here items s None None = Some cap -> re_search items s = Some cap.
Proof. intro H. destruct s; simpl; now rewrite H. Qed.

(** The timestamp pattern on a base name made of a plugin name in small
    letters, an underscore, a timestamp in the characters of the class and
    [.json]: the group is the timestamp. *)
Lemma re_search_timestamp (name ts : string) :
  name <> EmptyString -> all_chars plugin_char name = true ->
  ts <> EmptyString -> all_chars ts_char ts = true ->
  re_search ts_pattern (name ++ String "_"%char (ts ++ ".json"))
  = Some (Some ts).
Proof.
  intros Hn Hname Ht Hts. apply re_search_here.
  unfold ts_pattern.
  apply (plus_takes_run plugin_char); [exact Hn | exact Hname | reflexivity |].
  cbn [option_map].
  change (match_here (RPlus ts_char
                        :: [RGroupClose; re_dot; re_lit "j"%char; re_lit "s"%char;
                            re_lit "o"%char; re_lit "n"%char])
                     (ts ++ String "."%char "json") (Some EmptyString) None
          = Some (Some ts)).
  apply plus_gives_back_one;
    [exact Ht | exact Hts | reflexivity | reflexivity | reflexivity | reflexivity].
Qed.

End PatternFacts.

Section MetaColsPaths.

Import AppShield.

Lemma length_last3 {A} (l : list A) (a b c : A) :
  (List.length (l ++ [a; b; c]) <? 3)%nat = false.
Proof. apply Nat.ltb_ge. rewrite length_app. simpl. lia. Qed.

Lemma class_no_slash (name ts : string) :
  all_chars plugin_char name = true -> all_chars ts_char ts = true ->
  all_chars (not_char "/"%char) (name ++ String "_"%char (ts ++ ".json")) = true.
Proof.
  intros Hn Ht. rewrite all_chars_app. apply andb_true_iff. split.
  - eapply all_chars_impl; [| exact Hn].
    intros c Hc. destruct c as [[] [] [] [] [] [] [] []]; try discriminate Hc;
      reflexivity.
  - simpl. rewrite all_chars_app. apply andb_true_iff. split; [| reflexivity].
    eapply all_chars_impl; [| exact Ht].
    intros c Hc. destruct c as [[] [] [] [] [] [] [] []]; try discriminate Hc;
      reflexivity.
Qed.

Lemma str_digits_no_slash (n : nat) :
  all_chars (not_char "/"%char) (py_str_nat n) = true.
Proof.
  unfold py_str_nat. eapply all_chars_impl; [| apply uint_digits].
  intros c Hc. destruct c as [[] [] [] [] [] [] [] []]; try discriminate Hc;
    reflexivity.
Qed.

(** The segments of a path that ends in a source directory, a snapshot
    directory and a base name. *)
Lemma split_path (dir src snap base : string) :
  all_chars (not_char "/"%char) src = true ->
  all_chars (not_char "/"%char) snap = true ->
  all_chars (not_char "/"%char) base = true ->
  split "/"%char (dir ++ String "/"%char (src ++ String "/"%char
                                            (snap ++ String "/"%char base)))
  = (split "/"%char dir ++ [src; snap; base])%list.
Proof.
  intros Hs Hn Hb. rewrite !split_app.
  now rewrite (split_no_sep _ _ Hs), (split_no_sep _ _ Hn), (split_no_sep _ _ Hb).
Qed.

(** X7: for every path [<dir>/<source>/<prefix>-<n>/<name>_<ts>.json],
    where the source and the prefix have no [/], the prefix has no [-], the
    name is made of small letters and the timestamp of digits, [-], [_] and
    [.], [load_meta_cols] on the split path sets the snapshot id [n], the
    timestamp [ts], the source and the plugin name given to it. *)
Theorem load_meta_cols_derives_metadata :
  forall (dir src pre name ts plugin : string) (n : nat) (plugin_df : DataFrame),
    all_chars (not_char "/"%char) src = true ->
    all_chars (not_char "/"%char) pre = true ->
    all_chars (not_char "-"%char) pre = true ->
    name <> EmptyString -> all_chars plugin_char name = true ->
    ts <> EmptyString -> all_chars ts_char ts = true ->
    load_meta_cols
      (split "/"%char
         (dir ++ String "/"%char
            (src ++ String "/"%char
               ((pre ++ String "-"%char (py_str_nat n))
                  ++ String "/"%char (name ++ String "_"%char (ts ++ ".json"))))))
      plugin plugin_df
    = Ok (setitem
            (setitem
               (setitem (setitem plugin_df "snapshot_id" (SInt (Z.of_nat n)))
                        "timestamp" (SStr ts))
               "source" (SStr src))
            "plugin" (SStr plugin)).
Proof.
  intros dir src pre name ts plugin n plugin_df Hsrc Hpre Hdash Hn Hname Ht Hts.
  rewrite split_path;
    [| exact Hsrc
     | rewrite all_chars_app; simpl; now rewrite Hpre, str_digits_no_slash
     | now apply class_no_slash].
  unfold load_meta_cols. rewrite length_last3.
  destruct (py_index_last3 (split "/"%char dir) src
              (pre ++ String "-"%char (py_str_nat n))
              (name ++ String "_"%char (ts ++ ".json"))) as [H3 [H2 H1]].
  rewrite H3, H2, H1. simpl result_bind.
  rewrite split_app, (split_no_sep _ _ Hdash),
    (split_no_sep _ _ (str_digits_no_dash n)).
  replace (py_index ([pre] ++ [py_str_nat n]) 1) with (Ok (py_str_nat n))
    by reflexivity.
  simpl result_bind. rewrite py_int_str. simpl result_bind.
  now rewrite (re_search_timestamp name ts Hn Hname Ht Hts).
Qed.

Lemma match_here_one_cons (p : ascii -> bool) rest (c : ascii) (s : string) grp cap :
  match_here (ROne p :: rest) (String c s) grp cap
  = if p c then match_here rest s (push c grp) cap else None.
Proof. reflexivity. Qed.

Lemma match_here_needs_underscore (p : ascii -> bool) rest (s : string) :
  all_chars (not_char "_"%char) s = true ->
  forall grp cap,
    match_here (RPlus p :: re_lit "_"%char :: rest) s grp cap = None.
Proof.
  induction s as [| c s IH]; intros Hs grp cap; [reflexivity |].
  simpl in Hs. apply andb_true_iff in Hs. destruct Hs as [_ Hs].
  rewrite match_here_plus_cons. destruct (p c); [| reflexivity].
  rewrite (IH Hs). destruct s as [| c' s']; [reflexivity |].
  simpl in Hs. apply andb_true_iff in Hs. destruct Hs as [Hc' _].
  unfold not_char in Hc'. apply negb_true_iff in Hc'.
  unfold re_lit. rewrite match_here_one_cons.
  now rewrite Ascii.eqb_sym, Hc'.
Qed.

Lemma re_search_needs_underscore (s : string) :
  all_chars (not_char "_"%char) s = true -> re_search ts_pattern s = None.
Proof.
  induction s as [| c s IH]; intro Hs.
  - reflexivity.
  - unfold re_search; fold re_search. unfold ts_pattern at 1.
    rewrite (match_here_needs_underscore _ _ _ Hs).
    simpl in Hs. apply andb_true_iff in Hs. destruct Hs as [_ Hs]. now apply IH.
Qed.

Lemma plain_no_quote (s : string) :
  all_chars plain_char s = true -> has_char "'"%char s = false.
Proof.
  induction s as [| c s IH]; [reflexivity |].
  simpl. intro Hs. apply andb_true_iff in Hs. destruct Hs as [Hc Hs].
  rewrite (IH Hs), orb_false_r.
  unfold plain_char in Hc. apply andb_true_iff in Hc. destruct Hc as [Hc _].
  apply andb_true_iff in Hc. destruct Hc as [_ Hc].
  now apply negb_true_iff in Hc.
Qed.

Lemma repr_chars_plain (s : string) :
  all_chars plain_char s = true -> repr_chars "'"%char s = s.
Proof.
  induction s as [| c s IH]; [reflexivity |].
  simpl all_chars. intro Hs. apply andb_true_iff in Hs. destruct Hs as [Hc Hs].
  cbn [repr_chars]. rewrite (IH Hs).
  replace (repr_char "'"%char c) with (String c EmptyString); [reflexivity |].
  destruct c as [[] [] [] [] [] [] [] []]; try discriminate Hc; reflexivity.
Qed.

(** [repr] of a string of printable characters without single quote or
    backslash: the string between single quotes. *)
Lemma py_repr_plain (s : string) :
  all_chars plain_char s = true -> py_repr s = String "'"%char (s ++ "'").
Proof.
  intro Hs. unfold py_repr.
  rewrite (plain_no_quote s Hs). cbn [andb].
  now rewrite (repr_chars_plain s Hs).
Qed.

(** A segment with a single quote is written between double quotes. *)
Lemma load_meta_cols_message_quotes :
  load_meta_cols ["it's"; "proc_2023.json"] "proc" Examples.proc_table
  = Raise (ValueError
             ("Invalid filepath_split ["
                ++ String "034"%char
                     ("it's" ++ String "034"%char
                        ", 'proc_2023.json']. Length should be greater than 2"))).
Proof. reflexivity. Qed.

(** X8: what [load_meta_cols] refuses.  A split path of fewer than three
    segments raises a [ValueError] that quotes it.  With three segments or
    more, a second segment from the end without [-] raises [IndexError]
    (there is no second token), and, the snapshot segment being in order, a
    last segment without [_] raises the [ValueError] for the format. *)
Theorem load_meta_cols_rejects :
  forall (plugin : string) (plugin_df : DataFrame),
    (forall filepath_split : list string,
       (List.length filepath_split < 3)%nat ->
       load_meta_cols filepath_split plugin plugin_df
       = Raise (ValueError ("Invalid filepath_split " ++ py_repr_list filepath_split
                            ++ ". Length should be greater than 2")))
    /\
    (forall (dirs : list string) (src snap base : string),
       all_chars (not_char "-"%char) snap = true ->
       load_meta_cols (dirs ++ [src; snap; base]) plugin plugin_df
       = Raise (IndexError "list index out of range"))
    /\
    (forall (dirs : list string) (src pre base : string) (n : nat),
       all_chars (not_char "-"%char) pre = true ->
       all_chars (not_char "_"%char) base = true ->
       load_meta_cols (dirs ++ [src; pre ++ String "-"%char (py_str_nat n); base])
                      plugin plugin_df
       = Raise (ValueError
                  ("Invalid format for filepath_split "
                   ++ py_repr_list
                        (dirs ++ [src; pre ++ String "-"%char (py_str_nat n); base])))).
Proof.
  intros plugin plugin_df. split; [| split].
  - intros filepath_split Hlen. unfold load_meta_cols.
    now rewrite (proj2 (Nat.ltb_lt _ _) Hlen).
  - intros dirs src snap base Hdash. unfold load_meta_cols.
    rewrite length_last3.
    destruct (py_index_last3 dirs src snap base) as [H3 [H2 _]].
    rewrite H3, H2. simpl result_bind.
    now rewrite (split_no_sep _ _ Hdash).
  - intros dirs src pre base n Hdash Hbase. unfold load_meta_cols.
    rewrite length_last3.
    destruct (py_index_last3 dirs src (pre ++ String "-"%char (py_str_nat n)) base)
      as [H3 [H2 H1]].
    rewrite H3, H2, H1. simpl result_bind.
    rewrite split_app, (split_no_sep _ _ Hdash),
      (split_no_sep _ _ (str_digits_no_dash n)).
    replace (py_index ([pre] ++ [py_str_nat n]) 1) with (Ok (py_str_nat n))
      by reflexivity.
    simpl result_bind. rewrite py_int_str. simpl result_bind.
    now rewrite (re_search_needs_underscore base Hbase).
Qed.

(** X9: the pattern is not anchored and its dot is any character: a last
    segment [<name>_<ts>] followed by one character that is neither a
    newline nor a character of the timestamp class, then [json] and
    anything at all, is accepted, with the timestamp [ts]. *)
Theorem load_meta_cols_loose_suffix :
  forall (dirs : list string) (src pre name ts tail plugin : string) (x : ascii)
         (n : nat) (plugin_df : DataFrame),
    all_chars (not_char "-"%char) pre = true ->
    name <> EmptyString -> all_chars plugin_char name = true ->
    ts <> EmptyString -> all_chars ts_char ts = true ->
    ts_char x = false ->
    x <> "010"%char ->
    load_meta_cols
      (dirs ++ [src; pre ++ String "-"%char (py_str_nat n);
                name ++ String "_"%char (ts ++ String x ("json" ++ tail))])
      plugin plugin_df
    = Ok (setitem
            (setitem
               (setitem (setitem plugin_df "snapshot_id" (SInt (Z.of_nat n)))
                        "timestamp" (SStr ts))
               "source" (SStr src))
            "plugin" (SStr plugin)).
Proof.
  intros dirs src pre name ts tail plugin x n plugin_df
         Hdash Hn Hname Ht Hts Hx Hnl.
  assert (Hre : re_search ts_pattern
                  (name ++ String "_"%char (ts ++ String x ("json" ++ tail)))
                = Some (Some ts)).
  { apply re_search_here. unfold ts_pattern.
    apply (plus_takes_run plugin_char); [exact Hn | exact Hname | reflexivity |].
    cbn [option_map].
    change (match_here (RPlus ts_char
                          :: [RGroupClose; re_dot; re_lit "j"%char; re_lit "s"%char;
                              re_lit "o"%char; re_lit "n"%char])
                       (ts ++ String x ("json" ++ tail)) (Some EmptyString) None
            = Some (Some ts)).
    apply plus_takes_run; [exact Ht | exact Hts | exact Hx |].
    cbn [option_map].
    change (match_here (re_dot :: [re_lit "j"%char; re_lit "s"%char;
                                   re_lit "o"%char; re_lit "n"%char])
                       (String x ("json" ++ tail)) None (Some ("" ++ ts)%string)
            = Some (Some ts)).
    unfold re_dot. rewrite match_here_one_cons.
    replace (negb (Ascii.eqb x "010"%char)) with true
      by (symmetry; apply negb_true_iff, Ascii.eqb_neq; exact Hnl).
    reflexivity. }
  remember (name ++ String "_"%char (ts ++ String x ("json" ++ tail))) as base.
  unfold load_meta_cols. rewrite length_last3.
  destruct (py_index_last3 dirs src (pre ++ String "-"%char (py_str_nat n)) base)
    as [H3 [H2 H1]].
  rewrite H3, H2, H1. simpl result_bind.
  rewrite split_app, (split_no_sep _ _ Hdash),
    (split_no_sep _ _ (str_digits_no_dash n)).
  replace (py_index ([pre] ++ [py_str_nat n]) 1) with (Ok (py_str_nat n))
    by reflexivity.
  simpl result_bind. rewrite py_int_str. simpl result_bind.
  now rewrite Hre.
Qed.

End MetaColsPaths.

(** ** Filling and selecting the included columns *)

Section FillFacts.

Import AppShield.

(** [df[col] = v], row by row. *)
Lemma setitem_rows (df : DataFrame) (col : string) (v : scalar) :
  exists h,
    rows (setitem df col v) = map h (rows df) /\
    forall r,
      List.length r = List.length (columns df) ->
      List.length (h r) = List.length (columns (setitem df col v)) /\
      cell (columns (setitem df col v)) (h r) col = v /\
      forall c, c <> col ->
        cell (columns (setitem df col v)) (h r) c = cell (columns df) r c.
Proof.
  unfold setitem. destruct (str_in col (columns df)) eqn:E; simpl.
  - apply str_in_In in E.
    exists (set_cells col v (columns df)). split; [reflexivity |].
    intros r Hr. split; [now rewrite set_cells_length |].
    split; [now apply set_cells_same |].
    intros c Hc. unfold cell. now rewrite set_cells_other.
  - apply str_in_not_In in E.
    exists (fun r => (r ++ [v])%list). split; [reflexivity |].
    intros r Hr. split; [rewrite !length_app, Hr; reflexivity |].
    unfold cell. split.
    + rewrite cells_of_app by assumption.
      now rewrite (cells_of_not_In col _ E), String.eqb_refl.
    + intros c Hc. rewrite cells_of_app by assumption.
      replace (String.eqb col c) with false
        by (symmetry; apply String.eqb_neq; congruence).
      now rewrite app_nil_r.
Qed.

Lemma filled_from_refl (df0 : DataFrame) :
  NoDup (columns df0) -> filled_from df0 df0.
Proof.
  intro Hnd. split; [assumption |]. split; [auto |].
  exists (fun r => r). split; [now rewrite map_id |].
  intros r Hr. split; [exact Hr |]. split; [reflexivity |].
  intros c H1 H2. tauto.
Qed.

Lemma filled_from_step (df0 df : DataFrame) (col : string) :
  filled_from df0 df ->
  ~ In col (columns df0) ->
  filled_from df0 (setitem df col SNone).
Proof.
  intros [Hnd [Hsub [g [Hrows Hg]]]] Hcol.
  destruct (setitem_rows df col SNone) as [h [Hh Hrow]].
  split; [rewrite setitem_columns; now apply with_label_NoDup |].
  split; [intros c Hc; rewrite setitem_columns, with_label_In; auto |].
  exists (fun r => h (g r)). split; [now rewrite Hh, Hrows, map_map |].
  intros r Hr. destruct (Hg r Hr) as [Hlen [Hold Hnew]].
  destruct (Hrow (g r) Hlen) as [Hlen' [Hsame Hother]].
  split; [exact Hlen' |]. split.
  - intros c Hc. rewrite Hother by (intro; subst; tauto). now apply Hold.
  - intros c Hc Hnot. rewrite setitem_columns, with_label_In in Hc.
    destruct (string_dec c col) as [-> | Hne]; [exact Hsame |].
    rewrite Hother by assumption. apply Hnew; tauto.
Qed.

Lemma fill_loop_filled (df0 : DataFrame) (cols_include : list string) :
  NoDup (columns df0) ->
  let df1 :=
    fold_left (fun df col =>
                 if negb (str_in col (columns df0)) then setitem df col SNone else df)
              cols_include df0 in
  filled_from df0 df1 /\
  (forall c, In c cols_include -> In c (columns df1)).
Proof.
  intro Hnd.
  assert (Hgen : forall l df,
    filled_from df0 df ->
    let df1 := fold_left (fun df col =>
                 if negb (str_in col (columns df0)) then setitem df col SNone else df)
              l df in
    filled_from df0 df1 /\
    (forall c, In c (columns df) -> In c (columns df1)) /\
    (forall c, In c l -> In c (columns df1))).
  { induction l as [| col rest IH]; intros df Hf; simpl.
    - split; [exact Hf |]. split; [auto | intros c []].
    - destruct (str_in col (columns df0)) eqn:E; simpl.
      + destruct (IH df Hf) as [Hf1 [Hkeep Hall]].
        split; [exact Hf1 |]. split; [exact Hkeep |].
        intros c [<- | Hc]; [| now apply Hall].
        apply Hkeep. destruct Hf as [_ [Hsub _]]. apply Hsub.
        now apply str_in_In.
      + apply str_in_not_In in E.
        destruct (IH _ (filled_from_step df0 df col Hf E)) as [Hf1 [Hkeep Hall]].
        split; [exact Hf1 |]. split.
        * intros c Hc. apply Hkeep. rewrite setitem_columns, with_label_In. now left.
        * intros c [<- | Hc]; [| now apply Hall].
          apply Hkeep. rewrite setitem_columns, with_label_In. now right. }
  intro df1. destruct (Hgen cols_include df0 (filled_from_refl df0 Hnd))
    as [Hf [_ Hall]].
  split; assumption.
Qed.

Lemma cells_of_single (l : string) (cols : list string) (r : list scalar) :
  NoDup cols -> In l cols -> List.length r = List.length cols ->
  cells_of l cols r = [cell cols r l].
Proof.
  intros Hnd Hin Hlen.
  pose proof (cells_of_length l cols r Hlen) as H.
  rewrite (filter_eqb_NoDup l cols Hnd Hin) in H. unfold cell.
  destruct (cells_of l cols r) as [| x [| y t]]; try discriminate H.
  reflexivity.
Qed.

Lemma flat_map_single {A B} (f : A -> list B) (g : A -> B) (l : list A) :
  (forall x, In x l -> f x = [g x]) -> flat_map f l = map g l.
Proof.
  induction l as [| x l IH]; intro H; [reflexivity |].
  simpl. rewrite (H x) by now left. simpl. f_equal.
  apply IH. intros; apply H; now right.
Qed.

(** X10: on a frame whose rows have one cell per label and whose labels are
    distinct, [fill_interested_cols] does not raise; the result has exactly
    the included columns, in the order of the include list, and as many
    rows; under an included label a row keeps the cell it had when the frame
    had the column and holds [None] when it had not.  Columns that are not
    included are gone. *)
Theorem fill_interested_cols_selects :
  forall (plugin_df : DataFrame) (cols_include : list string),
    well_formed plugin_df ->
    NoDup (columns plugin_df) ->
    fill_interested_cols plugin_df cols_include
    = Ok {| columns := cols_include;
            rows := map (fun r =>
                           map (fun c => if str_in c (columns plugin_df)
                                         then cell (columns plugin_df) r c
                                         else SNone)
                               cols_include)
                        (rows plugin_df) |}.
Proof.
  intros plugin_df cols_include Hwf Hnd. unfold fill_interested_cols.
  destruct (fill_loop_filled plugin_df cols_include Hnd)
    as [[Hnd1 [Hsub [g [Hrows Hg]]]] Hall].
  set (df1 := fold_left _ cols_include plugin_df) in *.
  unfold getitem_list. rewrite find_none_iff;
    [| intros c Hc; apply negb_false_iff, str_in_In; auto].
  f_equal. f_equal.
  - now apply select_labels_NoDup.
  - rewrite Hrows, map_map. apply map_ext_in. intros r Hr.
    unfold well_formed in Hwf. rewrite Forall_forall in Hwf.
    destruct (Hg r (Hwf r Hr)) as [Hlen [Hold Hnew]].
    rewrite (flat_map_single _ (cell (columns df1) (g r)));
      [| intros l Hl; apply cells_of_single; auto].
    apply map_ext_in. intros c Hc.
    destruct (str_in c (columns plugin_df)) eqn:E.
    + apply Hold. now apply str_in_In.
    + apply Hnew; [auto | now apply str_in_not_In].
Qed.

End FillFacts.

(** ** Reading a file *)

Section ReadFacts.

Import AppShield.

Lemma pad_exact (k : nat) (r : list scalar) : List.length r = k -> pad k r = r.
Proof. intro H. unfold pad. rewrite H, Nat.sub_diag. apply app_nil_r. Qed.

Lemma max_width_exact (k : nat) (r0 : list scalar) (data : list (list scalar)) :
  Forall (fun r => List.length r = k) (r0 :: data) -> max_width (r0 :: data) = k.
Proof.
  revert r0. induction data as [| r1 data IH]; intros r0 H.
  - inversion H; subst. simpl. lia.
  - inversion H as [| ? ? H0 H']; subst. specialize (IH r1 H').
    change (max_width (r0 :: r1 :: data))
      with (Nat.max (List.length r0) (max_width (r1 :: data))).
    rewrite IH. inversion H'; subst. lia.
Qed.

Lemma pd_DataFrame_exact (cols : list string) (data : list (list scalar)) :
  Forall (fun r => List.length r = List.length cols) data ->
  pd_DataFrame cols data = Ok {| columns := cols; rows := data |}.
Proof.
  intro H. unfold pd_DataFrame. destruct data as [| r0 data']; [reflexivity |].
  rewrite (max_width_exact _ _ _ H), Nat.eqb_refl.
  f_equal. f_equal. rewrite <- (map_id (r0 :: data')) at 2.
  apply map_ext_in. intros r Hr. rewrite Forall_forall in H.
  apply pad_exact. now apply H.
Qed.

Lemma pd_DataFrame_width_mismatch (cols : list string) (data : list (list scalar)) :
  data <> [] ->
  max_width data <> List.length cols ->
  pd_DataFrame cols data
  = Raise (ValueError "columns passed, passed data had a different number of columns").
Proof.
  intros Hdata Hne. unfold pd_DataFrame.
  destruct data as [| r0 d]; [congruence |].
  replace (List.length cols =? max_width (r0 :: d))%nat with false; [reflexivity |].
  symmetry. apply Nat.eqb_neq. congruence.
Qed.

Lemma filter_length_all {A} (f : A -> bool) (l : list A) :
  List.length (filter f l) = List.length l -> forall x, In x l -> f x = true.
Proof.
  induction l as [| y l IH]; simpl; intros H x Hx; [destruct Hx |].
  pose proof (filter_length_le f l) as Hle.
  destruct (f y) eqn:E; simpl in H.
  - destruct Hx as [<- | Hx]; [exact E | apply IH; [lia | exact Hx]].
  - lia.
Qed.

Lemma mask_filter_all_true {A B} (f : A -> bool) (l : list A) :
  (forall x, In x l -> f x = true) ->
  forall r : list B, List.length r = List.length l ->
                     mask_filter (map f l) r = r.
Proof.
  induction l as [| x l IH]; intros H r Hr.
  - destruct r; [reflexivity | discriminate].
  - destruct r as [| y r]; [discriminate |]. simpl.
    rewrite (H x) by now left. f_equal.
    apply IH; [intros; apply H; now right | simpl in Hr; lia].
Qed.

(** Dropping what [difference] lists, on labels and rows. *)
Lemma drop_difference_rows (keep : string -> bool) (df : DataFrame) :
  drop (difference (columns df) (filter keep (columns df))) df
  = Ok {| columns := filter keep (columns df);
          rows := map (mask_filter (map keep (columns df))) (rows df) |}.
Proof.
  unfold drop. rewrite find_none_iff.
  - assert (Hmask : map (fun c => negb (str_in c (difference (columns df)
                                                   (filter keep (columns df)))))
                        (columns df)
                    = map keep (columns df)).
    { apply map_ext_in. intros c Hc. destruct (keep c) eqn:Ek.
      - apply negb_true_iff, str_in_not_In. rewrite difference_In, filter_In. tauto.
      - apply negb_false_iff, str_in_In. rewrite difference_In, filter_In.
        split; [assumption |]. intros [_ H]. congruence. }
    rewrite Hmask, mask_filter_map. reflexivity.
  - intros c Hc. apply difference_In in Hc.
    apply negb_false_iff, str_in_In. tauto.
Qed.

(** X11: when every row of the record set has one cell per title,
    [read_file_to_df] does not raise, and the table is the data without the
    excluded titles: its labels are the titles that are not excluded and a
    row holds the cells of the row at the places of these titles, whether
    the first build succeeded or the fallback was taken. *)
Theorem read_file_to_df_restricts :
  forall (records : RawRecordSet) (cols_exclude : list string),
    Forall (fun r => List.length r = List.length (titles records)) (data records) ->
    let keep := fun col => negb (str_in col cols_exclude) in
    exists l,
      read_file_to_df (Ok records) cols_exclude
      = (Ok {| columns := filter keep (titles records);
               rows := map (mask_filter (map keep (titles records))) (data records) |},
         l).
Proof.
  intros records cols_exclude Hshape keep.
  unfold read_file_to_df. simpl. fold keep.
  destruct (data records) as [| r0 data'] eqn:Ed.
  - eexists. reflexivity.
  - rewrite <- Ed in *.
    destruct (List.length (filter keep (titles records))
              =? List.length (titles records))%nat eqn:E.
    + apply Nat.eqb_eq in E.
      pose proof (filter_length_all keep _ E) as Hall.
      assert (Hrows : map (mask_filter (map keep (titles records))) (data records)
                      = data records).
      { rewrite <- (map_id (data records)) at 2.
        apply map_ext_in. intros r Hr. rewrite Forall_forall in Hshape.
        apply mask_filter_all_true; auto. }
      rewrite pd_DataFrame_exact by now rewrite E.
      rewrite Hrows. eexists. reflexivity.
    + assert (Hraise : pd_DataFrame (filter keep (titles records)) (data records)
                       = Raise (ValueError
                           "columns passed, passed data had a different number of columns")).
      { apply pd_DataFrame_width_mismatch; [congruence |].
        replace (max_width (data records)) with (List.length (titles records))
          by (rewrite Ed; symmetry; apply max_width_exact;
              rewrite <- Ed; exact Hshape).
        apply Nat.eqb_neq in E. congruence. }
      rewrite Hraise. simpl.
      rewrite (pd_DataFrame_exact _ _ Hshape). simpl.
      pose proof (drop_difference_rows keep
                    {| columns := titles records; rows := data records |}) as Hd.
      simpl in Hd. rewrite Hd. eexists. reflexivity.
Qed.

(** X12: when the file holds rows and the longest of them has neither as
    many cells as there are titles nor as many as there are titles that
    are not excluded, both builds fail: [read_file_to_df] logs the fallback
    and raises the [ValueError] of pandas, and [load_df], which retries
    after a JSON decode error only, raises it after one opening of the
    file. *)
Theorem load_df_shape_error :
  forall (fs : filesystem) (filepath encoding : string) (cols_exclude : list string)
         (records : RawRecordSet),
    fs filepath encoding = Ok (Ok records) ->
    data records <> [] ->
    max_width (data records) <> List.length (titles records) ->
    max_width (data records)
    <> List.length (filter (fun col => negb (str_in col cols_exclude)) (titles records)) ->
    let fallback :=
      Log INFO
        "Failed to load partial set of columns from input data. Loading entire DataFrame and filtering."
        [] in
    exists msg,
      read_file_to_df (Ok records) cols_exclude = (Raise (ValueError msg), [fallback]) /\
      load_df fs filepath cols_exclude encoding
      = (Raise (ValueError msg), [Open filepath encoding; fallback]).
Proof.
  intros fs filepath encoding cols_exclude records Hfs Hdata Htitles Hfeat fallback.
  exists "columns passed, passed data had a different number of columns".
  assert (Hread : read_file_to_df (Ok records) cols_exclude
                  = (Raise (ValueError
                       "columns passed, passed data had a different number of columns"),
                     [fallback])).
  { unfold read_file_to_df. simpl.
    rewrite (pd_DataFrame_width_mismatch _ _ Hdata Hfeat). simpl.
    now rewrite (pd_DataFrame_width_mismatch _ _ Hdata Htitles). }
  split; [exact Hread |].
  unfold load_df, open_and_read. rewrite Hfs. simpl.
  rewrite Hread. reflexivity.
Qed.

(** X13: [load_df] opens the file once with the configured encoding and at
    most once more, then with utf-8 and only when the lower-cased name of
    the configured encoding does not start with [utf]; it never opens the
    file a third time. *)
Theorem load_df_opens_at_most_twice :
  forall (fs : filesystem) (filepath encoding : string) (cols_exclude : list string),
    opens (snd (load_df fs filepath cols_exclude encoding)) = [(filepath, encoding)]
    \/
    (startswith (lower encoding) "utf" = false /\
     opens (snd (load_df fs filepath cols_exclude encoding))
     = [(filepath, encoding); (filepath, "utf-8")]).
Proof.
  intros fs filepath encoding cols_exclude.
  pose proof (open_and_read_opens fs filepath cols_exclude encoding) as H1.
  pose proof (open_and_read_opens fs filepath cols_exclude "utf-8") as H2.
  unfold load_df.
  destruct (open_and_read fs filepath cols_exclude encoding) as [[df | e] l];
    simpl in H1; [left; exact H1 |].
  destruct e; try (left; exact H1).
  simpl. destruct (startswith (lower encoding) "utf") eqn:E; simpl.
  - left. rewrite opens_app, H1. reflexivity.
  - right. split; [reflexivity |].
    destruct (open_and_read fs filepath cols_exclude "utf-8") as [r l2].
    simpl in *. rewrite !opens_app, H1. simpl. now rewrite H2.
Qed.

End ReadFacts.

(** ** Batches of files *)

Section BatchFacts.

Import AppShield.

Variable fs : filesystem.
Variables cols_include cols_exclude plugins_include : list string.
Variable encoding : string.

#[warnings="-notation-for-abbreviation"]
Notation file_to_df' :=
  (file_to_df fs cols_include cols_exclude plugins_include encoding).
#[warnings="-notation-for-abbreviation"]
Notation files_loop' :=
  (files_loop fs cols_include cols_exclude plugins_include encoding).
#[warnings="-notation-for-abbreviation"]
Notation files_to_dfs' :=
  (files_to_dfs fs cols_include cols_exclude plugins_include encoding).

Lemma load_meta_cols_Ok_source (filepath_split : list string) plugin plugin_df df :
  load_meta_cols filepath_split plugin plugin_df = Ok df ->
  exists snapshot_id timestamp source,
    py_index filepath_split (-3) = Ok source /\
    df = setitem
           (setitem
              (setitem (setitem plugin_df "snapshot_id" (SInt snapshot_id))
                       "timestamp" timestamp)
              "source" (SStr source))
           "plugin" (SStr plugin).
Proof.
  unfold load_meta_cols.
  destruct (List.length filepath_split <? 3)%nat; [discriminate |].
  destruct (py_index filepath_split (-3)) as [source |]; [| discriminate].
  destruct (py_index filepath_split (-2)) as [snap |]; [| discriminate].
  simpl result_bind.
  destruct (py_index (split "-"%char snap) 1) as [snap_id |]; [| discriminate].
  simpl result_bind.
  destruct (py_int snap_id) as [snapshot_id |]; [| discriminate].
  simpl result_bind.
  destruct (py_index filepath_split (-1)) as [last |]; [| discriminate].
  simpl result_bind.
  destruct (re_search ts_pattern last) as [group1 |]; [| discriminate].
  intro H. injection H as <-. eauto.
Qed.

Lemma table_labels_fresh (cols : list string) :
  (forall c, In c ["snapshot_id"; "timestamp"; "source"; "plugin"] -> ~ In c cols) ->
  table_labels cols = (cols ++ ["snapshot_id"; "timestamp"; "source"; "plugin"])%list.
Proof.
  intro H. unfold table_labels, with_label.
  rewrite (proj2 (str_in_not_In "snapshot_id" cols)) by (apply H; simpl; tauto).
  replace (str_in "timestamp" (cols ++ ["snapshot_id"])) with false.
  2:{ symmetry. apply str_in_not_In. rewrite in_app_iff. simpl.
      intros [Hc | [Hc | []]]; [| discriminate].
      revert Hc. apply H. simpl. tauto. }
  replace (str_in "source" ((cols ++ ["snapshot_id"]) ++ ["timestamp"])) with false.
  2:{ symmetry. apply str_in_not_In. rewrite !in_app_iff. simpl.
      intros [[Hc | [Hc | []]] | [Hc | []]]; try discriminate.
      revert Hc. apply H. simpl. tauto. }
  replace (str_in "plugin" (((cols ++ ["snapshot_id"]) ++ ["timestamp"]) ++ ["source"]))
    with false.
  2:{ symmetry. apply str_in_not_In. rewrite !in_app_iff. simpl.
      intros [[[Hc | [Hc | []]] | [Hc | []]] | [Hc | []]]; try discriminate.
      revert Hc. apply H. simpl. tauto. }
  now rewrite <- !app_assoc.
Qed.

(** X14: on files with distinct titles, a table that the [try] body of
    [files_to_dfs] produces comes from a file of a plugin that is asked
    for; its labels are the included columns followed by the metadata
    columns (just appended, in order, when the include list names none of
    them); its rows have one cell per label; every row holds the third
    segment from the end of the path under [source] and the plugin name
    under [plugin]. *)
Theorem file_to_df_table :
  forall (filepath : string) (t : DataFrame) (l : list event),
    (forall p e records, fs p e = Ok (Ok records) -> NoDup (titles records)) ->
    file_to_df' filepath = (Ok (Some t), l) ->
    str_in (plugin_of filepath) plugins_include = true /\
    columns t = table_labels cols_include /\
    ((forall c, In c ["snapshot_id"; "timestamp"; "source"; "plugin"] ->
                ~ In c cols_include) ->
     columns t
     = (cols_include ++ ["snapshot_id"; "timestamp"; "source"; "plugin"])%list) /\
    well_formed t /\
    exists source,
      py_index (split "/"%char filepath) (-3) = Ok source /\
      Forall (fun r =>
                cell (columns t) r "source" = SStr source /\
                cell (columns t) r "plugin" = SStr (plugin_of filepath))
             (rows t).
Proof.
  intros filepath t l Hfs. rewrite file_to_df_unfold.
  destruct (str_in (plugin_of filepath) plugins_include); [| discriminate].
  destruct (load_df fs filepath cols_exclude encoding) as [[df0 | e] l0] eqn:El;
    [| discriminate].
  destruct (load_df_Ok _ _ _ _ _ _ El) as [enc' [l' Hopen]].
  destruct (open_and_read_Ok _ _ _ _ _ _ Hopen) as [records [l'' [Hfile Hread]]].
  destruct (read_file_to_df_well_formed _ _ _ _ (Hfs _ _ _ Hfile) Hread)
    as [Hwf0 Hnd0].
  unfold bind at 1.
  destruct (fill_interested_cols df0 cols_include) as [df1 | e] eqn:Ef;
    [| discriminate].
  destruct (fill_interested_cols_spec _ _ _ Hwf0 Hnd0 Ef) as [Hcols Hwf1].
  rewrite bind_lift_Ok.
  destruct (load_meta_cols (split "/"%char filepath) (plugin_of filepath) df1)
    as [df2 | e] eqn:Em; [| discriminate].
  rewrite bind_lift_Ok. unfold ret.
  intro H. injection H as <- _.
  destruct (load_meta_cols_Ok_source _ _ _ _ Em) as [id [ts [src [Hsrc ->]]]].
  destruct (setitem_spec df1 "snapshot_id" (SInt id) Hwf1) as [Hw1 _].
  destruct (setitem_spec _ "timestamp" ts Hw1) as [Hw2 _].
  destruct (setitem_spec _ "source" (SStr src) Hw2) as [Hw3 [_ [Hs3 _]]].
  destruct (setitem_spec _ "plugin" (SStr (plugin_of filepath)) Hw3)
    as [Hw4 [_ [Hp4 Hkeep]]].
  assert (Hlab : columns (setitem (setitem (setitem (setitem df1 "snapshot_id" (SInt id))
                                                    "timestamp" ts)
                                           "source" (SStr src))
                                  "plugin" (SStr (plugin_of filepath)))
                 = table_labels cols_include)
    by (rewrite !setitem_columns, Hcols; reflexivity).
  split; [reflexivity |]. split; [exact Hlab |].
  split; [intro Hfresh; rewrite Hlab; now apply table_labels_fresh |].
  split; [exact Hw4 |].
  exists src. split; [exact Hsrc |].
  specialize (Hkeep "source" (SStr src) ltac:(discriminate) Hs3).
  rewrite Forall_forall in *. intros r Hr. split; auto.
Qed.

(** X15: files of plugins that are not asked for do not count: the result
    and the events of [files_to_dfs] are those of the batch without
    them. *)
Theorem files_to_dfs_ignores_other_plugins :
  forall x : list string,
    files_to_dfs' x
    = files_to_dfs' (filter (fun p => str_in (plugin_of p) plugins_include) x).
Proof.
  intro x. unfold files_to_dfs. f_equal. generalize (@nil DataFrame) as acc.
  induction x as [| p rest IH]; intro acc; [reflexivity |].
  simpl filter. destruct (str_in (plugin_of p) plugins_include) eqn:Ep.
  - simpl files_loop.
    destruct (file_to_df' p) as [[[t |] | e] l]; now rewrite IH.
  - rewrite (files_loop_pass _ _ _ _ _ _ _ _ _
               (file_to_df_unrecognized fs cols_include cols_exclude
                  plugins_include encoding p Ep)).
    simpl. rewrite <- IH. now destruct (files_loop' rest acc).
Qed.

(** The frames collected by the loop when no file raises anything but a
    JSON decode error: the tables of the files that gave one, in the order
    of the batch. *)
Lemma files_loop_collects (x : list string) :
  forall acc,
    Forall (fun p => forall e, fst (file_to_df' p) = Raise e ->
                               exists msg, e = JSONDecodeError msg) x ->
    fst (files_loop' x acc)
    = Ok (acc ++ flat_map (fun p => match fst (file_to_df' p) with
                                    | Ok (Some t) => [t]
                                    | _ => []
                                    end) x)%list.
Proof.
  induction x as [| p rest IH]; intros acc Hx.
  - simpl. now rewrite app_nil_r.
  - inversion Hx as [| ? ? Hp Hrest]; subst.
    destruct (file_to_df' p) as [[[t |] | e] l] eqn:E.
    + rewrite (files_loop_append _ _ _ _ _ _ _ _ _ _ E). simpl fst.
      rewrite (IH _ Hrest). cbn [flat_map]. rewrite E. simpl.
      now rewrite <- app_assoc.
    + rewrite (files_loop_pass _ _ _ _ _ _ _ _ _ E). simpl fst.
      rewrite (IH _ Hrest). cbn [flat_map]. rewrite E. reflexivity.
    + destruct (Hp e) as [msg ->]; [reflexivity |].
      rewrite (files_loop_decode_error _ _ _ _ _ _ _ _ _ _ E). simpl fst.
      rewrite (IH _ Hrest). cbn [flat_map]. rewrite E. reflexivity.
Qed.

(** X16: when no file of the batch raises anything but a JSON decode
    error, the result of [files_to_dfs] is what [batch_source_split] makes
    of the tables of the files that gave one, in the order of the batch:
    every file that is passed over or not JSON is left out and nothing
    else is.  The node of the source stage then emits the messages that
    [_build_metadata] makes of this result, or raises as
    [batch_source_split] does. *)
Theorem files_to_dfs_splits_loaded_tables :
  forall x : list string,
    Forall (fun p => forall e, fst (file_to_df' p) = Raise e ->
                               exists msg, e = JSONDecodeError msg) x ->
    let tables :=
      flat_map (fun p => match fst (file_to_df' p) with
                         | Ok (Some t) => [t]
                         | _ => []
                         end) x in
    fst (files_to_dfs' x) = batch_source_split tables "source" /\
    fst (post_node_messages fs cols_include cols_exclude plugins_include encoding x)
    = result_bind (batch_source_split tables "source")
                  (fun m => Ok (_build_metadata m)).
Proof.
  intros x Hx tables.
  assert (H : fst (files_to_dfs' x) = batch_source_split tables "source").
  { unfold files_to_dfs.
    pose proof (files_loop_collects x [] Hx) as H.
    destruct (files_loop' x []) as [r l]. simpl in H. subst r. simpl.
    fold tables. now destruct (batch_source_split tables "source"). }
  split; [exact H |].
  unfold post_node_messages. rewrite <- H.
  now destruct (files_to_dfs' x) as [[m | e] l].
Qed.

(** X17: an exception of a file that is not a JSON decode error ends the
    call: the files after it are not read, and when the files before it
    raise nothing but JSON decode errors the exception is the outcome of
    [files_to_dfs]. *)
Theorem files_to_dfs_aborts :
  forall (before after : list string) (p : string) (e : exn) (l : list event),
    file_to_df' p = (Raise e, l) ->
    (forall msg, e <> JSONDecodeError msg) ->
    files_to_dfs' (before ++ p :: after) = files_to_dfs' (before ++ [p]) /\
    (Forall (fun q => forall e', fst (file_to_df' q) = Raise e' ->
                                 exists msg, e' = JSONDecodeError msg) before ->
     fst (files_to_dfs' (before ++ p :: after)) = Raise e).
Proof.
  intros before after p e l Hp Hne.
  assert (Hstop : forall rest acc, files_loop' (p :: rest) acc = (Raise e, l)).
  { intros rest acc. simpl. rewrite Hp.
    destruct e; try reflexivity. exfalso. now apply (Hne msg). }
  assert (Hloop : forall acc,
            files_loop' (before ++ p :: after) acc = files_loop' (before ++ [p]) acc).
  { induction before as [| q before IH]; intro acc.
    - simpl app. now rewrite !Hstop.
    - simpl app. simpl files_loop.
      destruct (file_to_df' q) as [[[t |] | e'] l']; now rewrite IH. }
  split.
  - unfold files_to_dfs. now rewrite Hloop.
  - intro Hbefore. unfold files_to_dfs. rewrite Hloop.
    assert (Hraise : forall acc, fst (files_loop' (before ++ [p]) acc) = Raise e).
    { clear Hloop. induction Hbefore as [| q before Hq _ IH]; intro acc.
      - simpl app. now rewrite Hstop.
      - simpl app. destruct (file_to_df' q) as [[[t |] | e'] l'] eqn:E.
        + rewrite (files_loop_append _ _ _ _ _ _ _ _ _ _ E). apply IH.
        + rewrite (files_loop_pass _ _ _ _ _ _ _ _ _ E). apply IH.
        + destruct (Hq e') as [msg ->]; [reflexivity || now rewrite E |].
          rewrite (files_loop_decode_error _ _ _ _ _ _ _ _ _ _ E). apply IH. }
    specialize (Hraise []).
    destruct (files_loop' (before ++ [p]) []) as [r l0]. simpl in Hraise.
    subst r. reflexivity.
Qed.

End BatchFacts.

(** ** Partitions and messages *)

Section MessageFacts.

Import AppShield.

(** X18: when the tables of the batch have the same labels and the
    grouping column is not one of them, [batch_source_split] raises
    [KeyError] for that column. *)
Theorem batch_source_split_missing_column :
  forall (first : DataFrame) (rest : list DataFrame) (source : string),
    Forall (fun t => columns t = columns first) rest ->
    ~ In source (columns first) ->
    batch_source_split (first :: rest) source = Raise (KeyError source).
Proof.
  intros first rest source Hsame Hnot. unfold batch_source_split, pd_concat.
  replace (forallb (fun df => list_eqb (columns df) (columns first)) (first :: rest))
    with true.
  - simpl result_bind. unfold getitem_col. simpl columns.
    rewrite filter_none; [reflexivity |].
    intros c Hc. apply String.eqb_neq. intro; subst; tauto.
  - symmetry. apply forallb_forall. intros df [<- | Hdf].
    + unfold list_eqb. now destruct (list_eq_dec string_dec _ _).
    + rewrite Forall_forall in Hsame. rewrite (Hsame df Hdf).
      unfold list_eqb. now destruct (list_eq_dec string_dec _ _).
Qed.

(** X19: for normalized tables that hold at least one row,
    [_build_metadata] on the result of [batch_source_split] gives one
    message per distinct source, in the order in which the sources first
    appear in the batch; no message is empty, and every row of a message
    has the source of the message. *)
Theorem build_metadata_one_message_per_source :
  forall (cols : list string) (T : list DataFrame),
    Forall (normalized cols) T ->
    flat_map rows T <> [] ->
    exists m,
      batch_source_split T "source" = Ok m /\
      map meta_source (_build_metadata m)
      = unique (map (fun r => cell cols r "source") (flat_map rows T)) /\
      Forall (fun msg =>
                rows (meta_df msg) <> [] /\
                Forall (fun r => cell cols r "source" = meta_source msg)
                       (rows (meta_df msg)))
             (_build_metadata m).
Proof.
  intros cols T Hn Hrows.
  rewrite (batch_source_split_spec cols T Hn Hrows).
  eexists. split; [reflexivity |].
  unfold _build_metadata. rewrite !map_map. simpl. split.
  - apply map_id.
  - apply Forall_map, Forall_forall. intros k Hk. simpl.
    apply unique_In, in_map_iff in Hk. destruct Hk as [r [Hkey Hr]]. split.
    + intro Hnil.
      assert (Hin : In r (filter (fun r0 => scalar_eqb (cell cols r0 "source") k)
                                 (flat_map rows T))).
      { apply filter_In. split; [exact Hr |]. now apply scalar_eqb_eq. }
      rewrite Hnil in Hin. destruct Hin.
    + apply Forall_forall. intros r' Hr'. apply filter_In in Hr'.
      now apply scalar_eqb_eq.
Qed.


End MessageFacts.

(** ** Plugins that are not asked for *)

(** X6: a file whose base name starts with a plugin name that is not in
    [plugins_include] (the part of the base name before its first [_]) is
    passed over by the [try] body of [files_to_dfs]: it is not opened and
    nothing is logged. *)
Theorem file_to_df_skips_unrequested :
  forall (fs : AppShield.filesystem)
         (cols_include cols_exclude plugins_include : list string)
         (encoding dir name rest : string),
    AppShield.all_chars (AppShield.not_char "/"%char) (name ++ String "_"%char rest)
    = true ->
    AppShield.all_chars (AppShield.not_char "_"%char) name = true ->
    str_in name plugins_include = false ->
    AppShield.file_to_df fs cols_include cols_exclude plugins_include encoding
      (dir ++ String "/"%char (name ++ String "_"%char rest))
    = (Ok None, []).
Proof.
  intros fs cols_include cols_exclude plugins_include encoding dir name rest
         Hbase Hname Hnot.
  apply file_to_df_unrecognized.
  now rewrite (plugin_of_path dir name rest Hbase Hname).
Qed.

(** ** Instances of the further properties *)

(** The frame of users completed for the GNN example. *)
Lemma preallocate_df_column_order_witness :
  NoDup (Preallocator.keys Examples.gnn_columns) /\
  exists R,
    Preallocator._preallocate_df Examples.numpy_str Examples.gnn_columns
      Examples.users_df = Ok R /\
    Preallocator.columns R = ["user"; "node_id"; "prediction"].
Proof.
  assert (Hnd : NoDup (Preallocator.keys Examples.gnn_columns))
    by (repeat constructor; simpl; intuition discriminate).
  split; [exact Hnd |].
  destruct (preallocate_df_column_order Examples.numpy_str Examples.gnn_columns
              Examples.users_df Hnd) as [R [HR [Hcols _]]].
  exists R. split; [exact HR | exact Hcols].
Defined.

(** The two columns of the GNN example, asked for one after the other. *)
Lemma preallocate_df_compose_witness :
  NoDup (Preallocator.keys ([("node_id", Preallocator.INT64)]
                              ++ [("prediction", Preallocator.FLOAT32)])%list) /\
  result_bind
    (Preallocator._preallocate_df Examples.numpy_str
       [("node_id", Preallocator.INT64)] Examples.users_df)
    (Preallocator._preallocate_df Examples.numpy_str
       [("prediction", Preallocator.FLOAT32)])
  = Preallocator._preallocate_df Examples.numpy_str Examples.gnn_columns
      Examples.users_df.
Proof.
  assert (Hnd : NoDup (Preallocator.keys ([("node_id", Preallocator.INT64)]
                              ++ [("prediction", Preallocator.FLOAT32)])%list))
    by (repeat constructor; simpl; intuition discriminate).
  split; [exact Hnd |].
  exact (preallocate_df_compose Examples.numpy_str _ _ Examples.users_df Hnd).
Defined.

(** A stage that emits pandas dataframes. *)
Lemma post_build_single_cpp_only_for_messages_witness :
  Preallocator.issubclass (Preallocator.Class Examples.pd_DataFrame_class)
    [Preallocator.cls_MessageMeta; Preallocator.cls_MultiMessage] <> Ok true /\
  Preallocator._post_build_single Examples.pretty_name true
    (Preallocator.mkStage "src" (Preallocator.Class Examples.pd_DataFrame_class)
       Examples.gnn_columns)
    Examples.empty_builder "src"
  = Preallocator._post_build_single Examples.pretty_name false
      (Preallocator.mkStage "src" (Preallocator.Class Examples.pd_DataFrame_class)
         Examples.gnn_columns)
      Examples.empty_builder "src".
Proof.
  assert (H : Preallocator.issubclass (Preallocator.Class Examples.pd_DataFrame_class)
                [Preallocator.cls_MessageMeta; Preallocator.cls_MultiMessage]
              <> Ok true) by discriminate.
  split; [exact H |].
  exact (post_build_single_cpp_only_for_messages Examples.pretty_name true false
           (Preallocator.mkStage "src" (Preallocator.Class Examples.pd_DataFrame_class)
              Examples.gnn_columns)
           Examples.empty_builder "src" H).
Defined.

(** A stage that emits [MessageMeta], with the switch on. *)
Lemma post_build_single_message_meta_first_witness :
  Examples.gnn_columns <> [] /\
  fst (Preallocator._post_build_single Examples.pretty_name true
         (Preallocator.mkStage "src" (Preallocator.Class Examples.MessageMeta_class)
            Examples.gnn_columns)
         Examples.empty_builder "src")
  = Ok "src-preallocate".
Proof.
  assert (Hne : Preallocator._needed_columns
                  (Preallocator.mkStage "src"
                     (Preallocator.Class Examples.MessageMeta_class)
                     Examples.gnn_columns) <> []) by discriminate.
  split; [exact Hne |].
  rewrite (post_build_single_message_meta_first Examples.pretty_name true
             (Preallocator.mkStage "src"
                (Preallocator.Class Examples.MessageMeta_class) Examples.gnn_columns)
             Examples.empty_builder "src" Hne eq_refl).
  reflexivity.
Defined.

(** A [netscan] file in a batch that asks for [proc] only. *)
Lemma file_to_df_skips_unrequested_witness :
  str_in "netscan" ["proc"] = false /\
  AppShield.file_to_df Examples.demo_fs ["PID"; "Process"] ["SHA256"] ["proc"]
    "latin1" Examples.other_path
  = (Ok None, []).
Proof.
  split; [reflexivity |].
  exact (file_to_df_skips_unrequested Examples.demo_fs ["PID"; "Process"]
           ["SHA256"] ["proc"] "latin1" "/data/hostA/snap-42" "netscan"
           "2023-01-02.json" eq_refl eq_refl eq_refl).
Defined.

(** The path of the process file, from its parts. *)
Lemma load_meta_cols_derives_metadata_witness :
  AppShield.all_chars (AppShield.not_char "-"%char) "snap" = true /\
  AppShield.load_meta_cols (AppShield.split "/"%char Examples.proc_path) "proc"
    Examples.proc_table
  = Ok Examples.table_A.
Proof.
  split; [reflexivity |].
  assert (Hname : "proc" <> EmptyString) by discriminate.
  assert (Hts : "2023-01-02" <> EmptyString) by discriminate.
  exact (load_meta_cols_derives_metadata "/data" "hostA" "snap" "proc" "2023-01-02"
           "proc" 42 Examples.proc_table
           eq_refl eq_refl eq_refl Hname eq_refl Hts eq_refl).
Defined.

(** The process table asked for [PID] and a column it does not have. *)
Lemma fill_interested_cols_selects_witness :
  AppShield.well_formed Examples.proc_table /\
  NoDup (AppShield.columns Examples.proc_table) /\
  AppShield.fill_interested_cols Examples.proc_table ["PID"; "Name"]
  = Ok {| AppShield.columns := ["PID"; "Name"];
          AppShield.rows := [ [SInt 4; SNone]; [SInt 88; SNone] ] |}.
Proof.
  assert (Hwf : AppShield.well_formed Examples.proc_table) by (repeat constructor).
  assert (Hnd : NoDup (AppShield.columns Examples.proc_table))
    by (repeat constructor; simpl; intuition discriminate).
  split; [exact Hwf |]. split; [exact Hnd |].
  exact (fill_interested_cols_selects Examples.proc_table ["PID"; "Name"] Hwf Hnd).
Defined.

(** The process file without its [SHA256] column. *)
Lemma read_file_to_df_restricts_witness :
  Forall (fun r => List.length r = List.length (AppShield.titles Examples.proc_records))
         (AppShield.data Examples.proc_records) /\
  exists l,
    AppShield.read_file_to_df (Ok Examples.proc_records) ["SHA256"]
    = (Ok Examples.proc_table, l).
Proof.
  assert (H : Forall (fun r => List.length r
                               = List.length (AppShield.titles Examples.proc_records))
                     (AppShield.data Examples.proc_records))
    by (repeat constructor).
  split; [exact H |].
  destruct (read_file_to_df_restricts Examples.proc_records ["SHA256"] H) as [l Hl].
  exists l. exact Hl.
Defined.

(** A row of three cells under two titles. *)
Lemma load_df_shape_error_witness :
  AppShield.data Examples.ragged_records <> [] /\
  exists msg,
    fst (AppShield.load_df Examples.ragged_fs Examples.proc_path ["SHA256"] "latin1")
    = Raise (ValueError msg).
Proof.
  assert (Hd : AppShield.data Examples.ragged_records <> []) by discriminate.
  assert (H1 : AppShield.max_width (AppShield.data Examples.ragged_records)
               <> List.length (AppShield.titles Examples.ragged_records))
    by discriminate.
  assert (H2 : AppShield.max_width (AppShield.data Examples.ragged_records)
               <> List.length (filter (fun col => negb (str_in col ["SHA256"]))
                                      (AppShield.titles Examples.ragged_records)))
    by discriminate.
  split; [exact Hd |].
  destruct (load_df_shape_error Examples.ragged_fs Examples.proc_path "latin1"
              ["SHA256"] Examples.ragged_records eq_refl Hd H1 H2)
    as [msg [_ Hload]].
  exists msg. now rewrite Hload.
Defined.

Lemma demo_fs_distinct_titles :
  forall p e records,
    Examples.demo_fs p e = Ok (Ok records) -> NoDup (AppShield.titles records).
Proof.
  intros p e records. unfold Examples.demo_fs.
  destruct (String.eqb p Examples.proc_path);
    [| destruct (String.eqb p Examples.proc_path_B);
       [| destruct (String.eqb p Examples.corrupt_path);
          [| destruct (String.eqb p Examples.other_path)]]];
    intro H; try discriminate; injection H as <-;
    repeat constructor; simpl; intuition discriminate.
Defined.

(** The table of the process file. *)
Lemma file_to_df_table_witness :
  fst (AppShield.file_to_df Examples.demo_fs ["PID"; "Process"] ["SHA256"] ["proc"]
         "latin1" Examples.proc_path) = Ok (Some Examples.table_A) /\
  AppShield.columns Examples.table_A
  = AppShield.table_labels ["PID"; "Process"] /\
  AppShield.well_formed Examples.table_A.
Proof.
  split; [reflexivity |].
  destruct (file_to_df_table Examples.demo_fs ["PID"; "Process"] ["SHA256"] ["proc"]
              "latin1" Examples.proc_path Examples.table_A _
              demo_fs_distinct_titles eq_refl) as [_ [Hcols [_ [Hwf _]]]].
  split; [exact Hcols | exact Hwf].
Defined.

Lemma demo_batch_decode_errors_only :
  Forall (fun p => forall e,
            fst (AppShield.file_to_df Examples.demo_fs ["PID"; "Process"] ["SHA256"]
                   ["proc"] "latin1" p) = Raise e ->
            exists msg, e = JSONDecodeError msg)
         [Examples.proc_path; Examples.corrupt_path; Examples.other_path].
Proof.
  repeat constructor; intros e H; vm_compute in H; try discriminate.
  injection H as <-. eexists. reflexivity.
Defined.

(** A batch of a process file, a file that is not JSON and a file of
    another plugin: the result is the partition of the one table. *)
Lemma files_to_dfs_splits_loaded_tables_witness :
  fst (AppShield.files_to_dfs Examples.demo_fs ["PID"; "Process"] ["SHA256"] ["proc"]
         "latin1" [Examples.proc_path; Examples.corrupt_path; Examples.other_path])
  = AppShield.batch_source_split [Examples.table_A] "source".
Proof.
  exact (proj1 (files_to_dfs_splits_loaded_tables Examples.demo_fs
                  ["PID"; "Process"] ["SHA256"] ["proc"] "latin1" _
                  demo_batch_decode_errors_only)).
Defined.

(** The file that cannot be decoded as utf-8, between two process files. *)
Lemma files_to_dfs_aborts_witness :
  (forall msg,
     UnicodeDecodeError
       "'utf-8' codec can't decode byte 0xff in position 0: invalid start byte"
     <> JSONDecodeError msg) /\
  AppShield.files_to_dfs Examples.binary_fs ["PID"; "Process"] ["SHA256"] ["proc"]
    "latin1" [Examples.proc_path; Examples.corrupt_path; Examples.proc_path_B]
  = AppShield.files_to_dfs Examples.binary_fs ["PID"; "Process"] ["SHA256"] ["proc"]
      "latin1" [Examples.proc_path; Examples.corrupt_path].
Proof.
  assert (Hne : forall msg,
            UnicodeDecodeError
              "'utf-8' codec can't decode byte 0xff in position 0: invalid start byte"
            <> JSONDecodeError msg) by (intros msg H; discriminate H).
  split; [exact Hne |].
  exact (proj1 (files_to_dfs_aborts Examples.binary_fs ["PID"; "Process"] ["SHA256"]
                  ["proc"] "latin1" [Examples.proc_path] [Examples.proc_path_B]
                  Examples.corrupt_path _ _ eq_refl Hne)).
Defined.

(** A batch of process tables split by a column they do not have. *)
Lemma batch_source_split_missing_column_witness :
  ~ In "source" (AppShield.columns Examples.proc_table) /\
  AppShield.batch_source_split [Examples.proc_table; Examples.proc_table] "source"
  = Raise (KeyError "source").
Proof.
  assert (Hnot : ~ In "source" (AppShield.columns Examples.proc_table))
    by (simpl; intuition discriminate).
  split; [exact Hnot |].
  exact (batch_source_split_missing_column Examples.proc_table [Examples.proc_table]
           "source" (Forall_cons _ eq_refl (Forall_nil _)) Hnot).
Defined.

(** The tables of the two hosts: a message for [hostA], then one for
    [hostB]. *)
Lemma build_metadata_one_message_per_source_witness :
  exists m,
    AppShield.batch_source_split [Examples.table_A; Examples.table_B] "source" = Ok m /\
    map AppShield.meta_source (AppShield._build_metadata m)
    = [SStr "hostA"; SStr "hostB"].
Proof.
  assert (Hsrc : In "source" Examples.meta_labels) by (simpl; tauto).
  assert (Hnd : NoDup Examples.meta_labels)
    by (repeat constructor; simpl; intuition discriminate).
  assert (Hn : Forall (AppShield.normalized Examples.meta_labels)
                      [Examples.table_A; Examples.table_B]).
  { constructor; [| constructor; [| constructor]].
    - split; [reflexivity |]. split; [exact Hnd |]. split; [exact Hsrc |].
      repeat constructor; exists "hostA"; reflexivity.
    - split; [reflexivity |]. split; [exact Hnd |]. split; [exact Hsrc |].
      repeat constructor; exists "hostB"; reflexivity. }
  assert (Hr : flat_map AppShield.rows [Examples.table_A; Examples.table_B] <> [])
    by discriminate.
  destruct (build_metadata_one_message_per_source Examples.meta_labels
              [Examples.table_A; Examples.table_B] Hn Hr) as [m [Hm [Hkeys _]]].
  exists m. split; [exact Hm | exact Hkeys].
Defined.

(** A base name with [x] in place of the dot and a tail after [json]. *)
Lemma load_meta_cols_loose_suffix_witness :
  AppShield.ts_char "x"%char = false /\
  exists df,
    AppShield.load_meta_cols ["hostA"; "snap-42"; "proc_2023xjson.bak"] "proc"
      Examples.proc_table = Ok df /\
    AppShield.columns df = Examples.meta_labels.
Proof.
  split; [reflexivity |].
  assert (Hname : "proc" <> EmptyString) by discriminate.
  assert (Hts : "2023" <> EmptyString) by discriminate.
  assert (Hx : "x"%char <> "010"%char) by discriminate.
  eexists. split.
  - exact (load_meta_cols_loose_suffix [] "hostA" "snap" "proc" "2023" ".bak" "proc"
             "x"%char 42 Examples.proc_table
             eq_refl Hname eq_refl Hts eq_refl eq_refl Hx).
  - reflexivity.
Defined.

